(** * Smart-meter telemetry simulator and gateway relay

    A shallow embedding of
      - [edge_simulation/simulator.py]      (SimulatorConfig, MeterState,
                                             MeterSimulator)
      - [edge_simulation/gateway_relay.py]  (NetworkProfile, GatewayStats,
                                             GatewayRelay)
    and the properties of the telemetry core that follow from that code.

    Conventions of the embedding.
      - A Python [float] is an exact rational ([Q]); equality of floats is
        [Qeq] ([==]).  A Python [int] is a [Z].  Rounding is not modelled,
        with one exception: the product that [generate_reading] divides by
        underflows to zero as a binary64 product does ([float_mul]), since
        that decides whether the division raises.
      - The [random] and [math] modules are an interface ([PyLib]) with the
        documented ranges of their results as laws; [ScriptedRng] is an
        instance that replays a script of variates, [CalmRng] one whose
        normal variates are bounded.
      - [time.time()] and [datetime.now()] replay a script held in the
        process state; [time.sleep] accumulates the time slept.
      - Methods are computations in a state-and-exception monad over the
        process state (random state, clock, the object [self]); a raised
        exception keeps the mutations made before it.
      - A [MeterState] object is referred to by its position in the list
        [self.meters]; the outbound sink is the log of the calls made to
        the Pub/Sub publisher.
      - Logging, printing, argument parsing and the [main] functions are not
        part of the embedding, except for the construction sequence of the
        relay's [main] ([main_setup]).  [run_with_simulator], which feeds
        the stream of the simulator to [publish] and ends with [shutdown],
        is embedded with the generator inlined in its loop ([Driver]). *)

From Stdlib Require Import ZArith QArith Qround Qabs Lqa Lia List String Ascii Bool.
From Stdlib Require Import DecimalString DecimalNat DecimalFacts.
From stdpp Require Import base list.
Import ListNotations.

Local Open Scope Q_scope.

(** ** Python numbers *)

(** [x % y] on floats, for [y <> 0]: the result has the sign of [y]. *)
Definition float_mod (x y : Q) : Q := x - y * inject_Z (Qfloor (x / y)).

(** [max(a, b)]: the first argument unless the second is larger. *)
Definition py_max (a b : Q) : Q := if Qlt_le_dec a b then b else a.

(** Half of the smallest positive binary64 number, [2 ** -1074]. *)
Definition float_tiny : Q := 1 # (2 ^ 1075).

(** [x * y] on floats, where the product is a divisor.  A binary64 product
    is zero when a factor is zero and when it underflows: an exact product
    of magnitude at most [2 ** -1075] is rounded to zero (to nearest, ties
    to even).  A product that does not underflow is kept exact. *)
Definition float_mul (x y : Q) : Q :=
  if Qle_bool (Qabs (x * y)) float_tiny then 0 else x * y.

(** [max(a, b)] on ints. *)
Definition py_max_int (a b : Z) : Z := if Z_lt_le_dec a b then b else a.

Definition round_half_even (x : Q) : Z :=
  let f := Qfloor x in
  let r := x - inject_Z f in
  if Qlt_le_dec r (1 # 2) then f
  else if Qlt_le_dec (1 # 2) r then (f + 1)%Z
  else if Z.even f then f else (f + 1)%Z.

(** [round(x, n)] for [n] decimals. *)
Definition py_round (x : Q) (n : nat) : Q :=
  inject_Z (round_half_even (x * inject_Z (10 ^ Z.of_nat n)))
  / inject_Z (10 ^ Z.of_nat n).

(** ** String formatting *)

Definition str_of_nat (n : nat) : string := NilZero.string_of_uint (Nat.to_uint n).

Fixpoint zeros (n : nat) : string :=
  match n with
  | O => EmptyString
  | S k => String "0"%char (zeros k)
  end.

(** [f"{n:0wd}"] for a non-negative [n]. *)
Definition zfill (w : nat) (n : Z) : string :=
  let s := str_of_nat (Z.to_nat n) in
  (zeros (w - String.length s) ++ s)%string.

(** ** Exceptions and the method monad *)

Inductive exn : Type :=
| ValueError
| ZeroDivisionError.

Inductive outcome (A : Type) : Type :=
| Returned (a : A)
| Raised (e : exn).
Arguments Returned {A} a.
Arguments Raised {A} e.

Definition M (St A : Type) : Type := St -> outcome A * St.

Definition ret {St A} (a : A) : M St A := fun s => (Returned a, s).

Definition raise {St A} (e : exn) : M St A := fun s => (Raised e, s).

Definition bind {St A B} (c : M St A) (k : A -> M St B) : M St B :=
  fun s =>
    match c s with
    | (Returned a, s') => k a s'
    | (Raised e, s') => (Raised e, s')
    end.

Definition gets {St A} (f : St -> A) : M St A := fun s => (Returned (f s), s).

Definition modify {St} (f : St -> St) : M St unit := fun s => (Returned tt, f s).

Declare Scope py_scope.
Delimit Scope py_scope with py.
Notation "x <- c ;; k" := (bind c (fun x => k))
  (at level 100, c at next level, right associativity) : py_scope.
Notation "c ;;; k" := (bind c (fun _ => k))
  (at level 100, right associativity) : py_scope.
Local Open Scope py_scope.

(** [for x in xs: body x]. *)
Fixpoint for_each {St A} (xs : list A) (body : A -> M St unit) : M St unit :=
  match xs with
  | [] => ret tt
  | x :: rest => body x ;;; for_each rest body
  end.

(** [try: body finally: handler], and [try: body except: handler; raise]:
    [handler] runs when [body] raises; the exception of [body] goes on
    unless [handler] raises one itself. *)
Definition on_error {St A} (body : M St A) (handler : M St unit) : M St A :=
  fun s =>
    match body s with
    | (Returned a, s1) => (Returned a, s1)
    | (Raised e, s1) =>
        match handler s1 with
        | (Returned _, s2) => (Raised e, s2)
        | (Raised e', s2) => (Raised e', s2)
        end
    end.

(** ** The [random] and [math] modules *)

Class PyLib (G : Type) : Type := {
  (** [random.seed(n)]: the generator state after seeding depends on [n] only. *)
  random_seed : Z -> G;
  (** [random.random()]. *)
  random_random : G -> Q * G;
  (** [random.randrange(a, b + 1)] for a non-empty range [a <= b]. *)
  random_randrange : Z -> Z -> G -> Z * G;
  (** The standard normal variate [z] behind [random.gauss]. *)
  random_normal : G -> Q * G;
  (** [math.acos]; [None] is its domain error. *)
  math_acos : Q -> option Q;
  (** [math.tan]. *)
  math_tan : Q -> Q;
  random_random_range : forall g, 0 <= (random_random g).1 /\ (random_random g).1 < 1;
  random_randrange_range : forall a b g,
    (a <= b)%Z -> (a <= (random_randrange a b g).1 <= b)%Z;
  math_acos_domain : forall x, math_acos x = None <-> (x < -1 \/ 1 < x)
}.

(** ** Wall clock *)

Record datetime : Type := {
  year : Z; month : Z; day : Z;
  hour : Z; minute : Z; second : Z; microsecond : Z
}.

(** [timestamp.isoformat()] of a UTC-aware datetime. *)
Definition isoformat (t : datetime) : string :=
  (zfill 4 (year t) ++ "-" ++ zfill 2 (month t) ++ "-" ++ zfill 2 (day t)
   ++ "T" ++ zfill 2 (hour t) ++ ":" ++ zfill 2 (minute t) ++ ":" ++ zfill 2 (second t)
   ++ (if (microsecond t =? 0)%Z then "" else "." ++ zfill 6 (microsecond t))
   ++ "+00:00")%string.

Record Clock : Type := {
  time_script : nat -> Q;        (* successive results of time.time() *)
  time_reads : nat;
  now_script : nat -> datetime;  (* successive results of datetime.now(timezone.utc) *)
  now_reads : nat;
  slept : Q                      (* total of time.sleep *)
}.

(** ** Process state: the process-wide random state, the clock and [self] *)

Record Process (G T : Type) : Type := {
  rng : G;
  clock : Clock;
  self : T
}.
Arguments rng {G T} _.
Arguments clock {G T} _.
Arguments self {G T} _.

Definition set_rng {G T} (g : G) (s : Process G T) : Process G T :=
  {| rng := g; clock := clock s; self := self s |}.
Definition set_clock {G T} (c : Clock) (s : Process G T) : Process G T :=
  {| rng := rng s; clock := c; self := self s |}.
(** Running with another object as [self]. *)
Definition set_self {G T U} (x : U) (s : Process G T) : Process G U :=
  {| rng := rng s; clock := clock s; self := x |}.

Section Library.
Context {G : Type} `{PyLib G} {T : Type}.

Definition py_random_seed (n : Z) : M (Process G T) unit :=
  modify (set_rng (random_seed n)).

Definition py_random : M (Process G T) Q :=
  fun s => let '(u, g) := random_random (rng s) in (Returned u, set_rng g s).

(** [random.uniform(a, b)] is [a + (b - a) * random()]. *)
Definition py_uniform (a b : Q) : M (Process G T) Q :=
  u <- py_random ;; ret (a + (b - a) * u).

(** [random.randint(a, b)]: ValueError on an empty range. *)
Definition py_randint (a b : Z) : M (Process G T) Z :=
  if Z_le_gt_dec a b
  then fun s => let '(n, g) := random_randrange a b (rng s) in (Returned n, set_rng g s)
  else raise ValueError.

(** [random.gauss(mu, sigma)] is [mu + z * sigma]. *)
Definition py_gauss (mu sigma : Q) : M (Process G T) Q :=
  fun s => let '(z, g) := random_normal (rng s) in (Returned (mu + z * sigma), set_rng g s).

Definition py_acos (x : Q) : M (Process G T) Q :=
  match math_acos x with
  | Some a => ret a
  | None => raise ValueError
  end.

(** [x / y] on floats. *)
Definition float_div (x y : Q) : M (Process G T) Q :=
  if Qeq_dec y 0 then raise ZeroDivisionError else ret (x / y).

Definition time_time : M (Process G T) Q :=
  fun s =>
    let c := clock s in
    (Returned (time_script c (time_reads c)),
     set_clock {| time_script := time_script c; time_reads := S (time_reads c);
                  now_script := now_script c; now_reads := now_reads c;
                  slept := slept c |} s).

Definition datetime_now : M (Process G T) datetime :=
  fun s =>
    let c := clock s in
    (Returned (now_script c (now_reads c)),
     set_clock {| time_script := time_script c; time_reads := time_reads c;
                  now_script := now_script c; now_reads := S (now_reads c);
                  slept := slept c |} s).

Definition time_sleep (d : Q) : M (Process G T) unit :=
  modify (fun s =>
    let c := clock s in
    set_clock {| time_script := time_script c; time_reads := time_reads c;
                 now_script := now_script c; now_reads := now_reads c;
                 slept := slept c + d |} s).
End Library.

(** ** simulator.py: data model *)

Module MeterState.
Record t : Type := {
  meter_id : string;
  pole_id : string;
  seq : Z;
  meter_factor : Q;
  power_factor : Q;
  in_sag : bool;
  sag_remaining_seconds : Z;
  sag_depth : Q
}.

Definition set_seq (n : Z) (m : t) : t :=
  {| meter_id := meter_id m; pole_id := pole_id m; seq := n;
     meter_factor := meter_factor m; power_factor := power_factor m;
     in_sag := in_sag m; sag_remaining_seconds := sag_remaining_seconds m;
     sag_depth := sag_depth m |}.

Definition set_in_sag (b : bool) (m : t) : t :=
  {| meter_id := meter_id m; pole_id := pole_id m; seq := seq m;
     meter_factor := meter_factor m; power_factor := power_factor m;
     in_sag := b; sag_remaining_seconds := sag_remaining_seconds m;
     sag_depth := sag_depth m |}.

Definition set_sag_remaining_seconds (n : Z) (m : t) : t :=
  {| meter_id := meter_id m; pole_id := pole_id m; seq := seq m;
     meter_factor := meter_factor m; power_factor := power_factor m;
     in_sag := in_sag m; sag_remaining_seconds := n;
     sag_depth := sag_depth m |}.

Definition set_sag_depth (d : Q) (m : t) : t :=
  {| meter_id := meter_id m; pole_id := pole_id m; seq := seq m;
     meter_factor := meter_factor m; power_factor := power_factor m;
     in_sag := in_sag m; sag_remaining_seconds := sag_remaining_seconds m;
     sag_depth := d |}.

(** [MeterState(meter_id=.., pole_id=.., meter_factor=.., power_factor=..)]:
    the other fields take the dataclass defaults. *)
Definition new (mid pid : string) (mf pf : Q) : t :=
  {| meter_id := mid; pole_id := pid; seq := 0;
     meter_factor := mf; power_factor := pf;
     in_sag := false; sag_remaining_seconds := 0; sag_depth := 0 |}.
End MeterState.

(** The value read through a position outside [self.meters]; the simulator
    only passes positions of the list. *)
#[global] Instance MeterState_inhabited : Inhabited MeterState.t :=
  populate (MeterState.new "" "" 1 (95 # 100)).

Record SimulatorConfig : Type := {
  pole_id : string;
  num_meters : Z;
  meter_id_prefix : string;
  sample_interval_seconds : Q;
  sample_hz : Q;
  voltage_nominal : Q;
  voltage_noise_std : Q;
  sag_threshold : Q;
  swell_threshold : Q;
  sag_probability : Q;
  sag_depth_min : Q;
  sag_depth_max : Q;
  sag_duration_min : Z;
  sag_duration_max : Z;
  base_load_kw : Q;
  peak_morning_kw : Q;
  peak_evening_kw : Q;
  midday_kw : Q;
  night_kw : Q;
  noise_factor : Q;
  meter_factor_min : Q;
  meter_factor_max : Q;
  pf_min : Q;
  pf_max : Q;
  pf_default : Q;
  freq_nominal : Q;
  freq_variation : Q;
  force_sag_interval : Z;
  stdout_events : bool
}.

(** The reading dictionary built by [generate_reading]; one field per key. *)
Module Reading.
Record t : Type := {
  event_ts : string;
  meter_id : string;
  pole_id : string;
  seq : Z;
  voltage_v : Q;
  current_a : Q;
  power_kw : Q;
  reactive_kvar : Q;
  freq_hz : Q;
  quality_flags : list string
}.
End Reading.

(** ** The parsed YAML document

    A section is a dictionary read with [.get(key, default)]; a key that is
    absent is [None].  Values have the type the configuration gives them
    (numbers for numeric keys, strings for names). *)

Definition dict_get {A} (entry : option A) (default : A) : A :=
  match entry with
  | Some v => v
  | None => default
  end.

Record PoleDoc : Type := {
  doc_pole_id : option string;
  doc_num_meters : option Z;
  doc_meter_id_prefix : option string
}.

Record SamplingDoc : Type := {
  doc_preset : option string;
  doc_sample_interval_seconds : option Q;
  doc_sample_hz : option Q
}.

Record VoltageDoc : Type := {
  doc_nominal_v : option Q;
  doc_noise_std : option Q;
  doc_sag_threshold : option Q;
  doc_swell_threshold : option Q;
  doc_sag_probability : option Q;
  doc_sag_depth_min : option Q;
  doc_sag_depth_max : option Q;
  doc_sag_duration_min : option Z;
  doc_sag_duration_max : option Z
}.

Record PowerDoc : Type := {
  doc_base_load_kw : option Q;
  doc_peak_morning_kw : option Q;
  doc_peak_evening_kw : option Q;
  doc_midday_kw : option Q;
  doc_night_kw : option Q;
  doc_noise_factor : option Q;
  doc_meter_factor_min : option Q;
  doc_meter_factor_max : option Q
}.

Record ReactiveDoc : Type := {
  doc_power_factor_min : option Q;
  doc_power_factor_max : option Q;
  doc_power_factor_default : option Q
}.

Record FrequencyDoc : Type := {
  doc_nominal_hz : option Q;
  doc_variation_hz : option Q
}.

Record ElectricalDoc : Type := {
  doc_voltage : option VoltageDoc;
  doc_power : option PowerDoc;
  doc_reactive : option ReactiveDoc;
  doc_frequency : option FrequencyDoc
}.

Record DemoDoc : Type := {
  doc_force_sag_interval_seconds : option Z
}.

Record LoggingDoc : Type := {
  doc_stdout_events : option bool
}.

Record ConfigDoc : Type := {
  doc_pole : option PoleDoc;
  doc_sampling : option SamplingDoc;
  doc_electrical : option ElectricalDoc;
  doc_demo : option DemoDoc;
  doc_logging : option LoggingDoc
}.

(** The empty dictionaries [{}] used as defaults of the section lookups. *)
Definition empty_pole := {| doc_pole_id := None; doc_num_meters := None; doc_meter_id_prefix := None |}.
Definition empty_sampling := {| doc_preset := None; doc_sample_interval_seconds := None; doc_sample_hz := None |}.
Definition empty_voltage :=
  {| doc_nominal_v := None; doc_noise_std := None; doc_sag_threshold := None;
     doc_swell_threshold := None; doc_sag_probability := None; doc_sag_depth_min := None;
     doc_sag_depth_max := None; doc_sag_duration_min := None; doc_sag_duration_max := None |}.
Definition empty_power :=
  {| doc_base_load_kw := None; doc_peak_morning_kw := None; doc_peak_evening_kw := None;
     doc_midday_kw := None; doc_night_kw := None; doc_noise_factor := None;
     doc_meter_factor_min := None; doc_meter_factor_max := None |}.
Definition empty_reactive :=
  {| doc_power_factor_min := None; doc_power_factor_max := None; doc_power_factor_default := None |}.
Definition empty_frequency := {| doc_nominal_hz := None; doc_variation_hz := None |}.
Definition empty_electrical :=
  {| doc_voltage := None; doc_power := None; doc_reactive := None; doc_frequency := None |}.
Definition empty_demo := {| doc_force_sag_interval_seconds := None |}.
Definition empty_logging := {| doc_stdout_events := None |}.

(** [preset_intervals.get(preset, 30)]. *)
Definition preset_intervals_get (preset : string) : Q :=
  if String.eqb preset "high_frequency" then 30
  else if String.eqb preset "standard" then 300
  else if String.eqb preset "low_frequency" then 900
  else 30.

(** [SimulatorConfig.from_yaml].  After the preset lookup [sample_interval]
    is never [None], so the deprecated [sample_hz] conversion guarded by
    [sample_interval is None] cannot run; the key is read and not used. *)
Definition from_yaml (config_dict : ConfigDoc) : SimulatorConfig :=
  let pole := dict_get (doc_pole config_dict) empty_pole in
  let sampling := dict_get (doc_sampling config_dict) empty_sampling in
  let electrical := dict_get (doc_electrical config_dict) empty_electrical in
  let voltage := dict_get (doc_voltage electrical) empty_voltage in
  let power := dict_get (doc_power electrical) empty_power in
  let reactive := dict_get (doc_reactive electrical) empty_reactive in
  let frequency := dict_get (doc_frequency electrical) empty_frequency in
  let demo := dict_get (doc_demo config_dict) empty_demo in
  let logging_conf := dict_get (doc_logging config_dict) empty_logging in
  let preset := dict_get (doc_preset sampling) "high_frequency"%string in
  let sample_interval :=
    match doc_sample_interval_seconds sampling with
    | Some v => v
    | None => preset_intervals_get preset
    end in
  {| pole_id := dict_get (doc_pole_id pole) "pole_A"%string;
     num_meters := dict_get (doc_num_meters pole) 10%Z;
     meter_id_prefix := dict_get (doc_meter_id_prefix pole) "m"%string;
     sample_interval_seconds := sample_interval;
     sample_hz := if Qlt_le_dec 0 sample_interval then 1 / sample_interval else 1;
     voltage_nominal := dict_get (doc_nominal_v voltage) 240;
     voltage_noise_std := dict_get (doc_noise_std voltage) 3;
     sag_threshold := dict_get (doc_sag_threshold voltage) 220;
     swell_threshold := dict_get (doc_swell_threshold voltage) 260;
     sag_probability := dict_get (doc_sag_probability voltage) (1 # 1000);
     sag_depth_min := dict_get (doc_sag_depth_min voltage) 10;
     sag_depth_max := dict_get (doc_sag_depth_max voltage) 30;
     sag_duration_min := dict_get (doc_sag_duration_min voltage) 3%Z;
     sag_duration_max := dict_get (doc_sag_duration_max voltage) 15%Z;
     base_load_kw := dict_get (doc_base_load_kw power) (1 # 2);
     peak_morning_kw := dict_get (doc_peak_morning_kw power) (5 # 2);
     peak_evening_kw := dict_get (doc_peak_evening_kw power) 4;
     midday_kw := dict_get (doc_midday_kw power) 1;
     night_kw := dict_get (doc_night_kw power) (2 # 5);
     noise_factor := dict_get (doc_noise_factor power) (15 # 100);
     meter_factor_min := dict_get (doc_meter_factor_min power) (7 # 10);
     meter_factor_max := dict_get (doc_meter_factor_max power) (3 # 2);
     pf_min := dict_get (doc_power_factor_min reactive) (85 # 100);
     pf_max := dict_get (doc_power_factor_max reactive) (99 # 100);
     pf_default := dict_get (doc_power_factor_default reactive) (95 # 100);
     freq_nominal := dict_get (doc_nominal_hz frequency) 60;
     freq_variation := dict_get (doc_variation_hz frequency) (5 # 100);
     force_sag_interval := dict_get (doc_force_sag_interval_seconds demo) 0%Z;
     stdout_events := dict_get (doc_stdout_events logging_conf) false |}.

(** ** simulator.py: MeterSimulator *)

Record MeterSimulator : Type := {
  config : SimulatorConfig;
  meters : list MeterState.t;
  _last_force_sag_time : Q;
  _readings_since_sag : Z
}.

Definition set_meters (ms : list MeterState.t) (o : MeterSimulator) : MeterSimulator :=
  {| config := config o; meters := ms;
     _last_force_sag_time := _last_force_sag_time o;
     _readings_since_sag := _readings_since_sag o |}.

Definition set_last_force_sag_time (t : Q) (o : MeterSimulator) : MeterSimulator :=
  {| config := config o; meters := meters o;
     _last_force_sag_time := t;
     _readings_since_sag := _readings_since_sag o |}.

(** [_get_load_curve_factor]: the piecewise linear load curve. *)
Definition _get_load_curve_factor (cfg : SimulatorConfig) (hour : Q) : Q :=
  let hour := float_mod hour 24 in
  if Qle_bool 0 hour && negb (Qle_bool 5 hour) then night_kw cfg
  else if Qle_bool 5 hour && negb (Qle_bool 6 hour) then
    let t := hour - 5 in
    night_kw cfg + t * (peak_morning_kw cfg - night_kw cfg)
  else if Qle_bool 6 hour && negb (Qle_bool 9 hour) then peak_morning_kw cfg
  else if Qle_bool 9 hour && negb (Qle_bool 10 hour) then
    let t := hour - 9 in
    peak_morning_kw cfg - t * (peak_morning_kw cfg - midday_kw cfg)
  else if Qle_bool 10 hour && negb (Qle_bool 16 hour) then midday_kw cfg
  else if Qle_bool 16 hour && negb (Qle_bool 17 hour) then
    let t := hour - 16 in
    midday_kw cfg + t * (peak_evening_kw cfg - midday_kw cfg)
  else if Qle_bool 17 hour && negb (Qle_bool 21 hour) then peak_evening_kw cfg
  else if Qle_bool 21 hour && negb (Qle_bool 22 hour) then
    let t := hour - 21 in
    peak_evening_kw cfg - t * (peak_evening_kw cfg - night_kw cfg)
  else night_kw cfg.

(** [x < y] on floats. *)
Definition Qltb (x y : Q) : bool := if Qlt_le_dec x y then true else false.
Arguments Qltb : simpl never.

(** [range(n)]. *)
Definition py_range (n : Z) : list Z := map Z.of_nat (seq 0 (Z.to_nat n)).

Section Simulator.
Context {G : Type} `{PyLib G}.

(** The loop of [MeterSimulator.__init__] that creates the meters. *)
Fixpoint init_meters {T} (config : SimulatorConfig) (indices : list Z)
  : M (Process G T) (list MeterState.t) :=
  match indices with
  | [] => ret []
  | i :: rest =>
      let meter_id :=
        (meter_id_prefix config ++ "_" ++ pole_id config ++ "_" ++ zfill 4 i)%string in
      meter_factor <- py_uniform (meter_factor_min config) (meter_factor_max config) ;;
      power_factor <- py_uniform (pf_min config) (pf_max config) ;;
      ms <- init_meters config rest ;;
      ret (MeterState.new meter_id (pole_id config) meter_factor power_factor :: ms)
  end.

(** [np.random.seed(n)]: NumPy accepts seeds from 0 to 2**32 - 1 and raises
    a ValueError for others.  The simulator never draws from the NumPy
    generator, whose state is not part of the process state. *)
Definition np_random_seed {T} (n : Z) : M (Process G T) unit :=
  if (0 <=? n)%Z && (n <? 2 ^ 32)%Z then ret tt else raise ValueError.

(** [MeterSimulator.__init__(config, seed)]. *)
Definition MeterSimulator__init__ {T} (config : SimulatorConfig) (seed : option Z)
  : M (Process G T) MeterSimulator :=
  match seed with
  | Some n => py_random_seed n ;;; np_random_seed n
  | None => ret tt
  end ;;;
  ms <- init_meters config (py_range (num_meters config)) ;;
  now <- time_time ;;
  ret {| config := config; meters := ms;
         _last_force_sag_time := now; _readings_since_sag := 0 |}.

(** A [MeterState] object is referred to by its position in [self.meters]. *)
Definition read_meter (meter : nat) : M (Process G MeterSimulator) MeterState.t :=
  gets (fun s => meters (self s) !!! meter).

Definition update_meter (meter : nat) (f : MeterState.t -> MeterState.t)
  : M (Process G MeterSimulator) unit :=
  modify (fun s => set_self (set_meters (alter f meter (meters (self s))) (self s)) s).

Definition _should_start_sag (meter : nat) : M (Process G MeterSimulator) bool :=
  m <- read_meter meter ;;
  if MeterState.in_sag m then ret false
  else
    cfg <- gets (fun s => config (self s)) ;;
    forced <-
      (if Z_lt_le_dec 0 (force_sag_interval cfg) then
         now <- time_time ;;
         last <- gets (fun s => _last_force_sag_time (self s)) ;;
         if Qle_bool (inject_Z (force_sag_interval cfg)) (now - last) then
           modify (fun s => set_self (set_last_force_sag_time now (self s)) s) ;;;
           ret true
         else ret false
       else ret false) ;;
    if forced : bool then ret true
    else
      u <- py_random ;;
      ret (Qltb u (sag_probability cfg)).

Definition _update_sag_state (meter : nat) : M (Process G MeterSimulator) Q :=
  m <- read_meter meter ;;
  if MeterState.in_sag m then
    update_meter meter (fun m =>
      MeterState.set_sag_remaining_seconds (MeterState.sag_remaining_seconds m - 1) m) ;;;
    m <- read_meter meter ;;
    if Z_le_gt_dec (MeterState.sag_remaining_seconds m) 0 then
      update_meter meter (MeterState.set_in_sag false) ;;;
      update_meter meter (MeterState.set_sag_depth 0) ;;;
      ret 0
    else ret (- MeterState.sag_depth m)
  else
    start <- _should_start_sag meter ;;
    if start : bool then
      cfg <- gets (fun s => config (self s)) ;;
      update_meter meter (MeterState.set_in_sag true) ;;;
      depth <- py_uniform (sag_depth_min cfg) (sag_depth_max cfg) ;;
      update_meter meter (MeterState.set_sag_depth depth) ;;;
      duration <- py_randint (sag_duration_min cfg) (sag_duration_max cfg) ;;
      update_meter meter (MeterState.set_sag_remaining_seconds duration) ;;;
      m <- read_meter meter ;;
      ret (- MeterState.sag_depth m)
    else ret 0.

(** The quality flags of a voltage: sag is checked first. *)
Definition quality_flags_of (cfg : SimulatorConfig) (voltage_v : Q) : list string :=
  if Qlt_le_dec voltage_v (sag_threshold cfg) then ["voltage_sag"%string]
  else if Qlt_le_dec (swell_threshold cfg) voltage_v then ["voltage_swell"%string]
  else [].

Definition generate_reading (meter : nat) (timestamp : datetime)
  : M (Process G MeterSimulator) Reading.t :=
  cfg <- gets (fun s => config (self s)) ;;
  let hour := inject_Z (hour timestamp) + inject_Z (minute timestamp) / 60
              + inject_Z (second timestamp) / 3600 in
  let base_power := _get_load_curve_factor cfg hour in
  noise <- py_gauss 0 (noise_factor cfg) ;;
  let power_noise := 1 + noise in
  m <- read_meter meter ;;
  let power_kw := py_max 0 (base_power * MeterState.meter_factor m * power_noise) in
  voltage_noise <- py_gauss 0 (voltage_noise_std cfg) ;;
  sag_adjustment <- _update_sag_state meter ;;
  let voltage_v := voltage_nominal cfg + voltage_noise + sag_adjustment in
  let quality_flags := quality_flags_of cfg voltage_v in
  m <- read_meter meter ;;
  current_a <-
    (if Qltb 0 voltage_v && Qltb 0 power_kw
     then float_div (power_kw * 1000) (float_mul voltage_v (MeterState.power_factor m))
     else ret 0) ;;
  pf_angle <- py_acos (MeterState.power_factor m) ;;
  let reactive_kvar := power_kw * math_tan pf_angle in
  freq_noise <- py_gauss 0 (freq_variation cfg) ;;
  let freq_hz := freq_nominal cfg + freq_noise in
  update_meter meter (fun m => MeterState.set_seq (MeterState.seq m + 1) m) ;;;
  m <- read_meter meter ;;
  ret {| Reading.event_ts := isoformat timestamp;
         Reading.meter_id := MeterState.meter_id m;
         Reading.pole_id := MeterState.pole_id m;
         Reading.seq := MeterState.seq m;
         Reading.voltage_v := py_round voltage_v 2;
         Reading.current_a := py_round current_a 3;
         Reading.power_kw := py_round power_kw 3;
         Reading.reactive_kvar := py_round reactive_kvar 3;
         Reading.freq_hz := py_round freq_hz 3;
         Reading.quality_flags := quality_flags |}.

(** The loop of [generate_batch] over [self.meters]. *)
Fixpoint batch_loop (indices : list nat) (timestamp : datetime)
  : M (Process G MeterSimulator) (list Reading.t) :=
  match indices with
  | [] => ret []
  | meter :: rest =>
      reading <- generate_reading meter timestamp ;;
      readings <- batch_loop rest timestamp ;;
      ret (reading :: readings)
  end.

(** [generate_batch(timestamp=None)]; printing to stdout is not modelled. *)
Definition generate_batch (timestamp : option datetime)
  : M (Process G MeterSimulator) (list Reading.t) :=
  timestamp <- match timestamp with
               | None => datetime_now
               | Some t => ret t
               end ;;
  ms <- gets (fun s => meters (self s)) ;;
  batch_loop (seq 0 (length ms)) timestamp.

(** The [finally] clause of [stream_readings]: its log line divides the
    number of readings by the total time. *)
Definition stream_finally (start_time : Q) (reading_count : Z)
  : M (Process G MeterSimulator) unit :=
  t <- time_time ;;
  let total_time := t - start_time in
  float_div (inject_Z reading_count) total_time ;;;
  ret tt.

(** The first [cycles] iterations of the [while True] loop of
    [stream_readings], for a consumer that takes every reading.  The
    [finally] clause runs when the duration limit ends the loop and when
    [generate_batch] raises; after [cycles] cycles the generator is still
    suspended. *)
Fixpoint stream_loop (cycles : nat) (duration_seconds : Z) (interval start_time : Q)
  (reading_count : Z) : M (Process G MeterSimulator) (list Reading.t) :=
  match cycles with
  | O => ret []
  | S n =>
      cycle_start <- time_time ;;
      if (0 <? duration_seconds)%Z
         && Qle_bool (inject_Z duration_seconds) (cycle_start - start_time)
      then
        stream_finally start_time reading_count ;;;
        ret []
      else
        timestamp <- datetime_now ;;
        readings <- on_error (generate_batch (Some timestamp))
                             (stream_finally start_time reading_count) ;;
        let reading_count := (reading_count + Z.of_nat (length readings))%Z in
        t <- time_time ;;
        let cycle_duration := t - cycle_start in
        let sleep_time := py_max 0 (interval - cycle_duration) in
        (if Qltb 0 sleep_time then time_sleep sleep_time else ret tt) ;;;
        rest <- stream_loop n duration_seconds interval start_time reading_count ;;
        ret (readings ++ rest)
  end.

(** [stream_readings(duration_seconds)]: the readings yielded in the first
    [cycles] cycles.  The start-up log line evaluates [60 / interval],
    before the [try] block. *)
Definition stream_readings (duration_seconds : Z) (cycles : nat)
  : M (Process G MeterSimulator) (list Reading.t) :=
  interval <- gets (fun s => sample_interval_seconds (config (self s))) ;;
  start_time <- time_time ;;
  float_div 60 interval ;;;
  stream_loop cycles duration_seconds interval start_time 0.

End Simulator.

(** ** gateway_relay.py: data model *)

Record NetworkProfile : Type := {
  name : string;
  latency_ms_min : Z;
  latency_ms_max : Z;
  jitter_ms : Z;
  drop_prob : Q;
  reorder_prob : Q
}.

(** A profile dictionary of the [network.profiles] section. *)
Record ProfileDoc : Type := {
  doc_latency_ms_min : option Z;
  doc_latency_ms_max : option Z;
  doc_jitter_ms : option Z;
  doc_drop_prob : option Q;
  doc_reorder_prob : option Q
}.

(** [NetworkProfile.from_config]. *)
Definition from_config (name : string) (config : ProfileDoc) : NetworkProfile :=
  {| name := name;
     latency_ms_min := dict_get (doc_latency_ms_min config) 20%Z;
     latency_ms_max := dict_get (doc_latency_ms_max config) 100%Z;
     jitter_ms := dict_get (doc_jitter_ms config) 30%Z;
     drop_prob := dict_get (doc_drop_prob config) (1 # 1000);
     reorder_prob := dict_get (doc_reorder_prob config) (1 # 1000) |}.

(** The counters of [GatewayStats]; its lock serialises the updates, which
    are atomic steps here. *)
Record GatewayStats : Type := {
  messages_received : Z;
  messages_published : Z;
  messages_dropped : Z;
  messages_reordered : Z;
  publish_errors : Z;
  start_time : Q
}.

Definition record_received (count : Z) (st : GatewayStats) : GatewayStats :=
  {| messages_received := messages_received st + count;
     messages_published := messages_published st;
     messages_dropped := messages_dropped st;
     messages_reordered := messages_reordered st;
     publish_errors := publish_errors st;
     start_time := start_time st |}.

Definition record_published (count : Z) (st : GatewayStats) : GatewayStats :=
  {| messages_received := messages_received st;
     messages_published := messages_published st + count;
     messages_dropped := messages_dropped st;
     messages_reordered := messages_reordered st;
     publish_errors := publish_errors st;
     start_time := start_time st |}.

Definition record_dropped (count : Z) (st : GatewayStats) : GatewayStats :=
  {| messages_received := messages_received st;
     messages_published := messages_published st;
     messages_dropped := messages_dropped st + count;
     messages_reordered := messages_reordered st;
     publish_errors := publish_errors st;
     start_time := start_time st |}.

Definition record_reordered (count : Z) (st : GatewayStats) : GatewayStats :=
  {| messages_received := messages_received st;
     messages_published := messages_published st;
     messages_dropped := messages_dropped st;
     messages_reordered := messages_reordered st + count;
     publish_errors := publish_errors st;
     start_time := start_time st |}.

Definition record_error (count : Z) (st : GatewayStats) : GatewayStats :=
  {| messages_received := messages_received st;
     messages_published := messages_published st;
     messages_dropped := messages_dropped st;
     messages_reordered := messages_reordered st;
     publish_errors := publish_errors st + count;
     start_time := start_time st |}.

(** One call of [publisher.publish(topic_path, data=.., **attributes)]: the
    outbound sink is the log of these calls.  [data] stands for the JSON
    encoding of the message. *)
Record PublishCall : Type := {
  call_topic : string;
  call_data : Reading.t;
  attr_meter_id : string;
  attr_pole_id : string;
  attr_network_profile : string
}.

Record GatewayRelay : Type := {
  project_id : string;
  topic_name : string;
  topic_path : string;
  network_profile : NetworkProfile;
  stats : GatewayStats;
  publisher : list PublishCall;
  _reorder_buffer : list (Q * Reading.t);
  _reorder_delay_seconds : Q;
  _shutdown : bool
}.

Definition set_stats (st : GatewayStats) (r : GatewayRelay) : GatewayRelay :=
  {| project_id := project_id r; topic_name := topic_name r; topic_path := topic_path r;
     network_profile := network_profile r; stats := st; publisher := publisher r;
     _reorder_buffer := _reorder_buffer r;
     _reorder_delay_seconds := _reorder_delay_seconds r; _shutdown := _shutdown r |}.

Definition set_publisher (p : list PublishCall) (r : GatewayRelay) : GatewayRelay :=
  {| project_id := project_id r; topic_name := topic_name r; topic_path := topic_path r;
     network_profile := network_profile r; stats := stats r; publisher := p;
     _reorder_buffer := _reorder_buffer r;
     _reorder_delay_seconds := _reorder_delay_seconds r; _shutdown := _shutdown r |}.

Definition set_reorder_buffer (b : list (Q * Reading.t)) (r : GatewayRelay) : GatewayRelay :=
  {| project_id := project_id r; topic_name := topic_name r; topic_path := topic_path r;
     network_profile := network_profile r; stats := stats r; publisher := publisher r;
     _reorder_buffer := b;
     _reorder_delay_seconds := _reorder_delay_seconds r; _shutdown := _shutdown r |}.

Definition set_shutdown (b : bool) (r : GatewayRelay) : GatewayRelay :=
  {| project_id := project_id r; topic_name := topic_name r; topic_path := topic_path r;
     network_profile := network_profile r; stats := stats r; publisher := publisher r;
     _reorder_buffer := _reorder_buffer r;
     _reorder_delay_seconds := _reorder_delay_seconds r; _shutdown := b |}.

(** The dictionary returned by [GatewayStats.get_summary]. *)
Record Summary : Type := {
  elapsed_seconds : Q;
  sum_messages_received : Z;
  sum_messages_published : Z;
  sum_messages_dropped : Z;
  sum_messages_reordered : Z;
  sum_publish_errors : Z;
  publish_rate_per_sec : Q
}.

(** The call that [_do_publish] makes for a message: the topic, the data
    and the attributes [meter_id], [pole_id] and [network_profile]. *)
Definition call_of (r : GatewayRelay) (message : Reading.t) : PublishCall :=
  {| call_topic := topic_path r; call_data := message;
     attr_meter_id := Reading.meter_id message;
     attr_pole_id := Reading.pole_id message;
     attr_network_profile := name (network_profile r) |}.

(** ** gateway_relay.py: NetworkProfile and GatewayRelay methods *)

Section Gateway.
Context {G : Type} `{PyLib G}.

Definition get_latency_ms {T} (np : NetworkProfile) : M (Process G T) Z :=
  base <- py_randint (latency_ms_min np) (latency_ms_max np) ;;
  jitter <- py_randint (- jitter_ms np) (jitter_ms np) ;;
  ret (py_max_int 1 (base + jitter)).

Definition should_drop {T} (np : NetworkProfile) : M (Process G T) bool :=
  u <- py_random ;; ret (Qltb u (drop_prob np)).

Definition should_reorder {T} (np : NetworkProfile) : M (Process G T) bool :=
  u <- py_random ;; ret (Qltb u (reorder_prob np)).

(** [GatewayStats()]. *)
Definition GatewayStats__init__ {T} : M (Process G T) GatewayStats :=
  now <- time_time ;;
  ret {| messages_received := 0; messages_published := 0; messages_dropped := 0;
         messages_reordered := 0; publish_errors := 0; start_time := now |}.

(** [GatewayRelay.__init__] with a fresh Pub/Sub publisher client. *)
Definition GatewayRelay__init__ {T} (project_id topic_name : string)
  (network_profile : NetworkProfile) : M (Process G T) GatewayRelay :=
  st <- GatewayStats__init__ ;;
  ret {| project_id := project_id; topic_name := topic_name;
         topic_path := ("projects/" ++ project_id ++ "/topics/" ++ topic_name)%string;
         network_profile := network_profile; stats := st; publisher := [];
         _reorder_buffer := []; _reorder_delay_seconds := 2; _shutdown := false |}.

Definition update_stats (f : GatewayStats -> GatewayStats) : M (Process G GatewayRelay) unit :=
  modify (fun s => set_self (set_stats (f (stats (self s))) (self s)) s).

Definition get_summary : M (Process G GatewayRelay) Summary :=
  now <- time_time ;;
  st <- gets (fun s => stats (self s)) ;;
  let elapsed := now - start_time st in
  rate <- float_div (inject_Z (messages_published st)) (py_max 1 elapsed) ;;
  ret {| elapsed_seconds := py_round elapsed 1;
         sum_messages_received := messages_received st;
         sum_messages_published := messages_published st;
         sum_messages_dropped := messages_dropped st;
         sum_messages_reordered := messages_reordered st;
         sum_publish_errors := publish_errors st;
         publish_rate_per_sec := py_round rate 2 |}.

(** [_publish_callback]: runs when the sink confirms ([ok]) or fails. *)
Definition _publish_callback (ok : bool) : M (Process G GatewayRelay) unit :=
  if ok then update_stats (record_published 1) else update_stats (record_error 1).

Definition _do_publish (message : Reading.t) : M (Process G GatewayRelay) unit :=
  modify (fun s =>
    let r := self s in
    set_self (set_publisher (publisher r ++ [call_of r message]) r) s).

Definition popleft : M (Process G GatewayRelay) unit :=
  modify (fun s => set_self (set_reorder_buffer (tail (_reorder_buffer (self s))) (self s)) s).

(** The [while self._reorder_buffer] loop of [_process_reorder_buffer];
    every iteration that does not leave the loop pops one entry, so the
    length of the buffer bounds the number of iterations. *)
Fixpoint drain_loop (fuel : nat) (now : Q) : M (Process G GatewayRelay) unit :=
  match fuel with
  | O => ret tt
  | S n =>
      buf <- gets (fun s => _reorder_buffer (self s)) ;;
      match buf with
      | [] => ret tt
      | (msg_time, message) :: _ =>
          delay <- gets (fun s => _reorder_delay_seconds (self s)) ;;
          if Qle_bool delay (now - msg_time) then
            popleft ;;; _do_publish message ;;; drain_loop n now
          else ret tt
      end
  end.

Definition _process_reorder_buffer : M (Process G GatewayRelay) unit :=
  now <- time_time ;;
  buf <- gets (fun s => _reorder_buffer (self s)) ;;
  drain_loop (length buf) now.

Definition publish (message : Reading.t) : M (Process G GatewayRelay) bool :=
  update_stats (record_received 1) ;;;
  np <- gets (fun s => network_profile (self s)) ;;
  drop <- should_drop np ;;
  if drop : bool then
    update_stats (record_dropped 1) ;;;
    ret false
  else
    latency_ms <- get_latency_ms np ;;
    time_sleep (inject_Z latency_ms / 1000) ;;;
    reorder <- should_reorder np ;;
    (if reorder : bool then
       update_stats (record_reordered 1) ;;;
       now <- time_time ;;
       modify (fun s =>
         set_self (set_reorder_buffer (_reorder_buffer (self s) ++ [(now, message)]) (self s)) s)
     else _do_publish message) ;;;
    _process_reorder_buffer ;;;
    ret true.



(** The [while self._reorder_buffer] loop of [flush]. *)
Fixpoint flush_loop (fuel : nat) : M (Process G GatewayRelay) unit :=
  match fuel with
  | O => ret tt
  | S n =>
      buf <- gets (fun s => _reorder_buffer (self s)) ;;
      match buf with
      | [] => ret tt
      | (_, message) :: _ => popleft ;;; _do_publish message ;;; flush_loop n
      end
  end.

Definition flush : M (Process G GatewayRelay) unit :=
  buf <- gets (fun s => _reorder_buffer (self s)) ;;
  flush_loop (length buf).

(** [shutdown]: the final log line evaluates [get_summary]. *)
Definition shutdown : M (Process G GatewayRelay) unit :=
  modify (fun s => set_self (set_shutdown true (self s)) s) ;;;
  flush ;;;
  get_summary ;;;
  ret tt.

End Gateway.

(** ** A scripted random source

    An instance of [PyLib] that replays scripts of variates; results that
    [random.random()] and [random.randint] cannot return are brought into
    range.  [math.acos] and [math.tan] are coarse rational approximations,
    exact at [acos 1 = 0] and [tan 0 = 0]. *)

Record ScriptedRng : Type := {
  uniform_script : nat -> Q;
  int_script : nat -> Z;
  normal_script : nat -> Q;
  uniform_reads : nat;
  int_reads : nat;
  normal_reads : nat
}.

Definition unit_interval (u : Q) : Q :=
  if Qle_bool 0 u && Qltb u 1 then u else 0.

Definition scripted_seed (n : Z) : ScriptedRng :=
  {| uniform_script := fun k => ((n + Z.of_nat k) * 37 mod 100)%Z # 100;
     int_script := fun k => (n * 7 + Z.of_nat k * 13)%Z;
     normal_script := fun k => (((n + Z.of_nat k) * 11 mod 41)%Z - 20) # 10;
     uniform_reads := 0; int_reads := 0; normal_reads := 0 |}.

Definition scripted_random (g : ScriptedRng) : Q * ScriptedRng :=
  (unit_interval (uniform_script g (uniform_reads g)),
   {| uniform_script := uniform_script g; int_script := int_script g;
      normal_script := normal_script g; uniform_reads := S (uniform_reads g);
      int_reads := int_reads g; normal_reads := normal_reads g |}).

Definition scripted_randrange (a b : Z) (g : ScriptedRng) : Z * ScriptedRng :=
  ((a + int_script g (int_reads g) mod (b - a + 1))%Z,
   {| uniform_script := uniform_script g; int_script := int_script g;
      normal_script := normal_script g; uniform_reads := uniform_reads g;
      int_reads := S (int_reads g); normal_reads := normal_reads g |}).

Definition scripted_normal (g : ScriptedRng) : Q * ScriptedRng :=
  (normal_script g (normal_reads g),
   {| uniform_script := uniform_script g; int_script := int_script g;
      normal_script := normal_script g; uniform_reads := uniform_reads g;
      int_reads := int_reads g; normal_reads := S (normal_reads g) |}).

Definition approx_acos (x : Q) : option Q :=
  if Qlt_le_dec x (-1) then None
  else if Qlt_le_dec 1 x then None
  else Some ((157 # 100) * (1 - x)).

Definition approx_tan (x : Q) : Q := x + x * x * x / 3.

(** A script given by a list, continued with a default value. *)
Definition script_of {A} (l : list A) (d : A) : nat -> A := fun k => nth k l d.

Definition scripted (us : list Q) (ns : list Z) (zs : list Q) : ScriptedRng :=
  {| uniform_script := script_of us 0; int_script := script_of ns 0%Z;
     normal_script := script_of zs 0;
     uniform_reads := 0; int_reads := 0; normal_reads := 0 |}.

Definition clock_of (times : list Q) (nows : list datetime) : Clock :=
  {| time_script := script_of times 0; time_reads := 0;
     now_script := script_of nows
       {| year := 2025; month := 1; day := 1; hour := 0; minute := 0; second := 0;
          microsecond := 0 |};
     now_reads := 0; slept := 0 |}.

Definition unit_interval_range (u : Q) : 0 <= unit_interval u /\ unit_interval u < 1.
Proof.
  unfold unit_interval, Qltb.
  destruct (Qle_bool 0 u) eqn:E0; cbn [andb]; [|lra].
  apply Qle_bool_iff in E0.
  destruct (Qlt_le_dec u 1); lra.
Qed.

Definition scripted_randrange_range (a b : Z) (g : ScriptedRng) :
  (a <= b)%Z -> (a <= (scripted_randrange a b g).1 <= b)%Z.
Proof.
  intros Hab. cbn [scripted_randrange fst].
  pose proof (Z.mod_pos_bound (int_script g (int_reads g)) (b - a + 1)). lia.
Qed.

Definition approx_acos_domain (x : Q) : approx_acos x = None <-> (x < -1 \/ 1 < x).
Proof.
  unfold approx_acos.
  destruct (Qlt_le_dec x (-1)); [tauto |].
  destruct (Qlt_le_dec 1 x); [tauto |].
  split; [discriminate | intros [?|?]; lra].
Qed.

#[global] Instance ScriptedLib : PyLib ScriptedRng := {|
  random_seed := scripted_seed;
  random_random := scripted_random;
  random_randrange := scripted_randrange;
  random_normal := scripted_normal;
  math_acos := approx_acos;
  math_tan := approx_tan;
  random_random_range := fun g => unit_interval_range _;
  random_randrange_range := scripted_randrange_range;
  math_acos_domain := approx_acos_domain
|}.

(** The scripted source with its normal variates clipped to eight
    standard deviations: a source whose normal variates are bounded. *)
Record CalmRng : Type := { calm : ScriptedRng }.

Definition clipped (b z : Q) : Q :=
  if Qlt_le_dec z (- b) then - b else if Qlt_le_dec b z then b else z.

Definition calm_random (g : CalmRng) : Q * CalmRng :=
  ((scripted_random (calm g)).1, {| calm := (scripted_random (calm g)).2 |}).

Definition calm_randrange (a b : Z) (g : CalmRng) : Z * CalmRng :=
  ((scripted_randrange a b (calm g)).1, {| calm := (scripted_randrange a b (calm g)).2 |}).

Definition calm_normal (g : CalmRng) : Q * CalmRng :=
  (clipped 8 (scripted_normal (calm g)).1, {| calm := (scripted_normal (calm g)).2 |}).

#[global] Instance CalmLib : PyLib CalmRng := {|
  random_seed := fun n => {| calm := scripted_seed n |};
  random_random := calm_random;
  random_randrange := calm_randrange;
  random_normal := calm_normal;
  math_acos := approx_acos;
  math_tan := approx_tan;
  random_random_range := fun g => unit_interval_range _;
  random_randrange_range := fun a b g => scripted_randrange_range a b (calm g);
  math_acos_domain := approx_acos_domain
|}.

(** ** Specification-level definitions *)

(** The load curve in the words of the specification: plateaus joined by
    ramps, each ramp the linear interpolation of its two plateau values at
    the fractional progress through the ramp. *)
Definition lerp (a b t : Q) : Q := (1 - t) * a + t * b.

Definition progress (lo hi h : Q) : Q := (h - lo) / (hi - lo).

Definition load_curve_spec (cfg : SimulatorConfig) (h : Q) : Q :=
  if Qlt_le_dec h 5 then night_kw cfg
  else if Qlt_le_dec h 6 then lerp (night_kw cfg) (peak_morning_kw cfg) (progress 5 6 h)
  else if Qlt_le_dec h 9 then peak_morning_kw cfg
  else if Qlt_le_dec h 10 then lerp (peak_morning_kw cfg) (midday_kw cfg) (progress 9 10 h)
  else if Qlt_le_dec h 16 then midday_kw cfg
  else if Qlt_le_dec h 17 then lerp (midday_kw cfg) (peak_evening_kw cfg) (progress 16 17 h)
  else if Qlt_le_dec h 21 then peak_evening_kw cfg
  else if Qlt_le_dec h 22 then lerp (peak_evening_kw cfg) (night_kw cfg) (progress 21 22 h)
  else night_kw cfg.

(** An entry of the reorder buffer is due at [now] once it has waited for
    the reorder delay. *)
Definition due (delay now : Q) (entry : Q * Reading.t) : bool :=
  Qle_bool delay (now - entry.1).

(** The longest prefix of due entries, and what follows it. *)
Fixpoint take_due (delay now : Q) (buf : list (Q * Reading.t)) : list (Q * Reading.t) :=
  match buf with
  | [] => []
  | e :: rest => if due delay now e then e :: take_due delay now rest else []
  end.

Fixpoint drop_due (delay now : Q) (buf : list (Q * Reading.t)) : list (Q * Reading.t) :=
  match buf with
  | [] => []
  | e :: rest => if due delay now e then drop_due delay now rest else buf
  end.

(** The sag invariant of a meter. *)
Definition sag_invariant (m : MeterState.t) : Prop :=
  ((0 < MeterState.sag_remaining_seconds m)%Z <-> MeterState.in_sag m = true)
  /\ (MeterState.sag_depth m == 0 <-> MeterState.in_sag m = false).

(** The sag state machine of a meter, as one tick changes it; the second
    argument is the voltage adjustment of the tick.
      - SAGGING, continuing: one tick less remains, the offset is the depth;
      - SAGGING to NORMAL: no tick remains, the flag and the depth are cleared;
      - NORMAL: nothing changes;
      - NORMAL to SAGGING: depth [uniform(min, max)] from a draw [u] of
        [random()], duration from [randint(min, max)]. *)
Inductive sag_transition (cfg : SimulatorConfig) (m : MeterState.t)
  : Q -> MeterState.t -> Prop :=
| sag_continue :
    MeterState.in_sag m = true ->
    (0 < MeterState.sag_remaining_seconds m - 1)%Z ->
    sag_transition cfg m (- MeterState.sag_depth m)
      (MeterState.set_sag_remaining_seconds (MeterState.sag_remaining_seconds m - 1) m)
| sag_end :
    MeterState.in_sag m = true ->
    (MeterState.sag_remaining_seconds m - 1 <= 0)%Z ->
    sag_transition cfg m 0
      (MeterState.set_sag_depth 0
         (MeterState.set_in_sag false
            (MeterState.set_sag_remaining_seconds
               (MeterState.sag_remaining_seconds m - 1) m)))
| sag_none :
    MeterState.in_sag m = false ->
    sag_transition cfg m 0 m
| sag_start (u : Q) (d : Z) :
    MeterState.in_sag m = false ->
    0 <= u -> u < 1 ->
    (sag_duration_min cfg <= d <= sag_duration_max cfg)%Z ->
    sag_transition cfg m
      (- (sag_depth_min cfg + (sag_depth_max cfg - sag_depth_min cfg) * u))
      (MeterState.set_sag_remaining_seconds d
         (MeterState.set_sag_depth
            (sag_depth_min cfg + (sag_depth_max cfg - sag_depth_min cfg) * u)
            (MeterState.set_in_sag true m))).

(** What a tick leaves of the sag state when [randint] raises on an empty
    range of durations: the flag and the sampled depth are set, the
    remaining time is not. *)
Inductive sag_interrupted (cfg : SimulatorConfig) (m : MeterState.t)
  : MeterState.t -> Prop :=
| sag_start_raised (u : Q) :
    MeterState.in_sag m = false ->
    0 <= u -> u < 1 ->
    (sag_duration_max cfg < sag_duration_min cfg)%Z ->
    sag_interrupted cfg m
      (MeterState.set_sag_depth
         (sag_depth_min cfg + (sag_depth_max cfg - sag_depth_min cfg) * u)
         (MeterState.set_in_sag true m)).

(** The locals of [generate_reading], as functions of the draws: [z1] and
    [z2] are the normal variates of the power and the voltage noise,
    [adj] is the sag adjustment of the tick. *)
Definition hour_of (timestamp : datetime) : Q :=
  inject_Z (hour timestamp) + inject_Z (minute timestamp) / 60
  + inject_Z (second timestamp) / 3600.

Definition computed_power (cfg : SimulatorConfig) (timestamp : datetime)
  (m : MeterState.t) (z1 : Q) : Q :=
  py_max 0 (_get_load_curve_factor cfg (hour_of timestamp) * MeterState.meter_factor m
            * (1 + (0 + z1 * noise_factor cfg))).

Definition computed_voltage (cfg : SimulatorConfig) (z2 adj : Q) : Q :=
  voltage_nominal cfg + (0 + z2 * voltage_noise_std cfg) + adj.

(** The depth of a meter's sag stays within the configured maximum. *)
Definition depth_bounded (cfg : SimulatorConfig) (m : MeterState.t) : Prop :=
  0 <= MeterState.sag_depth m /\ MeterState.sag_depth m <= sag_depth_max cfg.

(** The fields of the relay that no method assigns after construction. *)
Definition same_setup (r r' : GatewayRelay) : Prop :=
  project_id r' = project_id r /\ topic_name r' = topic_name r
  /\ topic_path r' = topic_path r /\ network_profile r' = network_profile r
  /\ _reorder_delay_seconds r' = _reorder_delay_seconds r.

(** A seed that [MeterSimulator.__init__] accepts. *)
Definition valid_seed (seed : option Z) : Prop :=
  match seed with
  | Some n => (0 <= n < 2 ^ 32)%Z
  | None => True
  end.

(** A profile whose integer ranges are not empty. *)
Definition valid_profile (np : NetworkProfile) : Prop :=
  (latency_ms_min np <= latency_ms_max np)%Z /\ (0 <= jitter_ms np)%Z.

(** The messages held by the relay: handed to the sink, or waiting in the
    reorder buffer. *)
Definition held (r : GatewayRelay) : list Reading.t :=
  map call_data (publisher r) ++ map snd (_reorder_buffer r).

Inductive relay_event : Type :=
| EvPublish (message : Reading.t) (ok : bool)   (* publish(message) returned ok *)
| EvCallback (ok : bool)                         (* a delivery confirmation *)
| EvWorld.                                       (* other code draws or reads the clock *)

(** The messages of the [publish] calls that returned [True]. *)
Fixpoint accepted (evs : list relay_event) : list Reading.t :=
  match evs with
  | [] => []
  | EvPublish message true :: rest => message :: accepted rest
  | _ :: rest => accepted rest
  end.

Fixpoint count_publish (evs : list relay_event) : Z :=
  match evs with
  | [] => 0
  | EvPublish _ _ :: rest => 1 + count_publish rest
  | _ :: rest => count_publish rest
  end.

Fixpoint count_refused (evs : list relay_event) : Z :=
  match evs with
  | [] => 0
  | EvPublish _ false :: rest => 1 + count_refused rest
  | _ :: rest => count_refused rest
  end.

Inductive sim_event : Type :=
| EvReading (meter : nat) (reading : Reading.t)  (* generate_reading returned *)
| EvFailed (meter : nat) (e : exn)               (* generate_reading raised *)
| EvSimWorld.                                     (* other code draws or reads the clock *)

(** The number of ticks of one meter in a run. *)
Fixpoint ticks_of (meter : nat) (evs : list sim_event) : nat :=
  match evs with
  | [] => O
  | EvReading j _ :: rest => if Nat.eqb j meter then S (ticks_of meter rest) else ticks_of meter rest
  | _ :: rest => ticks_of meter rest
  end.

(** The number of calls of [generate_reading] for one meter in a run,
    whether they returned or raised. *)
Fixpoint calls_of (meter : nat) (evs : list sim_event) : nat :=
  match evs with
  | [] => O
  | EvReading j _ :: rest | EvFailed j _ :: rest =>
      if Nat.eqb j meter then S (calls_of meter rest) else calls_of meter rest
  | EvSimWorld :: rest => calls_of meter rest
  end.

(** The number of calls of [generate_reading] in a run. *)
Fixpoint calls_of_any (evs : list sim_event) : nat :=
  match evs with
  | [] => O
  | EvReading _ _ :: rest | EvFailed _ _ :: rest => S (calls_of_any rest)
  | EvSimWorld :: rest => calls_of_any rest
  end.

Section Runs.
Context {G : Type} `{PyLib G}.

(** Runs of the relay: completed [publish] calls in any number, with
    delivery confirmations and draws of other code in between. *)
Inductive relay_run
  : Process G GatewayRelay -> list relay_event -> Process G GatewayRelay -> Prop :=
| relay_run_nil s : relay_run s [] s
| relay_run_publish s message ok s1 evs s' :
    publish message s = (Returned ok, s1) ->
    relay_run s1 evs s' ->
    relay_run s (EvPublish message ok :: evs) s'
| relay_run_callback s ok s1 evs s' :
    _publish_callback ok s = (Returned tt, s1) ->
    relay_run s1 evs s' ->
    relay_run s (EvCallback ok :: evs) s'
| relay_run_world s g c evs s' :
    relay_run (set_clock c (set_rng g s)) evs s' ->
    relay_run s (EvWorld :: evs) s'.

(** Runs of the simulator: [generate_reading] calls on any of its meters,
    returning or raising, with draws of other code in between. *)
Inductive sim_run
  : Process G MeterSimulator -> list sim_event -> Process G MeterSimulator -> Prop :=
| sim_run_nil s : sim_run s [] s
| sim_run_reading s meter timestamp reading s1 evs s' :
    generate_reading meter timestamp s = (Returned reading, s1) ->
    sim_run s1 evs s' ->
    sim_run s (EvReading meter reading :: evs) s'
| sim_run_failed s meter timestamp e s1 evs s' :
    generate_reading meter timestamp s = (Raised e, s1) ->
    sim_run s1 evs s' ->
    sim_run s (EvFailed meter e :: evs) s'
| sim_run_world s g c evs s' :
    sim_run (set_clock c (set_rng g s)) evs s' ->
    sim_run s (EvSimWorld :: evs) s'.

(** A run of the simulator process: construction, then the first cycles
    of [stream_readings]. *)
Definition simulator_run (cfg : SimulatorConfig) (seed : option Z)
  (duration_seconds : Z) (cycles : nat) (w : Process G unit)
  : outcome (list Reading.t) :=
  match MeterSimulator__init__ cfg seed w with
  | (Returned sim, w') => (stream_readings duration_seconds cycles (set_self sim w')).1
  | (Raised e, _) => Raised e
  end.

End Runs.

(** ** Independence of the clock *)

Section ClockIndependence.
Context {G : Type}.

(** The same simulator process with another clock and another time of
    the last forced sag. *)
Definition reclock (c : Clock) (t : Q) (s : Process G MeterSimulator)
  : Process G MeterSimulator :=
  set_clock c (set_self (set_last_force_sag_time t (self s)) s).

Definition reclocked {A} (c : Clock) (t : Q) (x : outcome A * Process G MeterSimulator)
  : outcome A * Process G MeterSimulator :=
  (x.1, reclock c t x.2).

(** A computation that, run from [s], neither reads nor sets the clock and
    the time of the last forced sag, and keeps the configuration. *)
Definition clock_blind {A} (m : M (Process G MeterSimulator) A)
  (s : Process G MeterSimulator) : Prop :=
  (forall c t, m (reclock c t s) = reclocked c t (m s))
  /\ config (self (m s).2) = config (self s).

End ClockIndependence.

(** ** Postconditions of the relay *)

Section RelayPostconditions.
Context {G : Type}.

(** The drain pass ran at the end of a [publish] call: the message was
    forwarded or queued, then the due prefix of the buffer was forwarded, at
    the last clock reading [tnow] of the call. *)
Definition drained_after (message : Reading.t) (s s' : Process G GatewayRelay) : Prop :=
  let delay := _reorder_delay_seconds (self s) in
  exists tnow pending direct,
    ((pending = _reorder_buffer (self s) /\ direct = [message])
     \/ (exists t, pending = _reorder_buffer (self s) ++ [(t, message)] /\ direct = []))
    /\ tnow = time_script (clock s') (Nat.pred (time_reads (clock s')))
    /\ _reorder_buffer (self s') = drop_due delay tnow pending
    /\ publisher (self s')
       = publisher (self s)
         ++ map (call_of (self s)) (direct ++ map snd (take_due delay tnow pending))
    /\ Forall (fun e => due delay tnow e = true) (take_due delay tnow pending)
    /\ (forall e rest, _reorder_buffer (self s') = e :: rest -> due delay tnow e = false).

(** A dropped call: counted, and neither the sink nor the buffer changes. *)
Definition dropped_by (s s' : Process G GatewayRelay) : Prop :=
  messages_received (stats (self s')) = (messages_received (stats (self s)) + 1)%Z
  /\ messages_dropped (stats (self s')) = (messages_dropped (stats (self s)) + 1)%Z
  /\ publisher (self s') = publisher (self s)
  /\ _reorder_buffer (self s') = _reorder_buffer (self s).


End RelayPostconditions.

(** ** Example processes *)

Definition example_reading (n : Z) : Reading.t :=
  {| Reading.event_ts := "2025-12-26T12:00:00+00:00";
     Reading.meter_id := "m_pole_A_0000"; Reading.pole_id := "pole_A";
     Reading.seq := n; Reading.voltage_v := 240; Reading.current_a := 4;
     Reading.power_kw := 1; Reading.reactive_kvar := 3 # 10; Reading.freq_hz := 60;
     Reading.quality_flags := [] |}.

Definition example_profile (drop reorder : Q) : NetworkProfile :=
  {| name := "5g"; latency_ms_min := 20; latency_ms_max := 100; jitter_ms := 30;
     drop_prob := drop; reorder_prob := reorder |}.

Definition example_world (us : list Q) (ns : list Z) (zs : list Q)
  (times : list Q) (nows : list datetime) : Process ScriptedRng unit :=
  {| rng := scripted us ns zs; clock := clock_of times nows; self := tt |}.

(** The state of a process after a call, whatever its outcome. *)
Definition after {St A} (c : M St A) (s : St) : St := (c s).2.

(** A relay constructed in a process with scripted draws and clock readings. *)
Definition example_relay (np : NetworkProfile) (us : list Q) (times : list Q)
  : Process ScriptedRng GatewayRelay :=
  let w := example_world us [] [] times [] in
  match GatewayRelay__init__ "demo" "ami-meter-data" np w with
  | (Returned r, w') => set_self r w'
  | (Raised _, w') =>
      set_self {| project_id := ""; topic_name := ""; topic_path := "";
                  network_profile := np;
                  stats := {| messages_received := 0; messages_published := 0;
                              messages_dropped := 0; messages_reordered := 0;
                              publish_errors := 0; start_time := 0 |};
                  publisher := []; _reorder_buffer := [];
                  _reorder_delay_seconds := 2; _shutdown := false |} w'
  end.

(** A relay with drop and reorder probability one half.  The first reading
    is not dropped and is reordered at time 1; the clock is then read at
    time 50; the second reading is dropped. *)
Definition relay_0 : Process ScriptedRng GatewayRelay :=
  example_relay (example_profile (1 # 2) (1 # 2)) [3 # 4; 0; 0] [0; 1; 1; 50; 100].
Definition relay_1 := after (publish (example_reading 1)) relay_0.
Definition relay_2 := after time_time relay_1.
Definition relay_3 := after (publish (example_reading 2)) relay_2.

(** A relay that drops everything. *)
Definition lossy_0 : Process ScriptedRng GatewayRelay :=
  example_relay (example_profile 1 (1 # 2)) [3 # 4; 1 # 4] [0; 1; 2; 3].
Definition lossy_1 := after (publish (example_reading 1)) lossy_0.
Definition lossy_2 := after (publish (example_reading 2)) lossy_1.

(** The empty configuration document: every key takes its default. *)
Definition default_doc : ConfigDoc :=
  {| doc_pole := None; doc_sampling := None; doc_electrical := None;
     doc_demo := None; doc_logging := None |}.

(** A document for one meter, with a voltage and a reactive section. *)
Definition one_meter_doc (voltage : option VoltageDoc) (reactive : option ReactiveDoc)
  : ConfigDoc :=
  {| doc_pole := Some {| doc_pole_id := None; doc_num_meters := Some 1%Z;
                         doc_meter_id_prefix := None |};
     doc_sampling := None;
     doc_electrical := Some {| doc_voltage := voltage; doc_power := None;
                               doc_reactive := reactive; doc_frequency := None |};
     doc_demo := None; doc_logging := None |}.

(** A voltage section that starts a sag at every tick of a meter that is
    not sagging, with the given bounds of depth and duration. *)
Definition always_sag (depth_min depth_max : Q) (duration_min duration_max : Z)
  : VoltageDoc :=
  {| doc_nominal_v := None; doc_noise_std := None; doc_sag_threshold := None;
     doc_swell_threshold := None; doc_sag_probability := Some 1;
     doc_sag_depth_min := Some depth_min; doc_sag_depth_max := Some depth_max;
     doc_sag_duration_min := Some duration_min;
     doc_sag_duration_max := Some duration_max |}.

Definition noon : datetime :=
  {| year := 2025; month := 12; day := 26; hour := 12; minute := 0; second := 0;
     microsecond := 0 |}.

Definition one_pm : datetime :=
  {| year := 2025; month := 12; day := 26; hour := 13; minute := 0; second := 0;
     microsecond := 0 |}.

(** A simulator constructed with seed 42 in a process whose clock replays
    the given readings. *)
Definition example_sim (doc : ConfigDoc) (times : list Q) (nows : list datetime)
  : Process ScriptedRng MeterSimulator :=
  let w := example_world [] [] [] times nows in
  match MeterSimulator__init__ (from_yaml doc) (Some 42%Z) w with
  | (Returned sim, w') => set_self sim w'
  | (Raised _, w') =>
      set_self {| config := from_yaml doc; meters := [];
                  _last_force_sag_time := 0; _readings_since_sag := 0 |} w'
  end.

(** Sags of three ticks. *)
Definition sagging_0 := example_sim (one_meter_doc (Some (always_sag 10 30 3 3)) None) [] [].

(** Sags of no tick at all: the duration range is [0, 0]. *)
Definition zero_0 := example_sim (one_meter_doc (Some (always_sag 10 30 0 0)) None) [] [].
Definition zero_1 := after (generate_reading 0 noon) zero_0.


(** The default configuration with one meter. *)
Definition plain_0 := example_sim (one_meter_doc None None) [] [].

(** Ranges with the upper bound below the lower bound: the sag depth, the
    sag duration, the latency. *)
Definition inverted_doc : ConfigDoc := one_meter_doc (Some (always_sag 30 10 3 15)) None.

Definition empty_duration_doc : ConfigDoc :=
  one_meter_doc (Some (always_sag 10 30 15 3)) None.

Definition inverted_profile_doc : ProfileDoc :=
  {| doc_latency_ms_min := Some 100%Z; doc_latency_ms_max := Some 20%Z;
     doc_jitter_ms := None; doc_drop_prob := Some 0; doc_reorder_prob := None |}.

Definition inverted_sim := example_sim inverted_doc [] [noon].
Definition empty_duration_sim := example_sim empty_duration_doc [] [noon].

(** The first reading of [plain_0]. *)
Definition example_first_reading : Reading.t :=
  match (generate_reading 0 noon plain_0).1 with
  | Returned r => r
  | Raised _ => example_reading 0
  end.

(** ** The reorder buffer in arrival order *)

(** The entries of the buffer carry non-decreasing queueing times. *)
Fixpoint arrival_ordered (buf : list (Q * Reading.t)) : Prop :=
  match buf with
  | [] => True
  | e :: rest => Forall (fun e' => e.1 <= e'.1) rest /\ arrival_ordered rest
  end.

(** A clock whose readings of [time.time()] never go back. *)
Definition monotone_clock (c : Clock) : Prop :=
  forall i j : nat, (i <= j)%nat -> time_script c i <= time_script c j.

(** The buffer is in arrival order and no entry was queued after the next
    reading of the clock. *)
Definition buffer_behind_clock {G} (s : Process G GatewayRelay) : Prop :=
  arrival_ordered (_reorder_buffer (self s))
  /\ Forall (fun e => e.1 <= time_script (clock s) (time_reads (clock s)))
            (_reorder_buffer (self s)).

(** The delivery confirmations of a run, by outcome. *)
Fixpoint count_callbacks (ok : bool) (evs : list relay_event) : Z :=
  match evs with
  | [] => 0
  | EvCallback b :: rest =>
      ((if Bool.eqb b ok then 1 else 0) + count_callbacks ok rest)%Z
  | _ :: rest => count_callbacks ok rest
  end.

(** The call that the sink receives for a message is addressed to the topic
    of the relay and carries the identifiers of the message and the name of
    the profile as attributes. *)
Definition well_addressed (project topic : string) (np : NetworkProfile)
  (c : PublishCall) : Prop :=
  call_topic c = ("projects/" ++ project ++ "/topics/" ++ topic)%string
  /\ attr_meter_id c = Reading.meter_id (call_data c)
  /\ attr_pole_id c = Reading.pole_id (call_data c)
  /\ attr_network_profile c = name np.

(** The clock after one reading of [time.time()], and after a sleep. *)
Definition clock_after_read (c : Clock) : Clock :=
  {| time_script := time_script c; time_reads := S (time_reads c);
     now_script := now_script c; now_reads := now_reads c; slept := slept c |}.

Definition clock_after_sleep (d : Q) (c : Clock) : Clock :=
  {| time_script := time_script c; time_reads := time_reads c;
     now_script := now_script c; now_reads := now_reads c; slept := slept c + d |}.

(** ** The meters of a simulator *)

(** The identifier that [MeterSimulator.__init__] gives to meter [i]. *)
Definition meter_name (cfg : SimulatorConfig) (i : Z) : string :=
  (meter_id_prefix cfg ++ "_" ++ pole_id cfg ++ "_" ++ zfill 4 i)%string.

(** A meter as the constructor creates it. *)
Definition fresh_meter (cfg : SimulatorConfig) (m : MeterState.t) : Prop :=
  MeterState.pole_id m = pole_id cfg
  /\ MeterState.seq m = 0%Z
  /\ MeterState.in_sag m = false
  /\ MeterState.sag_remaining_seconds m = 0%Z
  /\ MeterState.sag_depth m = 0
  /\ (meter_factor_min cfg <= meter_factor_max cfg ->
      meter_factor_min cfg <= MeterState.meter_factor m
      /\ MeterState.meter_factor m <= meter_factor_max cfg)
  /\ (pf_min cfg <= pf_max cfg ->
      pf_min cfg <= MeterState.power_factor m
      /\ MeterState.power_factor m <= pf_max cfg).

(** The fields of a meter that identify it; no method assigns them. *)
Definition same_meter (m m' : MeterState.t) : Prop :=
  MeterState.meter_id m' = MeterState.meter_id m
  /\ MeterState.pole_id m' = MeterState.pole_id m
  /\ MeterState.meter_factor m' = MeterState.meter_factor m
  /\ MeterState.power_factor m' = MeterState.power_factor m.

(** The readings of one meter in a run, in the order of the run. *)
Fixpoint readings_of (meter : nat) (evs : list sim_event) : list Reading.t :=
  match evs with
  | [] => []
  | EvReading j r :: rest =>
      if Nat.eqb j meter then r :: readings_of meter rest else readings_of meter rest
  | _ :: rest => readings_of meter rest
  end.






(** A document with the deprecated [sample_hz] key set (or removed). *)
Definition with_sample_hz (hz : option Q) (doc : ConfigDoc) : ConfigDoc :=
  let sampling := dict_get (doc_sampling doc) empty_sampling in
  {| doc_pole := doc_pole doc;
     doc_sampling :=
       Some {| doc_preset := doc_preset sampling;
               doc_sample_interval_seconds := doc_sample_interval_seconds sampling;
               doc_sample_hz := hz |};
     doc_electrical := doc_electrical doc;
     doc_demo := doc_demo doc;
     doc_logging := doc_logging doc |}.

(** ** The clock along a computation *)

(** The clock [c'] is the clock [c] after more readings and sleeps: the
    scripts are the same and nothing is unread or unslept. *)
Definition clock_advanced (c c' : Clock) : Prop :=
  time_script c' = time_script c /\ now_script c' = now_script c
  /\ (time_reads c <= time_reads c')%nat /\ (now_reads c <= now_reads c')%nat
  /\ slept c <= slept c'.

(** A computation that, when it returns from [s], has only advanced the
    clock. *)
Definition advancing {G T A} (m : M (Process G T) A) (s : Process G T) : Prop :=
  forall a s', m s = (Returned a, s') -> clock_advanced (clock s) (clock s').

(** ** gateway_relay.py: run_with_simulator

    [run_with_simulator] runs in one process with two objects, the relay
    [self] and the simulator passed as argument; they share the random
    state and the clock of the process.

    The [for] loop drives the generator [stream_readings]: the generator
    runs up to a [yield], the body of the loop runs on the reading, and the
    generator resumes after the [yield] when the loop asks for the next
    reading.  The loop and the generator are written out together here, in
    the order in which their statements run.  When the loop is left while
    the generator is suspended, by [break] or by an exception of its body,
    the generator is dropped and finalised at once (CPython counts
    references): its [finally] clause runs, and what that clause raises is
    reported and ignored.  [KeyboardInterrupt] is not part of the
    embedding. *)

Record Driver : Type := {
  simulator : MeterSimulator;
  relay : GatewayRelay
}.

(** A method of the simulator, and a method of the relay, run in the
    process of the driver. *)
Definition on_simulator {G A} (m : M (Process G MeterSimulator) A)
  : M (Process G Driver) A :=
  fun s =>
    let '(o, s1) := m (set_self (simulator (self s)) s) in
    (o, set_self {| simulator := self s1; relay := relay (self s) |} s1).

Definition on_relay {G A} (m : M (Process G GatewayRelay) A)
  : M (Process G Driver) A :=
  fun s =>
    let '(o, s1) := m (set_self (relay (self s)) s) in
    (o, set_self {| simulator := simulator (self s); relay := self s1 |} s1).

(** A computation whose exceptions are reported and ignored. *)
Definition ignoring_errors {St} (m : M St unit) : M St unit :=
  fun s => (Returned tt, (m s).2).

(** Whether the loop has ended within the cycles considered. *)
Inductive loop_state : Type :=
| Finished
| Running.

Section Driver.
Context {G : Type} `{PyLib G}.

(** The suspended generator is finalised. *)
Definition close_stream (start_time : Q) (reading_count : Z) : M (Process G Driver) unit :=
  on_simulator (ignoring_errors (stream_finally start_time reading_count)).

(** The body of the [for] loop for one reading; [None] is [break],
    otherwise the time of the last log line is returned. *)
Definition relay_reading (reading : Reading.t) (last_log : Q) (log_interval_seconds : Z)
  : M (Process G Driver) (option Q) :=
  stop <- gets (fun s => _shutdown (relay (self s))) ;;
  if stop : bool then ret None
  else
    on_relay (publish reading) ;;;
    now <- time_time ;;
    if Qle_bool (inject_Z log_interval_seconds) (now - last_log) then
      on_relay get_summary ;;;
      ret (Some now)
    else ret (Some last_log).

(** The readings of one batch, yielded one by one. *)
Fixpoint relay_batch (readings : list Reading.t) (last_log : Q) (log_interval_seconds : Z)
  : M (Process G Driver) (option Q) :=
  match readings with
  | [] => ret (Some last_log)
  | reading :: rest =>
      r <- relay_reading reading last_log log_interval_seconds ;;
      match r with
      | None => ret None
      | Some last_log => relay_batch rest last_log log_interval_seconds
      end
  end.

(** The first [cycles] cycles of the generator's [while True] loop, with
    the body of the [for] loop run at every [yield]. *)
Fixpoint relay_stream (cycles : nat) (duration_seconds : Z) (interval start_time : Q)
  (reading_count : Z) (last_log : Q) (log_interval_seconds : Z)
  : M (Process G Driver) loop_state :=
  match cycles with
  | O => ret Running
  | S n =>
      cycle_start <- time_time ;;
      if (0 <? duration_seconds)%Z
         && Qle_bool (inject_Z duration_seconds) (cycle_start - start_time)
      then
        on_simulator (stream_finally start_time reading_count) ;;;
        ret Finished
      else
        timestamp <- datetime_now ;;
        readings <- on_error (on_simulator (generate_batch (Some timestamp)))
                             (on_simulator (stream_finally start_time reading_count)) ;;
        let reading_count := (reading_count + Z.of_nat (length readings))%Z in
        r <- on_error (relay_batch readings last_log log_interval_seconds)
                      (close_stream start_time reading_count) ;;
        match r with
        | None =>
            close_stream start_time reading_count ;;;
            ret Finished
        | Some last_log =>
            t <- time_time ;;
            let cycle_duration := t - cycle_start in
            let sleep_time := py_max 0 (interval - cycle_duration) in
            (if Qltb 0 sleep_time then time_sleep sleep_time else ret tt) ;;;
            relay_stream n duration_seconds interval start_time reading_count
              last_log log_interval_seconds
        end
  end.

(** The [try] block of [run_with_simulator]: the generator starts at the
    first iteration of the loop. *)
Definition run_loop (duration_seconds log_interval_seconds : Z) (cycles : nat)
  (last_log : Q) : M (Process G Driver) loop_state :=
  interval <- gets (fun s => sample_interval_seconds (config (simulator (self s)))) ;;
  start_time <- time_time ;;
  float_div 60 interval ;;;
  relay_stream cycles duration_seconds interval start_time 0 last_log log_interval_seconds.

(** [run_with_simulator(simulator, duration_seconds, log_interval_seconds)],
    for the first [cycles] cycles of the stream.  The [finally] clause runs
    when the loop has ended or an exception leaves it. *)
Definition run_with_simulator (duration_seconds log_interval_seconds : Z) (cycles : nat)
  : M (Process G Driver) loop_state :=
  last_log <- time_time ;;
  fun s =>
    match run_loop duration_seconds log_interval_seconds cycles last_log s with
    | (Returned Running, s1) => (Returned Running, s1)
    | (o, s1) =>
        match on_relay shutdown s1 with
        | (Returned _, s2) => (o, s2)
        | (Raised e, s2) => (Raised e, s2)
        end
    end.

End Driver.

(** The process as the simulator and as the relay see it. *)
Definition sim_view {G} (s : Process G Driver) : Process G MeterSimulator :=
  set_self (simulator (self s)) s.

Definition relay_view {G} (s : Process G Driver) : Process G GatewayRelay :=
  set_self (relay (self s)) s.

(** The messages passed to [publish] in a run of the relay, and the
    readings returned by [generate_reading] in a run of the simulator, in
    the order of the run. *)
Fixpoint published_of (evs : list relay_event) : list Reading.t :=
  match evs with
  | [] => []
  | EvPublish message _ :: rest => message :: published_of rest
  | _ :: rest => published_of rest
  end.

Fixpoint generated_of (evs : list sim_event) : list Reading.t :=
  match evs with
  | [] => []
  | EvReading _ reading :: rest => reading :: generated_of rest
  | _ :: rest => generated_of rest
  end.

(** Between two states of the driver the relay has made a run in which
    the messages [passed] were passed to [publish], in this order, and the
    calls for the messages [sent] returned True; the steps of the simulator
    are draws and clock readings of other code to the relay. *)
Definition relayed {G} `{PyLib G} (passed sent : list Reading.t)
  (s s' : Process G Driver) : Prop :=
  exists evs, relay_run (relay_view s) evs (relay_view s')
              /\ published_of evs = passed /\ accepted evs = sent.

(** Between two states of the driver the simulator has made a run in
    which [generate_reading] returned the readings [generated], in this
    order, and never raised; the steps of the relay are draws and clock
    readings of other code to the simulator. *)
Definition simulated {G} `{PyLib G} (generated : list Reading.t)
  (s s' : Process G Driver) : Prop :=
  exists evs, sim_run (sim_view s) evs (sim_view s')
              /\ generated_of evs = generated
              /\ calls_of_any evs = length generated.

(** The objects that [main] constructs before it calls
    [run_with_simulator]: the simulator, then the relay. *)
Definition main_setup {G} `{PyLib G} (cfg : SimulatorConfig) (seed : option Z)
  (project topic : string) (np : NetworkProfile) : M (Process G unit) Driver :=
  sim <- MeterSimulator__init__ cfg seed ;;
  r <- GatewayRelay__init__ project topic np ;;
  ret {| simulator := sim; relay := r |}.

(** ** More example processes *)

(** A clock whose [k]-th reading of [time.time()] is [k] seconds. *)
Definition steady_clock : Clock :=
  {| time_script := fun k => inject_Z (Z.of_nat k); time_reads := 0;
     now_script := fun _ => noon; now_reads := 0; slept := 0 |}.

(** A process with the steady clock and scripted uniform draws. *)
Definition steady_world (us : list Q) : Process ScriptedRng unit :=
  {| rng := scripted us [] []; clock := steady_clock; self := tt |}.

(** A relay that neither drops nor reorders, and one that reorders every
    message, in a process with the steady clock. *)
Definition relay_in (np : NetworkProfile) (w : Process ScriptedRng unit)
  : Process ScriptedRng GatewayRelay :=
  match GatewayRelay__init__ "demo" "ami-meter-data" np w with
  | (Returned r, w') => set_self r w'
  | (Raised _, w') => set_self (self (example_relay np [] [])) w'
  end.


Definition queueing_relay : Process ScriptedRng GatewayRelay :=
  relay_in (example_profile 0 1) (steady_world []).

(** A document with the sampling interval set. *)
Definition interval_doc (interval : Q) : ConfigDoc :=
  {| doc_pole := Some {| doc_pole_id := None; doc_num_meters := Some 2%Z;
                         doc_meter_id_prefix := None |};
     doc_sampling := Some {| doc_preset := None;
                             doc_sample_interval_seconds := Some interval;
                             doc_sample_hz := Some 2 |};
     doc_electrical := None; doc_demo := None; doc_logging := None |}.

(** The simulator and the relay as [main] sets them up, in a process with
    the steady clock; no seed is given. *)
Definition driver_in (doc : ConfigDoc) (np : NetworkProfile)
  : Process ScriptedRng Driver :=
  let w := steady_world [] in
  match main_setup (from_yaml doc) None "demo" "ami-meter-data" np w with
  | (Returned d, w') => set_self d w'
  | (Raised _, w') =>
      set_self {| simulator := self (example_sim doc [] []);
                  relay := self (example_relay np [] []) |} w'
  end.

Definition example_driver : Process ScriptedRng Driver :=
  driver_in (interval_doc 1) (example_profile 0 0).

(** A sampling interval of zero. *)
Definition zero_interval_driver : Process ScriptedRng Driver :=
  driver_in (interval_doc 0) (example_profile 0 0).

Definition zero_interval_sim : Process ScriptedRng MeterSimulator :=
  example_sim (interval_doc 0) [] [].

(** The second reading of the single meter of [plain_0]. *)
Definition plain_1 : Process ScriptedRng MeterSimulator :=
  after (generate_reading 0 noon) plain_0.

Definition example_second_reading : Reading.t :=
  match (generate_reading 0 one_pm (after time_time plain_1)).1 with
  | Returned r => r
  | Raised _ => example_reading 0
  end.

(** The value of a call that returned. *)
Definition returned_or {A} (d : A) (o : outcome A) : A :=
  match o with
  | Returned a => a
  | Raised _ => d
  end.

(** The reading of the first meter at noon in a state of the simulator. *)
Definition reading_at (s : Process ScriptedRng MeterSimulator) : Reading.t :=
  returned_or (example_reading 0) (generate_reading 0 noon s).1.

(** Four readings of the simulator whose sags last three ticks. *)
Definition sagging_1 := after (generate_reading 0 noon) sagging_0.
Definition sagging_2 := after (generate_reading 0 noon) sagging_1.
Definition sagging_3 := after (generate_reading 0 noon) sagging_2.
Definition sagging_4 := after (generate_reading 0 noon) sagging_3.

(** A meter with a power factor of 1e-200 at a nominal voltage of 1e-200
    volts, without noise and without sags. *)
Definition underflow_doc : ConfigDoc :=
  one_meter_doc
    (Some {| doc_nominal_v := Some (1 # 10 ^ 200); doc_noise_std := Some 0;
             doc_sag_threshold := None; doc_swell_threshold := None;
             doc_sag_probability := Some 0;
             doc_sag_depth_min := None; doc_sag_depth_max := None;
             doc_sag_duration_min := None; doc_sag_duration_max := None |})
    (Some {| doc_power_factor_min := Some (1 # 10 ^ 200);
             doc_power_factor_max := Some (1 # 10 ^ 200);
             doc_power_factor_default := None |}).
Definition underflow_0 := example_sim underflow_doc [] [].




(** * Facts

    ** Arithmetic of floats *)

Lemma Qle_bool_reflect (x y : Q) : reflect (x <= y) (Qle_bool x y).
Proof. apply iff_reflect. symmetry. apply Qle_bool_iff. Qed.

Lemma Qltb_reflect (x y : Q) : reflect (x < y) (Qltb x y).
Proof.
  unfold Qltb. destruct (Qlt_le_dec x y); constructor; [assumption | lra].
Qed.

Lemma Qfloor_unique (x : Q) (k : Z) :
  inject_Z k <= x -> x < inject_Z k + 1 -> Qfloor x = k.
Proof.
  intros Hlo Hhi.
  apply Z.le_antisymm.
  - assert (Hlt : inject_Z (Qfloor x) < inject_Z (k + 1)).
    { rewrite inject_Z_plus. pose proof (Qfloor_le x). change (inject_Z 1) with 1. lra. }
    rewrite <- Zlt_Qlt in Hlt. lia.
  - rewrite <- (Qfloor_Z k). apply Qfloor_resp_le. exact Hlo.
Qed.

Lemma div24 (x : Q) : x == 24 * (x / 24).
Proof. field. Qed.

Lemma float_mod_range (x : Q) : 0 <= float_mod x 24 /\ float_mod x 24 < 24.
Proof.
  unfold float_mod.
  pose proof (Qfloor_le (x / 24)) as Hlo.
  pose proof (Qlt_floor (x / 24)) as Hhi.
  rewrite inject_Z_plus in Hhi. change (inject_Z 1) with 1 in Hhi.
  pose proof (div24 x). split; lra.
Qed.

Lemma float_mod_small (h : Q) : 0 <= h -> h < 24 -> float_mod h 24 == h.
Proof.
  intros H0 H24. unfold float_mod.
  pose proof (div24 h). rewrite (Qfloor_unique (h / 24) 0); change (inject_Z 0) with 0; lra.
Qed.

#[global] Instance float_mod_proper : Proper (Qeq ==> Qeq ==> Qeq) float_mod.
Proof.
  intros x x' Hx y y' Hy. unfold float_mod.
  rewrite (Qfloor_comp (x / y) (x' / y')) by (rewrite Hx, Hy; reflexivity).
  rewrite Hx, Hy. reflexivity.
Qed.

Lemma float_mod_idem (h : Q) : float_mod (float_mod h 24) 24 == float_mod h 24.
Proof. destruct (float_mod_range h). apply float_mod_small; assumption. Qed.

Lemma float_mod_period (h : Q) : float_mod (h + 24) 24 == float_mod h 24.
Proof.
  unfold float_mod. pose proof (div24 h). pose proof (div24 (h + 24)).
  rewrite (Qfloor_unique ((h + 24) / 24) (Qfloor (h / 24) + 1)).
  - rewrite inject_Z_plus. change (inject_Z 1) with 1. lra.
  - rewrite inject_Z_plus. pose proof (Qfloor_le (h / 24)). change (inject_Z 1) with 1. lra.
  - rewrite inject_Z_plus. pose proof (Qlt_floor (h / 24)) as Hhi.
    rewrite inject_Z_plus in Hhi. change (inject_Z 1) with 1 in *. lra.
Qed.

Lemma progress_unit (lo hi h : Q) : hi - lo == 1 -> progress lo hi h == h - lo.
Proof. intros E. unfold progress. rewrite E. field. Qed.

Lemma Qle_bool_true (x y : Q) : x <= y -> Qle_bool x y = true.
Proof. apply Qle_bool_iff. Qed.

Lemma Qle_bool_false (x y : Q) : y < x -> Qle_bool x y = false.
Proof.
  intros Hlt. destruct (Qle_bool_reflect x y) as [Hle|_]; [lra|reflexivity].
Qed.

(** Decide the comparisons of the curve from the bounds in context. *)
Ltac decide_hours :=
  repeat match goal with
  | |- context [Qle_bool ?a ?b] =>
      first [ rewrite (Qle_bool_true a b) by lra
            | rewrite (Qle_bool_false a b) by lra ]
  end; cbn [andb negb].

(** The curve is the specified one at the normalised hour. *)
Lemma load_curve_at (cfg : SimulatorConfig) (h h' : Q) :
  float_mod h 24 == h' -> 0 <= h' -> h' < 24 ->
  _get_load_curve_factor cfg h == load_curve_spec cfg h'.
Proof.
  intros Hm H0 H24.
  unfold _get_load_curve_factor, load_curve_spec, lerp.
  pose proof (progress_unit 5 6 h' eq_refl) as P5.
  pose proof (progress_unit 9 10 h' eq_refl) as P9.
  pose proof (progress_unit 16 17 h' eq_refl) as P16.
  pose proof (progress_unit 21 22 h' eq_refl) as P21.
  repeat match goal with
  | |- context [Qlt_le_dec ?a ?b] => destruct (Qlt_le_dec a b)
  end; decide_hours; rewrite ?P5, ?P9, ?P16, ?P21, ?Hm; try reflexivity; ring.
Qed.

(** ** Rounding *)

Lemma round_half_even_error (x : Q) :
  inject_Z (round_half_even x) - (1 # 2) <= x /\ x <= inject_Z (round_half_even x) + (1 # 2).
Proof.
  unfold round_half_even.
  pose proof (Qfloor_le x) as Hlo. pose proof (Qlt_floor x) as Hhi.
  rewrite inject_Z_plus in Hhi. change (inject_Z 1) with 1 in Hhi.
  destruct (Qlt_le_dec _ _); [split; lra|].
  destruct (Qlt_le_dec _ _);
    [rewrite inject_Z_plus; change (inject_Z 1) with 1; split; lra|].
  destruct (Z.even _);
    [|rewrite inject_Z_plus; change (inject_Z 1) with 1]; split; lra.
Qed.

Lemma round_half_even_nonneg (x : Q) : 0 <= x -> (0 <= round_half_even x)%Z.
Proof.
  intros Hx. unfold round_half_even.
  assert (Hf : (0 <= Qfloor x)%Z).
  { change 0%Z with (Qfloor 0). apply Qfloor_resp_le. exact Hx. }
  destruct (Qlt_le_dec _ _); [exact Hf|].
  destruct (Qlt_le_dec _ _); [lia|].
  destruct (Z.even _); lia.
Qed.

Lemma pow10_pos (n : nat) : 0 < inject_Z (10 ^ Z.of_nat n).
Proof.
  change 0 with (inject_Z 0). rewrite <- Zlt_Qlt. apply Z.pow_pos_nonneg; lia.
Qed.

Lemma py_round_nonneg (x : Q) (n : nat) : 0 <= x -> 0 <= py_round x n.
Proof.
  intros Hx. unfold py_round.
  pose proof (pow10_pos n) as Hp.
  apply Qle_shift_div_l; [exact Hp|]. rewrite Qmult_0_l.
  change 0 with (inject_Z 0). rewrite <- Zle_Qle.
  apply round_half_even_nonneg. apply Qmult_le_0_compat; lra.
Qed.

(** [round(x, n)] is within half a unit of the last decimal of [x]. *)
Lemma py_round_error (x : Q) (n : nat) :
  let half_ulp := (1 # 2) / inject_Z (10 ^ Z.of_nat n) in
  x - half_ulp <= py_round x n /\ py_round x n <= x + half_ulp.
Proof.
  cbv zeta. unfold py_round.
  pose proof (pow10_pos n) as Hp.
  set (P := inject_Z (10 ^ Z.of_nat n)) in *.
  destruct (round_half_even_error (x * P)) as [Hlo Hhi].
  set (R := inject_Z (round_half_even (x * P))) in *.
  assert (Hx : x == x * P / P) by (field; lra).
  split.
  - apply Qle_shift_div_l; [exact Hp|].
    assert (E : (x - (1 # 2) / P) * P == x * P - (1 # 2)) by (field; lra).
    rewrite E. lra.
  - apply Qle_shift_div_r; [exact Hp|].
    assert (E : (x + (1 # 2) / P) * P == x * P + (1 # 2)) by (field; lra).
    rewrite E. lra.
Qed.

Lemma py_round_2_error (x : Q) :
  x - (1 # 200) <= py_round x 2 /\ py_round x 2 <= x + (1 # 200).
Proof.
  pose proof (py_round_error x 2) as H. cbv zeta in H.
  change ((1 # 2) / inject_Z (10 ^ Z.of_nat 2)) with (1 # 200) in H. exact H.
Qed.

Lemma py_max_nonneg (x : Q) : 0 <= py_max 0 x.
Proof. unfold py_max. destruct (Qlt_le_dec 0 x); lra. Qed.


Lemma round_half_even_ge (y : Q) (k : Z) :
  inject_Z k <= y -> (k <= round_half_even y)%Z.
Proof.
  intros Hk.
  assert (Hf : (k <= Qfloor y)%Z).
  { rewrite <- (Qfloor_Z k). apply Qfloor_resp_le. exact Hk. }
  unfold round_half_even.
  destruct (Qlt_le_dec _ _); [exact Hf|].
  destruct (Qlt_le_dec _ _); [lia|].
  destruct (Z.even _); lia.
Qed.

Lemma round_half_even_le (y : Q) (k : Z) :
  y <= inject_Z k -> (round_half_even y <= k)%Z.
Proof.
  intros Hk.
  pose proof (Qfloor_le y) as Hlo.
  assert (Hf : (Qfloor y <= k)%Z) by (rewrite Zle_Qle; lra).
  unfold round_half_even.
  destruct (Qlt_le_dec _ _) as [|Hhalf]; [exact Hf|].
  assert (Hlt : (Qfloor y < k)%Z) by (rewrite Zlt_Qlt; lra).
  destruct (Qlt_le_dec _ _); [lia|].
  destruct (Z.even _); lia.
Qed.

(** Rounding keeps a value on its side of a bound that has [n] decimals. *)
Lemma py_round_keeps_bounds (x : Q) (n : nat) (k : Z) :
  let bound := inject_Z k / inject_Z (10 ^ Z.of_nat n) in
  (bound <= x -> bound <= py_round x n) /\ (x <= bound -> py_round x n <= bound).
Proof.
  cbv zeta. unfold py_round.
  pose proof (pow10_pos n) as Hp.
  set (P := inject_Z (10 ^ Z.of_nat n)) in *.
  split; intros Hb.
  - apply Qle_shift_div_l; [exact Hp|].
    assert (E : inject_Z k / P * P == inject_Z k) by (field; lra).
    rewrite E. rewrite <- Zle_Qle. apply round_half_even_ge.
    rewrite <- E. apply Qmult_le_compat_r; [exact Hb|lra].
  - apply Qle_shift_div_r; [exact Hp|].
    assert (E : inject_Z k / P * P == inject_Z k) by (field; lra).
    rewrite E. rewrite <- Zle_Qle. apply round_half_even_le.
    rewrite <- E. apply Qmult_le_compat_r; [exact Hb|lra].
Qed.

(** *** The product that underflows *)

Lemma float_tiny_pos : 0 < float_tiny.
Proof. reflexivity. Qed.

#[global] Opaque float_tiny.

Lemma float_mul_cases (x y : Q) :
  (Qabs (x * y) <= float_tiny /\ float_mul x y = 0)
  \/ (float_tiny < Qabs (x * y) /\ float_mul x y = x * y).
Proof.
  unfold float_mul. destruct (Qle_bool_reflect (Qabs (x * y)) float_tiny) as [Hle|Hgt].
  - left. split; [exact Hle|reflexivity].
  - right. split; [|reflexivity]. apply Qnot_le_lt. exact Hgt.
Qed.

(** The product is zero exactly when the exact product underflows. *)
Lemma float_mul_zero (x y : Q) : float_mul x y == 0 <-> Qabs (x * y) <= float_tiny.
Proof.
  pose proof float_tiny_pos as Ht.
  destruct (float_mul_cases x y) as [[Hle ->]|[Hgt ->]].
  - split; [intros _; exact Hle|reflexivity].
  - split.
    + intros E. rewrite E in Hgt. change (Qabs 0) with 0 in Hgt.
      exfalso. apply (Qlt_irrefl float_tiny). apply Qlt_trans with 0; assumption.
    + intros Hle. exfalso. apply (Qlt_irrefl float_tiny).
      apply Qlt_le_trans with (Qabs (x * y)); assumption.
Qed.

(** A factor zero gives zero, and a product of positive numbers above the
    threshold is exact. *)
Lemma float_mul_zero_r (x y : Q) : y == 0 -> float_mul x y == 0.
Proof.
  intros Hy. apply float_mul_zero.
  assert (E : x * y == 0) by (rewrite Hy; ring).
  rewrite E. apply Qlt_le_weak. exact float_tiny_pos.
Qed.

Lemma float_mul_exact (x y : Q) :
  0 < x -> 0 < y -> float_tiny < x * y -> float_mul x y = x * y.
Proof.
  intros Hx Hy Hxy. destruct (float_mul_cases x y) as [[Hle _]|[_ E]]; [|exact E].
  exfalso. rewrite Qabs_pos in Hle by (apply Qlt_le_weak, Qmult_lt_0_compat; assumption).
  apply (Qlt_irrefl float_tiny). apply Qlt_le_trans with (x * y); assumption.
Qed.


(** ** The monad *)


Lemma bind_returned {St A B} (c : M St A) (k : A -> M St B) (s s' : St) (b : B) :
  bind c k s = (Returned b, s') ->
  exists a s1, c s = (Returned a, s1) /\ k a s1 = (Returned b, s').
Proof.
  unfold bind. destruct (c s) as [[a|e] s1]; intros E.
  - exists a, s1. split; [reflexivity | exact E].
  - discriminate.
Qed.

Lemma bind_step {St A B} (c : M St A) (k : A -> M St B) (s s1 : St) (a : A) :
  c s = (Returned a, s1) -> bind c k s = k a s1.
Proof. intros E. unfold bind. rewrite E. reflexivity. Qed.

Lemma bind_raised {St A B} (c : M St A) (k : A -> M St B) (s s1 : St) (e : exn) :
  c s = (Raised e, s1) -> bind c k s = (Raised e, s1).
Proof. intros E. unfold bind. rewrite E. reflexivity. Qed.

Lemma bind_raised_inv {St A B} (c : M St A) (k : A -> M St B) (s s' : St) (e : exn) :
  bind c k s = (Raised e, s') ->
  c s = (Raised e, s') \/ exists a s1, c s = (Returned a, s1) /\ k a s1 = (Raised e, s').
Proof.
  unfold bind. destruct (c s) as [[a|e0] s1]; intros E.
  - right. exists a, s1. split; [reflexivity|exact E].
  - left. injection E as -> ->. reflexivity.
Qed.

Ltac inv_ret H := inversion H; subst; clear H.

(** Split a bind that returned into its two steps. *)
Ltac step H a s1 Hc :=
  apply bind_returned in H as (a & s1 & Hc & H).

(** Run the first step of a bind when it computes. *)
Ltac run1 := erewrite bind_step by reflexivity.

(** Read off the result and the state of a step that computes. *)
Ltac got H a s1 :=
  cbn in H; injection H; clear H; intros; try subst a; try subst s1.

Ltac step_eq H a s1 :=
  let Hc := fresh "Hc" in step H a s1 Hc; got Hc a s1.

(** ** The library calls *)

Section LibraryFacts.
Context {G : Type} `{PyLib G}.

Lemma py_random_eq {T} (s : Process G T) :
  py_random s = (Returned (random_random (rng s)).1, set_rng (random_random (rng s)).2 s).
Proof. unfold py_random. destruct (random_random (rng s)). reflexivity. Qed.

Lemma py_gauss_eq {T} (mu sigma : Q) (s : Process G T) :
  py_gauss mu sigma s
  = (Returned (mu + (random_normal (rng s)).1 * sigma), set_rng (random_normal (rng s)).2 s).
Proof. unfold py_gauss. destruct (random_normal (rng s)). reflexivity. Qed.

Lemma py_uniform_eq {T} (a b : Q) (s : Process G T) :
  py_uniform a b s
  = (Returned (a + (b - a) * (random_random (rng s)).1), set_rng (random_random (rng s)).2 s).
Proof. unfold py_uniform. rewrite (bind_step _ _ _ _ _ (py_random_eq s)). reflexivity. Qed.

Lemma py_randint_eq {T} (a b : Z) (s : Process G T) :
  (a <= b)%Z ->
  py_randint a b s
  = (Returned (random_randrange a b (rng s)).1, set_rng (random_randrange a b (rng s)).2 s).
Proof.
  intros Hab. unfold py_randint. destruct (Z_le_gt_dec a b); [|lia].
  destruct (random_randrange a b (rng s)). reflexivity.
Qed.

Lemma py_randint_empty {T} (a b : Z) (s : Process G T) :
  (b < a)%Z -> py_randint a b s = (Raised ValueError, s).
Proof. intros Hab. unfold py_randint. destruct (Z_le_gt_dec a b); [lia|reflexivity]. Qed.

Lemma py_randint_inv {T} (a b n : Z) (s s' : Process G T) :
  py_randint a b s = (Returned n, s') ->
  (a <= n <= b)%Z /\ s' = set_rng (random_randrange a b (rng s)).2 s.
Proof.
  unfold py_randint. destruct (Z_le_gt_dec a b) as [Hab|]; [|discriminate].
  pose proof (random_randrange_range a b (rng s) Hab) as Hr.
  destruct (random_randrange a b (rng s)) as [k g]. intros E. got E n s'.
  split; [exact Hr|reflexivity].
Qed.

Lemma py_max_ge (a b : Q) : a <= py_max a b /\ b <= py_max a b.
Proof. unfold py_max. destruct (Qlt_le_dec a b); lra. Qed.

Lemma float_div_eq {T} (x y : Q) (s : Process G T) :
  ~ y == 0 -> float_div x y s = (Returned (x / y), s).
Proof. intros Hy. unfold float_div. destruct (Qeq_dec y 0); [contradiction|reflexivity]. Qed.

End LibraryFacts.


(** ** The gateway relay *)

Section GatewayFacts.
Context {G : Type} `{PyLib G}.

Lemma same_setup_refl r : same_setup r r.
Proof. repeat split. Qed.

Lemma same_setup_trans r1 r2 r3 : same_setup r1 r2 -> same_setup r2 r3 -> same_setup r1 r3.
Proof. unfold same_setup. intuition congruence. Qed.

Lemma call_of_setup r r' m : same_setup r r' -> call_of r' m = call_of r m.
Proof. unfold same_setup, call_of. intros (?&?&->&->&?). reflexivity. Qed.

Lemma drain_loop_spec (fuel : nat) (now : Q) (s : Process G GatewayRelay) :
  (length (_reorder_buffer (self s)) <= fuel)%nat ->
  exists s',
    drain_loop fuel now s = (Returned tt, s')
    /\ rng s' = rng s /\ clock s' = clock s
    /\ stats (self s') = stats (self s)
    /\ _shutdown (self s') = _shutdown (self s)
    /\ same_setup (self s) (self s')
    /\ _reorder_buffer (self s')
       = drop_due (_reorder_delay_seconds (self s)) now (_reorder_buffer (self s))
    /\ publisher (self s')
       = publisher (self s)
         ++ map (call_of (self s))
              (map snd (take_due (_reorder_delay_seconds (self s)) now
                          (_reorder_buffer (self s)))).
Proof.
  revert s. induction fuel as [|n IH]; intros s Hlen.
  - destruct (_reorder_buffer (self s)) eqn:Eb; [|cbn in Hlen; lia].
    exists s. cbn. rewrite ?Eb. cbn. rewrite app_nil_r.
    repeat split; reflexivity.
  - cbn [drain_loop]. unfold bind at 1. cbn [gets].
    destruct (_reorder_buffer (self s)) as [|[t m] rest] eqn:Eb.
    + exists s. cbn. rewrite ?Eb. cbn. rewrite app_nil_r. repeat split; reflexivity.
    + unfold bind at 1. cbn [gets]. cbn [drop_due take_due].
      change (Qle_bool (_reorder_delay_seconds (self s)) (now - t))
        with (due (_reorder_delay_seconds (self s)) now (t, m)).
      destruct (due (_reorder_delay_seconds (self s)) now (t, m)) eqn:Ed.
      * unfold bind at 1, popleft at 1. cbn [modify].
        unfold bind at 1, _do_publish at 1. cbn [modify].
        match goal with |- context [drain_loop n now ?s0] => set (s1 := s0) end.
        assert (Hb1 : _reorder_buffer (self s1) = rest)
          by (subst s1; cbn; rewrite Eb; reflexivity).
        assert (Hp1 : publisher (self s1) = publisher (self s) ++ [call_of (self s) m])
          by reflexivity.
        assert (Hd1 : _reorder_delay_seconds (self s1) = _reorder_delay_seconds (self s))
          by reflexivity.
        assert (Hs1 : same_setup (self s) (self s1)) by (repeat split).
        destruct (IH s1) as (s' & E & Hg & Hc & Hst & Hsh & Hset & Hbuf & Hpub).
        { rewrite Hb1. cbn in Hlen. lia. }
        exists s'. rewrite E.
        rewrite Hb1, Hd1 in Hbuf. rewrite Hb1, Hd1, Hp1 in Hpub.
        pose proof (same_setup_trans _ _ _ Hs1 Hset) as Hset'.
        split; [reflexivity|]. repeat (split; [assumption|]).
        rewrite Hpub, <- app_assoc. cbn [map app snd].
        rewrite (map_ext (call_of (self s1)) (call_of (self s)))
          by (intros; apply call_of_setup; assumption).
        reflexivity.
      * exists s. cbn. rewrite ?Eb. cbn. rewrite ?Ed, app_nil_r. repeat split; reflexivity.
Qed.

Lemma flush_loop_spec (fuel : nat) (s : Process G GatewayRelay) :
  (length (_reorder_buffer (self s)) <= fuel)%nat ->
  exists s',
    flush_loop fuel s = (Returned tt, s')
    /\ rng s' = rng s /\ clock s' = clock s
    /\ stats (self s') = stats (self s)
    /\ _shutdown (self s') = _shutdown (self s)
    /\ same_setup (self s) (self s')
    /\ _reorder_buffer (self s') = []
    /\ publisher (self s')
       = publisher (self s) ++ map (call_of (self s)) (map snd (_reorder_buffer (self s))).
Proof.
  revert s. induction fuel as [|n IH]; intros s Hlen.
  - destruct (_reorder_buffer (self s)) eqn:Eb; [|cbn in Hlen; lia].
    exists s. cbn. rewrite ?Eb. cbn. rewrite app_nil_r.
    repeat split; reflexivity.
  - cbn [flush_loop]. unfold bind at 1. cbn [gets].
    destruct (_reorder_buffer (self s)) as [|[t m] rest] eqn:Eb.
    + exists s. cbn. rewrite ?Eb. cbn. rewrite app_nil_r. repeat split; reflexivity.
    + unfold bind at 1, popleft at 1. cbn [modify].
      unfold bind at 1, _do_publish at 1. cbn [modify].
      match goal with |- context [flush_loop n ?s0] => set (s1 := s0) end.
      assert (Hb1 : _reorder_buffer (self s1) = rest)
        by (subst s1; cbn; rewrite Eb; reflexivity).
      assert (Hp1 : publisher (self s1) = publisher (self s) ++ [call_of (self s) m])
        by reflexivity.
      assert (Hs1 : same_setup (self s) (self s1)) by (repeat split).
      destruct (IH s1) as (s' & E & Hg & Hc & Hst & Hsh & Hset & Hbuf & Hpub).
      { rewrite Hb1. cbn in Hlen. lia. }
      exists s'. rewrite E.
      rewrite Hb1, Hp1 in Hpub.
      pose proof (same_setup_trans _ _ _ Hs1 Hset) as Hset'.
      split; [reflexivity|]. repeat (split; [assumption|]).
      rewrite Hpub, <- app_assoc. cbn [map app snd].
      rewrite (map_ext (call_of (self s1)) (call_of (self s)))
        by (intros; apply call_of_setup; assumption).
      reflexivity.
Qed.

(** What a completed [publish] call does to the relay. *)
Lemma publish_spec (message : Reading.t) (s s' : Process G GatewayRelay) (ok : bool) :
  publish message s = (Returned ok, s') ->
  same_setup (self s) (self s')
  /\ _shutdown (self s') = _shutdown (self s)
  /\ messages_received (stats (self s')) = (messages_received (stats (self s)) + 1)%Z
  /\ messages_published (stats (self s')) = messages_published (stats (self s))
  /\ publish_errors (stats (self s')) = publish_errors (stats (self s))
  /\ if Qltb (random_random (rng s)).1 (drop_prob (network_profile (self s)))
     then ok = false
          /\ messages_dropped (stats (self s')) = (messages_dropped (stats (self s)) + 1)%Z
          /\ messages_reordered (stats (self s')) = messages_reordered (stats (self s))
          /\ publisher (self s') = publisher (self s)
          /\ _reorder_buffer (self s') = _reorder_buffer (self s)
          /\ clock s' = clock s
     else ok = true
          /\ messages_dropped (stats (self s')) = messages_dropped (stats (self s))
          /\ exists now pending direct,
               ((pending = _reorder_buffer (self s) /\ direct = [message]
                 /\ messages_reordered (stats (self s'))
                    = messages_reordered (stats (self s)))
                \/ (exists t, pending = _reorder_buffer (self s) ++ [(t, message)]
                      /\ direct = []
                      /\ messages_reordered (stats (self s'))
                         = (messages_reordered (stats (self s)) + 1)%Z))
               /\ now = time_script (clock s') (Nat.pred (time_reads (clock s')))
               /\ _reorder_buffer (self s')
                  = drop_due (_reorder_delay_seconds (self s)) now pending
               /\ publisher (self s')
                  = publisher (self s)
                    ++ map (call_of (self s))
                         (direct ++ map snd (take_due (_reorder_delay_seconds (self s))
                                               now pending)).
Proof.
  intros E. unfold publish in E.
  step E x0 s0 E0. unfold update_stats in E0. cbn in E0. inv_ret E0.
  step E np s1 E1. cbn in E1. inv_ret E1.
  step E dr s2 E2. unfold should_drop in E2.
  step E2 u s2' E2'. unfold py_random in E2'. cbn [rng set_self] in E2'.
  destruct (random_random (rng s)) as [u' g1] eqn:Eu.
  inv_ret E2'. cbn in E2. inv_ret E2.
  cbn [fst].
  destruct (Qltb u (drop_prob (network_profile (self s)))) eqn:Ed.
  - step E x3 s3 E3. cbn in E3. inv_ret E3.
    cbn in E. inv_ret E. cbn.
    repeat split; reflexivity.
  - step E latency s3 E3. step E x4 s4 E4. step E reorder s5 E5.
    step E x6 s6 E6. step E x7 s7 E7. cbn in E. inv_ret E.
    (* latency: only the random state changes *)
    assert (H3 : self s3 = set_stats (record_received 1 (stats (self s))) (self s)).
    { unfold get_latency_ms in E3.
      step E3 base sa Ea. step E3 jit sb Eb. cbn in E3. inv_ret E3.
      unfold py_randint in Ea, Eb.
      destruct (Z_le_gt_dec _ _) in Ea; [|discriminate].
      destruct (Z_le_gt_dec _ _) in Eb; [|discriminate].
      destruct (random_randrange _ _ _) in Ea. inv_ret Ea.
      destruct (random_randrange _ _ _) in Eb. inv_ret Eb.
      reflexivity. }
    cbn in E4. inv_ret E4.
    unfold should_reorder in E5. step E5 u5 s5' E5'. unfold py_random in E5'.
    destruct (random_random _) as [u5' g5] in E5'. inv_ret E5'.
    cbn in E5. inv_ret E5.
    unfold _process_reorder_buffer in E7.
    step E7 tnow s8 E8. cbn in E8. inv_ret E8.
    step E7 buf s9 E9. cbn in E9. inv_ret E9.
    match type of E7 with drain_loop _ ?t ?sd = _ =>
      destruct (drain_loop_spec (length (_reorder_buffer (self sd))) t sd (le_n _))
        as (sf & Ef & Hg & Hc & Hst & Hsh & Hset & Hbuf & Hpub);
      set (tnow := t) in *
    end.
    cbn [self set_clock set_self] in Ef, Hst, Hsh, Hset, Hbuf, Hpub.
    rewrite Ef in E7. inv_ret E7.
    match type of E6 with context [Qltb ?a ?b] => destruct (Qltb a b) eqn:Er end.
    + (* reordered *)
      step E6 x9 s9 E9. cbn in E9. inv_ret E9.
      step E6 t s10 E10. cbn in E10. inv_ret E10.
      cbn in E6. inv_ret E6.
      cbn [self set_clock set_self set_rng] in *. rewrite H3 in *.
      cbn in Hst, Hsh, Hset, Hbuf, Hpub.
      split; [exact Hset|]. split; [rewrite Hsh; reflexivity|].
      rewrite Hst. cbn. repeat (split; [reflexivity|]).
      eexists tnow, _, []. split; [right; eexists; repeat split; reflexivity|].
      split; [rewrite Hc; reflexivity|].
      split; [exact Hbuf|]. rewrite Hpub. reflexivity.
    + cbn in E6. inv_ret E6.
      cbn [self set_clock set_self set_rng] in *. rewrite H3 in *.
      cbn in Hst, Hsh, Hset, Hbuf, Hpub.
      split; [exact Hset|]. split; [rewrite Hsh; reflexivity|].
      rewrite Hst. cbn. repeat (split; [reflexivity|]).
      eexists tnow, _, [message]. split; [left; repeat split; reflexivity|].
      split; [rewrite Hc; reflexivity|].
      split; [exact Hbuf|]. rewrite Hpub. rewrite <- app_assoc. reflexivity.
Qed.

Lemma take_drop_due (delay tnow : Q) (buf : list (Q * Reading.t)) :
  take_due delay tnow buf ++ drop_due delay tnow buf = buf.
Proof.
  induction buf as [|e rest IH]; [reflexivity|].
  cbn [take_due drop_due]. destruct (due delay tnow e); [|reflexivity].
  cbn. rewrite IH. reflexivity.
Qed.

Lemma drop_due_head (delay tnow : Q) (buf : list (Q * Reading.t)) e rest :
  drop_due delay tnow buf = e :: rest -> due delay tnow e = false.
Proof.
  induction buf as [|e0 rest0 IH]; [discriminate|].
  cbn [drop_due]. destruct (due delay tnow e0) eqn:Ed; [exact IH|].
  intros [= <- <-]. exact Ed.
Qed.

Lemma take_due_all (delay tnow : Q) (buf : list (Q * Reading.t)) :
  Forall (fun e => due delay tnow e = true) (take_due delay tnow buf).
Proof.
  induction buf as [|e rest IH]; [constructor|].
  cbn [take_due]. destruct (due delay tnow e) eqn:Ed; constructor; assumption.
Qed.

Lemma call_data_call_of (r : GatewayRelay) (msgs : list Reading.t) :
  map call_data (map (call_of r) msgs) = msgs.
Proof. induction msgs as [|m l IH]; [reflexivity|]. cbn. rewrite IH. reflexivity. Qed.

Lemma should_drop_eq {T} (np : NetworkProfile) (s : Process G T) :
  should_drop np s
  = (Returned (Qltb (random_random (rng s)).1 (drop_prob np)),
     set_rng (random_random (rng s)).2 s).
Proof. unfold should_drop. rewrite (bind_step _ _ _ _ _ (py_random_eq s)). reflexivity. Qed.

Lemma should_reorder_eq {T} (np : NetworkProfile) (s : Process G T) :
  should_reorder np s
  = (Returned (Qltb (random_random (rng s)).1 (reorder_prob np)),
     set_rng (random_random (rng s)).2 s).
Proof. unfold should_reorder. rewrite (bind_step _ _ _ _ _ (py_random_eq s)). reflexivity. Qed.

Lemma get_latency_ms_returns {T} (np : NetworkProfile) (s : Process G T) :
  valid_profile np ->
  exists n g, get_latency_ms np s = (Returned n, set_rng g s) /\ (1 <= n)%Z.
Proof.
  intros [Hl Hj]. unfold get_latency_ms.
  rewrite (bind_step _ _ _ _ _ (py_randint_eq _ _ s Hl)).
  erewrite bind_step by (apply py_randint_eq; lia).
  eexists _, _. split; [reflexivity|].
  unfold py_max_int. destruct (Z_lt_le_dec _ _); lia.
Qed.

(** A dropped call: the branch taken when the drop draw is below the
    drop probability. *)
Lemma publish_dropped (message : Reading.t) (s : Process G GatewayRelay) :
  Qltb (random_random (rng s)).1 (drop_prob (network_profile (self s))) = true ->
  exists s', publish message s = (Returned false, s').
Proof.
  intros Hd. unfold publish. unfold update_stats at 1. run1. run1.
  erewrite bind_step by (apply should_drop_eq).
  cbn [rng set_self self set_stats network_profile]. rewrite Hd.
  unfold update_stats. run1. eexists. reflexivity.
Qed.


Lemma get_summary_returns (s : Process G GatewayRelay) :
  exists sm s', get_summary s = (Returned sm, s')
    /\ rng s' = rng s /\ self s' = self s.
Proof.
  unfold get_summary, time_time. run1. run1.
  erewrite bind_step.
  2:{ apply float_div_eq. pose proof (py_max_ge 1
        (time_script (clock s) (time_reads (clock s)) - start_time (stats (self s)))).
      cbn [self set_clock]. lra. }
  eexists _, _. split; [reflexivity|]. split; reflexivity.
Qed.

Lemma flush_spec (s : Process G GatewayRelay) :
  exists s',
    flush s = (Returned tt, s')
    /\ rng s' = rng s /\ clock s' = clock s
    /\ stats (self s') = stats (self s)
    /\ _shutdown (self s') = _shutdown (self s)
    /\ same_setup (self s) (self s')
    /\ _reorder_buffer (self s') = []
    /\ publisher (self s')
       = publisher (self s) ++ map (call_of (self s)) (map snd (_reorder_buffer (self s))).
Proof. unfold flush. run1. apply flush_loop_spec. cbn. lia. Qed.

(** [shutdown] returns, with the buffer emptied into the sink. *)
Lemma shutdown_spec (s : Process G GatewayRelay) :
  exists s',
    shutdown s = (Returned tt, s')
    /\ stats (self s') = stats (self s)
    /\ _shutdown (self s') = true
    /\ same_setup (self s) (self s')
    /\ _reorder_buffer (self s') = []
    /\ publisher (self s')
       = publisher (self s) ++ map (call_of (self s)) (map snd (_reorder_buffer (self s))).
Proof.
  unfold shutdown. run1.
  match goal with |- context [bind flush ?k ?s0] =>
    destruct (flush_spec s0) as (s1 & E1 & Hg & Hc & Hst & Hsh & Hset & Hbuf & Hpub)
  end.
  rewrite (bind_step _ _ _ _ _ E1).
  destruct (get_summary_returns s1) as (sm & s2 & E2 & Hg2 & Hself).
  rewrite (bind_step _ _ _ _ _ E2).
  exists s2. split; [reflexivity|]. rewrite Hself.
  split; [exact Hst|]. split; [exact Hsh|]. split; [exact Hset|].
  split; [exact Hbuf|exact Hpub].
Qed.

Lemma held_after_drain (r : GatewayRelay) (calls : list PublishCall)
  (direct : list Reading.t) (delay tnow : Q) (pending : list (Q * Reading.t)) :
  map call_data (calls ++ map (call_of r) (direct ++ map snd (take_due delay tnow pending)))
  ++ map snd (drop_due delay tnow pending)
  = map call_data calls ++ direct ++ map snd pending.
Proof.
  rewrite map_app, call_data_call_of, <- !app_assoc.
  rewrite <- map_app, take_drop_due. reflexivity.
Qed.

Lemma relay_run_spec (s s' : Process G GatewayRelay) (evs : list relay_event) :
  relay_run s evs s' ->
  same_setup (self s) (self s')
  /\ messages_received (stats (self s'))
     = (messages_received (stats (self s)) + count_publish evs)%Z
  /\ messages_dropped (stats (self s'))
     = (messages_dropped (stats (self s)) + count_refused evs)%Z
  /\ held (self s') ≡ₚ held (self s) ++ accepted evs
  /\ (exists more, publisher (self s') = publisher (self s) ++ more).
Proof.
  induction 1 as [s | s message ok s1 evs s' Hp Hrun IH
                    | s ok s1 evs s' Hc Hrun IH | s g c evs s' Hrun IH].
  - split; [apply same_setup_refl|]. cbn. rewrite !Z.add_0_r, app_nil_r.
    repeat split; try reflexivity. exists []. rewrite app_nil_r. reflexivity.
  - destruct IH as (Hset & Hrec & Hdrop & Hheld & more & Hmore).
    apply publish_spec in Hp as (Hset1 & _ & Hrec1 & _ & _ & Hcase).
    split; [eapply same_setup_trans; eassumption|].
    destruct (Qltb _ _).
    + destruct Hcase as (-> & Hd1 & _ & Hpub1 & Hbuf1 & _).
      cbn [count_publish count_refused accepted].
      split; [lia|]. split; [lia|].
      split.
      * rewrite Hheld. unfold held. rewrite Hpub1, Hbuf1. reflexivity.
      * exists more. rewrite Hmore, Hpub1. reflexivity.
    + destruct Hcase as (-> & Hd1 & tnow & pending & direct & Hpend & _ & Hbuf1 & Hpub1).
      cbn [count_publish count_refused accepted].
      split; [lia|]. split; [lia|].
      split.
      * rewrite Hheld. unfold held. rewrite Hpub1, Hbuf1, held_after_drain.
        destruct Hpend as [(-> & -> & _) | (t & -> & -> & _)].
        -- cbn [app]. rewrite <- !app_assoc.
           apply Permutation_app_head.
           rewrite <- !Permutation_middle. reflexivity.
        -- rewrite map_app. cbn [app map snd]. rewrite <- !app_assoc.
           do 2 apply Permutation_app_head. reflexivity.
      * eexists. rewrite Hmore, Hpub1, <- app_assoc. reflexivity.
  - destruct IH as (Hset & Hrec & Hdrop & Hheld & more & Hmore).
    assert (Hs1 : same_setup (self s) (self s1)
                  /\ messages_received (stats (self s1)) = messages_received (stats (self s))
                  /\ messages_dropped (stats (self s1)) = messages_dropped (stats (self s))
                  /\ publisher (self s1) = publisher (self s)
                  /\ _reorder_buffer (self s1) = _reorder_buffer (self s)).
    { destruct ok; cbn in Hc; inv_ret Hc; repeat split. }
    destruct Hs1 as (Hset1 & Hr1 & Hd1 & Hp1 & Hb1).
    split; [eapply same_setup_trans; eassumption|].
    cbn [count_publish count_refused accepted].
    split; [lia|]. split; [lia|]. split.
    + rewrite Hheld. unfold held. rewrite Hp1, Hb1. reflexivity.
    + exists more. rewrite Hmore, Hp1. reflexivity.
  - exact IH.
Qed.




End GatewayFacts.

(** ** The simulator *)

Section SimulatorFacts.
Context {G : Type} `{PyLib G}.




(** [_should_start_sag] leaves the meters and the configuration alone. *)
Lemma should_start_sag_inv (meter : nat) (s s' : Process G MeterSimulator) (b : bool) :
  _should_start_sag meter s = (Returned b, s') ->
  meters (self s') = meters (self s) /\ config (self s') = config (self s)
  /\ (b = true -> MeterState.in_sag (meters (self s) !!! meter) = false).
Proof.
  intros E. unfold _should_start_sag in E.
  step_eq E m s0.
  destruct (MeterState.in_sag (meters (self s) !!! meter)) eqn:Ein.
  { got E b s'. repeat split. discriminate. }
  step_eq E cfg s1.
  step E forced s2 E2.
  assert (H2 : meters (self s2) = meters (self s) /\ config (self s2) = config (self s)).
  { destruct (Z_lt_le_dec 0 _) in E2.
    - step_eq E2 tnow s3.
      step_eq E2 lst s4.
      destruct (Qle_bool _ _) in E2.
      + step_eq E2 x s5. got E2 forced s2. split; reflexivity.
      + got E2 forced s2. split; reflexivity.
    - got E2 forced s2. split; reflexivity. }
  destruct H2 as [Hm Hc].
  destruct forced.
  - got E b s'. repeat split; assumption.
  - step E u s3 E3. rewrite py_random_eq in E3. got E3 u s3. got E b s'.
    repeat split; assumption.
Qed.

Lemma update_sag_state_spec (meter : nat) (s s' : Process G MeterSimulator) (adj : Q) :
  _update_sag_state meter s = (Returned adj, s') ->
  config (self s') = config (self s)
  /\ exists F,
       meters (self s') = alter F meter (meters (self s))
       /\ forall m, meters (self s) !! meter = Some m ->
                    sag_transition (config (self s)) m adj (F m).
Proof.
  intros E. unfold _update_sag_state in E.
  step_eq E m0 s0.
  destruct (MeterState.in_sag (meters (self s) !!! meter)) eqn:Ein.
  - step_eq E x1 s1.
    step_eq E m1 s2.
    destruct (Z_le_gt_dec _ _) as [Hle|Hgt] in E.
    + step_eq E x3 s3.
      step_eq E x4 s4.
      got E adj s'. cbn.
      split; [reflexivity|].
      eexists. split; [rewrite !list_alter_alter_eq; reflexivity|].
      intros m Hm. cbn.
      rewrite (list_lookup_total_correct _ _ _ Hm) in Ein.
      rewrite list_lookup_total_alter_eq in Hle by (eapply lookup_lt_Some; eassumption).
      rewrite (list_lookup_total_correct _ _ _ Hm) in Hle. cbn in Hle.
      apply sag_end; assumption.
    + got E adj s'. cbn. split; [reflexivity|].
      eexists. split; [reflexivity|].
      intros m Hm.
      rewrite (list_lookup_total_correct _ _ _ Hm) in Ein.
      rewrite list_lookup_total_alter_eq in * by (eapply lookup_lt_Some; eassumption).
      rewrite (list_lookup_total_correct _ _ _ Hm) in *. cbn in Hgt |- *.
      apply sag_continue; [assumption|lia].
  - step E start s1 E1.
    apply should_start_sag_inv in E1 as (Hm1 & Hc1 & _).
    destruct start.
    + step_eq E cfg s2.
      step_eq E x3 s3.
      step E depth s4 E4. rewrite py_uniform_eq in E4. got E4 depth s4.
      step_eq E x5 s5.
      step E dur s6 E6. apply py_randint_inv in E6 as [Hdur ->].
      step_eq E x7 s7.
      step_eq E m8 s8.
      got E adj s'. cbn. rewrite Hm1, Hc1 in *.
      split; [reflexivity|].
      eexists. split; [rewrite !list_alter_alter_eq; reflexivity|].
      intros m Hm. 
      rewrite (list_lookup_total_correct _ _ _ Hm) in Ein.
      rewrite !list_lookup_total_alter_eq
        by (rewrite ?length_alter; eapply lookup_lt_Some; eassumption).
      rewrite (list_lookup_total_correct _ _ _ Hm). cbn.
      destruct (random_random_range (rng s1)) as [Hu0 Hu1].
      apply (sag_start _ _ _ _ Ein Hu0 Hu1 Hdur).
    + got E adj s'. split; [assumption|].
      exists (fun m => m). split; [rewrite list_alter_id by reflexivity; assumption|].
      intros m Hm. rewrite (list_lookup_total_correct _ _ _ Hm) in Ein.
      apply sag_none. assumption.
Qed.


Lemma sag_transition_identity cfg m adj m' :
  sag_transition cfg m adj m' ->
  MeterState.meter_id m' = MeterState.meter_id m
  /\ MeterState.pole_id m' = MeterState.pole_id m
  /\ MeterState.seq m' = MeterState.seq m
  /\ MeterState.meter_factor m' = MeterState.meter_factor m
  /\ MeterState.power_factor m' = MeterState.power_factor m.
Proof. destruct 1; repeat split. Qed.

(** What a completed [generate_reading] call computes. *)
Lemma generate_reading_spec (meter : nat) (timestamp : datetime)
  (s s' : Process G MeterSimulator) (r : Reading.t) :
  generate_reading meter timestamp s = (Returned r, s') ->
  let cfg := config (self s) in
  let z1 := (random_normal (rng s)).1 in
  let z2 := (random_normal (random_normal (rng s)).2).1 in
  config (self s') = cfg
  /\ Reading.event_ts r = isoformat timestamp
  /\ exists adj F,
       meters (self s') = alter F meter (meters (self s))
       /\ forall m, meters (self s) !! meter = Some m ->
            exists m1,
              sag_transition cfg m adj m1
              /\ F m = MeterState.set_seq (MeterState.seq m + 1) m1
              /\ let p := computed_power cfg timestamp m z1 in
                 let v := computed_voltage cfg z2 adj in
                 Reading.power_kw r = py_round p 3
                 /\ Reading.voltage_v r = py_round v 2
                 /\ Reading.quality_flags r = quality_flags_of cfg v
                 /\ Reading.seq r = (MeterState.seq m + 1)%Z
                 /\ Reading.event_ts r = isoformat timestamp
                 /\ Reading.meter_id r = MeterState.meter_id m
                 /\ Reading.pole_id r = MeterState.pole_id m
                 /\ exists c, Reading.current_a r = py_round c 3
                      /\ ((Qltb 0 v && Qltb 0 p = true
                           /\ float_tiny < Qabs (v * MeterState.power_factor m)
                           /\ c = p * 1000 / (v * MeterState.power_factor m))
                          \/ (Qltb 0 v && Qltb 0 p = false /\ c = 0)).
Proof.
  intros E cfg z1 z2. unfold generate_reading in E.
  step_eq E cfg0 s0.
  step E noise s1 E1. rewrite py_gauss_eq in E1. got E1 noise s1.
  step_eq E m0 s2.
  step E vnoise s3 E3. rewrite py_gauss_eq in E3. got E3 vnoise s3.
  step E adj s4 E4.
  apply update_sag_state_spec in E4 as (Hcfg & F0 & HF0 & Htrans).
  cbn [self set_rng config meters rng] in Hcfg, HF0, Htrans.
  step_eq E m5 s5.
  step E cur s6 E6.
  step E ang s7 E7.
  unfold py_acos in E7. destruct (math_acos _) as [a|] in E7; [|discriminate].
  got E7 ang s7.
  step E fnoise s8 E8. rewrite py_gauss_eq in E8. got E8 fnoise s8.
  step_eq E x9 s9. step_eq E m10 s10. got E r s'.
  cbn [Reading.power_kw Reading.voltage_v Reading.quality_flags Reading.seq
       Reading.event_ts Reading.meter_id Reading.pole_id Reading.current_a].
  assert (Hs6 : self s6 = self s4 /\ rng s6 = rng s4).
  { destruct (Qltb 0 _ && Qltb 0 _) in E6.
    - unfold float_div in E6. destruct (Qeq_dec _ _) in E6; [discriminate|].
      got E6 cur s6. split; reflexivity.
    - got E6 cur s6. split; reflexivity. }
  destruct Hs6 as [Hself6 Hrng6].
  cbn [self set_rng set_self set_meters config meters rng].
  rewrite Hself6, Hcfg. split; [reflexivity|]. split; [reflexivity|].
  exists adj, (fun m => MeterState.set_seq (MeterState.seq (F0 m) + 1) (F0 m)).
  split.
  { rewrite HF0, list_alter_alter_eq. reflexivity. }
  intros m Hm. exists (F0 m).
  specialize (Htrans m Hm).
  destruct (sag_transition_identity _ _ _ _ Htrans) as (Hid & Hpole & Hseq & Hmf & Hpf).
  assert (Hlen : (meter < length (meters (self s)))%nat) by (eapply lookup_lt_Some; eassumption).
  rewrite list_lookup_total_alter_eq by (rewrite HF0, length_alter; exact Hlen).
  rewrite HF0. rewrite !list_lookup_total_alter_eq in * by exact Hlen.
  rewrite HF0 in E6. rewrite !list_lookup_total_alter_eq in E6 by exact Hlen.
  rewrite (list_lookup_total_correct _ _ _ Hm) in *.
  split; [exact Htrans|]. split; [rewrite Hseq; reflexivity|].
  cbn. rewrite Hseq, Hid, Hpole.
  repeat (split; [reflexivity|]).
  exists cur. split; [reflexivity|].
  fold cfg z1 z2 in E6.
  change (_get_load_curve_factor cfg _ * MeterState.meter_factor m * (1 + (0 + z1 * noise_factor cfg)))
    with (_get_load_curve_factor cfg (hour_of timestamp) * MeterState.meter_factor m
          * (1 + (0 + z1 * noise_factor cfg))) in E6.
  fold (computed_power cfg timestamp m z1) in E6.
  fold (computed_voltage cfg z2 adj) in E6.
  rewrite Hpf in E6.
  destruct (Qltb 0 _ && Qltb 0 _) in E6 |- *.
  - left. unfold float_div in E6. destruct (Qeq_dec _ _) as [|Hnz] in E6; [discriminate|].
    got E6 cur s6.
    destruct (float_mul_cases (computed_voltage cfg z2 adj) (MeterState.power_factor m))
      as [[_ E0]|[Hgt E0]]; rewrite E0 in *.
    + exfalso. apply Hnz. reflexivity.
    + repeat split. exact Hgt.
  - right. got E6 cur s6. split; reflexivity.
Qed.

(** The only exception of [_update_sag_state] is the ValueError of an empty
    duration range, raised by a tick that starts a sag: the flag and the
    depth of the meter are set by then. *)
Lemma update_sag_state_failed (meter : nat) (s s' : Process G MeterSimulator) (e : exn) :
  _update_sag_state meter s = (Raised e, s') ->
  e = ValueError
  /\ (sag_duration_max (config (self s)) < sag_duration_min (config (self s)))%Z
  /\ config (self s') = config (self s)
  /\ exists F,
       meters (self s') = alter F meter (meters (self s))
       /\ forall m, meters (self s) !! meter = Some m ->
                    sag_interrupted (config (self s)) m (F m).
Proof.
  intros E. unfold _update_sag_state in E.
  apply bind_raised_inv in E as [E|(m0 & s0 & E0 & E)]; [discriminate|].
  got E0 m0 s0.
  destruct (MeterState.in_sag (meters (self s) !!! meter)) eqn:Ein.
  - apply bind_raised_inv in E as [E|(x1 & s1 & E1 & E)]; [discriminate|].
    got E1 x1 s1.
    apply bind_raised_inv in E as [E|(m2 & s2 & E2 & E)]; [discriminate|].
    got E2 m2 s2.
    destruct (Z_le_gt_dec _ _) in E; [|discriminate].
    apply bind_raised_inv in E as [E|(x3 & s3 & E3 & E)]; [discriminate|].
    got E3 x3 s3.
    apply bind_raised_inv in E as [E|(x4 & s4 & E4 & E)]; discriminate.
  - apply bind_raised_inv in E as [E|(start & s1 & E1 & E)].
    + exfalso. unfold _should_start_sag in E.
      apply bind_raised_inv in E as [E|(m1 & s1 & E1 & E)]; [discriminate|].
      got E1 m1 s1.
      destruct (MeterState.in_sag _); [discriminate|].
      apply bind_raised_inv in E as [E|(cfg & s2 & E2 & E)]; [discriminate|].
      got E2 cfg s2.
      apply bind_raised_inv in E as [E|(forced & s3 & E3 & E)].
      * destruct (Z_lt_le_dec _ _) in E; [|discriminate].
        apply bind_raised_inv in E as [E|(tnow & s3 & E3 & E)]; [discriminate|].
        got E3 tnow s3.
        apply bind_raised_inv in E as [E|(lst & s4 & E4 & E)]; [discriminate|].
        got E4 lst s4.
        destruct (Qle_bool _ _) in E; [|discriminate].
        apply bind_raised_inv in E as [E|(x5 & s5 & E5 & E)]; discriminate.
      * destruct forced; [discriminate|].
        apply bind_raised_inv in E as [E|(u & s4 & E4 & E)]; [|discriminate].
        rewrite py_random_eq in E. discriminate.
    + apply should_start_sag_inv in E1 as (Hm1 & Hcfg & _).
      destruct start; [|discriminate].
      apply bind_raised_inv in E as [E|(cfg & s2 & E2 & E)]; [discriminate|].
      got E2 cfg s2.
      apply bind_raised_inv in E as [E|(x3 & s3 & E3 & E)]; [discriminate|].
      got E3 x3 s3.
      apply bind_raised_inv in E as [E|(depth & s4 & E4 & E)];
        [rewrite py_uniform_eq in E; discriminate|].
      rewrite py_uniform_eq in E4. got E4 depth s4.
      apply bind_raised_inv in E as [E|(x5 & s5 & E5 & E)]; [discriminate|].
      got E5 x5 s5.
      apply bind_raised_inv in E as [E|(dur & s6 & E6 & E)].
      * unfold py_randint in E. cbn [self set_rng set_self set_meters config] in E.
        rewrite Hcfg in E.
        destruct (Z_le_gt_dec _ _) as [|Hgt] in E.
        { destruct (random_randrange _ _ _) in E. discriminate. }
        injection E as <- <-. cbn [self set_rng set_self set_meters config meters].
        rewrite Hm1, Hcfg.
        split; [reflexivity|]. split; [lia|]. split; [reflexivity|].
        eexists. split; [rewrite !list_alter_alter_eq; reflexivity|].
        intros m Hm. rewrite (list_lookup_total_correct _ _ _ Hm) in Ein.
        destruct (random_random_range (rng s1)) as [Hu0 Hu1].
        cbn. apply (sag_start_raised _ _ _ Ein Hu0 Hu1). lia.
      * apply bind_raised_inv in E as [E|(x7 & s7 & E7 & E)]; [discriminate|].
        got E7 x7 s7.
        apply bind_raised_inv in E as [E|(m8 & s8 & E8 & E)]; discriminate.
Qed.

Lemma update_sag_state_raises (meter : nat) (s s' : Process G MeterSimulator) (e : exn) :
  _update_sag_state meter s = (Raised e, s') ->
  e = ValueError
  /\ (sag_duration_max (config (self s)) < sag_duration_min (config (self s)))%Z.
Proof.
  intros E. apply update_sag_state_failed in E as (He & Hd & _). split; assumption.
Qed.

(** What a [generate_reading] call that raises has done, and why it
    raised.  Either the sag update raised (ValueError, empty range of
    durations), or the sag update is complete and the division raised
    (ZeroDivisionError: the voltage and the power are positive and the
    product of the voltage and the power factor is zero or underflows) or
    [math.acos] raised (ValueError: the power factor is outside [-1, 1]).
    The sequence number is not incremented. *)
Lemma generate_reading_failed (meter : nat) (timestamp : datetime)
  (s s' : Process G MeterSimulator) (e : exn) :
  generate_reading meter timestamp s = (Raised e, s') ->
  let cfg := config (self s) in
  let z1 := (random_normal (rng s)).1 in
  let z2 := (random_normal (random_normal (rng s)).2).1 in
  config (self s') = cfg
  /\ exists F,
       meters (self s') = alter F meter (meters (self s))
       /\ forall m, meters (self s) !! meter = Some m ->
            (e = ValueError
             /\ (sag_duration_max cfg < sag_duration_min cfg)%Z
             /\ sag_interrupted cfg m (F m))
            \/ exists adj,
                 sag_transition cfg m adj (F m)
                 /\ ((e = ZeroDivisionError
                      /\ 0 < computed_voltage cfg z2 adj
                      /\ 0 < computed_power cfg timestamp m z1
                      /\ Qabs (computed_voltage cfg z2 adj * MeterState.power_factor m)
                         <= float_tiny)
                     \/ (e = ValueError
                         /\ (MeterState.power_factor m < -1
                             \/ 1 < MeterState.power_factor m))).
Proof.
  intros E cfg z1 z2. unfold generate_reading in E.
  apply bind_raised_inv in E as [E|(cfg0 & s0 & E0 & E)]; [discriminate|].
  got E0 cfg0 s0.
  apply bind_raised_inv in E as [E|(noise & s1 & E1 & E)];
    [rewrite py_gauss_eq in E; discriminate|].
  rewrite py_gauss_eq in E1. got E1 noise s1.
  apply bind_raised_inv in E as [E|(m0 & s2 & E2 & E)]; [discriminate|].
  got E2 m0 s2.
  apply bind_raised_inv in E as [E|(vnoise & s3 & E3 & E)];
    [rewrite py_gauss_eq in E; discriminate|].
  rewrite py_gauss_eq in E3. got E3 vnoise s3.
  apply bind_raised_inv in E as [E|(adj & s4 & E4 & E)].
  { apply update_sag_state_failed in E as (-> & Hdur & Hcfg & F & HF & Hint).
    cbn [self set_rng config meters] in Hdur, Hcfg, HF, Hint.
    split; [exact Hcfg|]. exists F. split; [exact HF|].
    intros m Hm. left. split; [reflexivity|]. split; [exact Hdur|]. apply Hint. exact Hm. }
  apply update_sag_state_spec in E4 as (Hcfg & F & HF & Ht).
  cbn [self set_rng config meters rng] in Hcfg, HF, Ht.
  apply bind_raised_inv in E as [E|(m5 & s5 & E5 & E)]; [discriminate|].
  got E5 m5 s5.
  assert (Hpf : forall m, meters (self s) !! meter = Some m ->
                  MeterState.power_factor (meters (self s4) !!! meter)
                  = MeterState.power_factor m).
  { intros m Hm. rewrite HF.
    rewrite list_lookup_total_alter_eq by (eapply lookup_lt_Some; eassumption).
    rewrite (list_lookup_total_correct _ _ _ Hm).
    destruct (sag_transition_identity _ _ _ _ (Ht m Hm)) as (_ & _ & _ & _ & Hpf).
    exact Hpf. }
  apply bind_raised_inv in E as [E|(cur & s6 & E6 & E)].
  - match type of E with
    | context [if ?g then _ else _] => destruct g eqn:Hg in E
    end; [|discriminate].
    apply andb_true_iff in Hg as [Hgv Hgp].
    apply (reflect_iff _ _ (Qltb_reflect _ _)) in Hgv.
    apply (reflect_iff _ _ (Qltb_reflect _ _)) in Hgp.
    unfold float_div in E. destruct (Qeq_dec _ _) as [Hz|] in E; [|discriminate].
    injection E as <- <-.
    split; [exact Hcfg|]. exists F. split; [exact HF|].
    intros m Hm. right. exists adj. split; [apply Ht; exact Hm|]. left.
    rewrite (Hpf m Hm) in Hz. apply float_mul_zero in Hz.
    rewrite (list_lookup_total_correct _ _ _ Hm) in Hgp.
    split; [reflexivity|]. split; [exact Hgv|]. split; [exact Hgp|exact Hz].
  - assert (Hs6 : s6 = s4).
    { destruct (Qltb 0 _ && Qltb 0 _) in E6.
      - unfold float_div in E6. destruct (Qeq_dec _ _) in E6; [discriminate|].
        got E6 cur s6. reflexivity.
      - got E6 cur s6. reflexivity. }
    subst s6.
    apply bind_raised_inv in E as [E|(ang & s7 & E7 & E)].
    + unfold py_acos in E. destruct (math_acos _) eqn:Hacos in E; [discriminate|].
      injection E as <- <-.
      split; [exact Hcfg|]. exists F. split; [exact HF|].
      intros m Hm. right. exists adj. split; [apply Ht; exact Hm|]. right.
      split; [reflexivity|]. rewrite (Hpf m Hm) in Hacos.
      apply math_acos_domain. exact Hacos.
    + exfalso.
      apply bind_raised_inv in E as [E|(fnoise & s8 & E8 & E)];
        [rewrite py_gauss_eq in E; discriminate|].
      apply bind_raised_inv in E as [E|(x9 & s9 & E9 & E)]; [discriminate|].
      apply bind_raised_inv in E as [E|(m10 & s10 & E10 & E)]; discriminate.
Qed.

(** One call of [generate_reading], returning or raising, moves the sag
    state of its meter by one transition, or leaves it interrupted when the
    range of durations is empty. *)
Lemma generate_reading_transition (meter : nat) (timestamp : datetime)
  (s s1 : Process G MeterSimulator) (o : outcome Reading.t) (m : MeterState.t) :
  generate_reading meter timestamp s = (o, s1) ->
  meters (self s) !! meter = Some m ->
  (exists adj m1,
     sag_transition (config (self s)) m adj m1
     /\ (meters (self s1) !! meter = Some m1
         \/ meters (self s1) !! meter
            = Some (MeterState.set_seq (MeterState.seq m + 1) m1)))
  \/ (exists m1,
        sag_interrupted (config (self s)) m m1
        /\ meters (self s1) !! meter = Some m1).
Proof.
  intros Hg Hm. destruct o as [r|e].
  - apply generate_reading_spec in Hg as (_ & _ & adj & F & HF & HFm).
    destruct (HFm m Hm) as (m1 & Ht & HFeq & _).
    left. exists adj, m1. split; [exact Ht|]. right.
    rewrite HF, list_lookup_alter_eq, Hm. cbn. rewrite HFeq. reflexivity.
  - apply generate_reading_failed in Hg as (_ & F & HF & HFm).
    destruct (HFm m Hm) as [(_ & _ & Hint)|(adj & Ht & _)].
    + right. exists (F m). split; [exact Hint|].
      rewrite HF, list_lookup_alter_eq, Hm. reflexivity.
    + left. exists adj, (F m). split; [exact Ht|]. left.
      rewrite HF, list_lookup_alter_eq, Hm. reflexivity.
Qed.

(** *** Invariants of the sag state machine *)

Lemma uniform_between (a b u : Q) :
  0 <= u -> u < 1 -> a <= b -> a <= a + (b - a) * u /\ a + (b - a) * u <= b.
Proof. intros. split; nra. Qed.

Lemma uniform_positive (a b u : Q) :
  0 <= u -> u < 1 -> 0 < a -> 0 < b -> 0 < a + (b - a) * u.
Proof. intros. nra. Qed.

Lemma sag_transition_invariant (cfg : SimulatorConfig) (m m' : MeterState.t) (adj : Q) :
  (1 <= sag_duration_min cfg)%Z ->
  0 < sag_depth_min cfg -> 0 < sag_depth_max cfg ->
  sag_invariant m -> sag_transition cfg m adj m' -> sag_invariant m'.
Proof.
  intros Hdur Hmin Hmax [Hrem Hdepth] Ht. unfold sag_invariant.
  destruct Ht as [Hin Hpos | Hin Hle | Hin | u d Hin Hu0 Hu1 Hd]; cbn.
  - rewrite Hin in *. split; [split; [reflexivity|lia]|exact Hdepth].
  - split; [split; [lia|discriminate]|split; reflexivity].
  - split; assumption.
  - pose proof (uniform_positive _ _ _ Hu0 Hu1 Hmin Hmax) as Hp.
    split; [split; [reflexivity|lia]|].
    split; [intros Hz; lra|discriminate].
Qed.

Lemma sag_invariant_set_seq (n : Z) (m : MeterState.t) :
  sag_invariant m -> sag_invariant (MeterState.set_seq n m).
Proof. intros Hm. exact Hm. Qed.

Lemma sag_transition_depth (cfg : SimulatorConfig) (m m' : MeterState.t) (adj : Q) :
  0 <= sag_depth_min cfg -> sag_depth_min cfg <= sag_depth_max cfg ->
  depth_bounded cfg m -> sag_transition cfg m adj m' ->
  depth_bounded cfg m' /\ - sag_depth_max cfg <= adj /\ adj <= 0.
Proof.
  intros Hmin Hmax [Hd0 Hd1] Ht. unfold depth_bounded.
  destruct Ht as [Hin Hpos | Hin Hle | Hin | u d Hin Hu0 Hu1 Hd]; cbn.
  - repeat split; lra.
  - repeat split; lra.
  - repeat split; lra.
  - pose proof (uniform_between _ _ _ Hu0 Hu1 Hmax) as [Hlo Hhi].
    repeat split; lra.
Qed.

Lemma sag_interrupted_depth (cfg : SimulatorConfig) (m m' : MeterState.t) :
  0 <= sag_depth_min cfg -> sag_depth_min cfg <= sag_depth_max cfg ->
  sag_interrupted cfg m m' -> depth_bounded cfg m'.
Proof.
  intros Hmin Hmax [u _ Hu0 Hu1 _]. unfold depth_bounded. cbn.
  pose proof (uniform_between _ _ _ Hu0 Hu1 Hmax) as [Hlo Hhi]. split; lra.
Qed.

(** A property of meters that every tick preserves, whether it returns or
    raises, holds along a run. *)
Lemma sim_run_forall (P : MeterState.t -> Prop) (cfg : SimulatorConfig)
  (s s' : Process G MeterSimulator) (evs : list sim_event) :
  (forall m adj m1, P m -> sag_transition cfg m adj m1 -> P m1) ->
  (forall m m1, P m -> sag_interrupted cfg m m1 -> P m1) ->
  (forall m n, P m -> P (MeterState.set_seq n m)) ->
  sim_run s evs s' ->
  config (self s) = cfg -> Forall P (meters (self s)) ->
  config (self s') = cfg /\ Forall P (meters (self s')).
Proof.
  intros HP HPi HPs Hrun.
  induction Hrun as [s | s i ts r s1 evs s' Hg Hrun IH | s i ts e s1 evs s' Hg Hrun IH
                     | s g c evs s' Hrun IH];
    intros Hcfg Hall.
  - split; assumption.
  - apply generate_reading_spec in Hg as (Hc1 & _ & adj & F & HF & Hm).
    apply IH; [congruence|].
    rewrite HF. apply Forall_alter; [exact Hall|].
    intros m Hlook Hpm. destruct (Hm m Hlook) as (m1 & Ht & -> & _).
    rewrite Hcfg in Ht. apply HPs. eapply HP; eassumption.
  - apply generate_reading_failed in Hg as (Hc1 & F & HF & Hm).
    apply IH; [congruence|].
    rewrite HF. apply Forall_alter; [exact Hall|].
    intros m Hlook Hpm. rewrite Hcfg in Hm.
    destruct (Hm m Hlook) as [(_ & _ & Hint)|(adj & Ht & _)].
    + eapply HPi; eassumption.
    + eapply HP; eassumption.
  - apply IH; assumption.
Qed.

Lemma init_meters_forall {T} (P : MeterState.t -> Prop) (cfg : SimulatorConfig)
  (indices : list Z) (s s' : Process G T) (ms : list MeterState.t) :
  (forall mid pid mf pf, P (MeterState.new mid pid mf pf)) ->
  init_meters cfg indices s = (Returned ms, s') -> Forall P ms.
Proof.
  intros HP. revert s s' ms. induction indices as [|i rest IH]; intros s s' ms E.
  - got E ms s'. constructor.
  - cbn [init_meters] in E.
    step E mf s1 E1. step E pf s2 E2. step E ms0 s3 E3. got E ms s'.
    constructor; [apply HP|]. eapply IH. exact E3.
Qed.

Lemma MeterSimulator_init_spec {T} (P : MeterState.t -> Prop) (cfg : SimulatorConfig)
  (seed : option Z) (w w' : Process G T) (sim : MeterSimulator) :
  (forall mid pid mf pf, P (MeterState.new mid pid mf pf)) ->
  MeterSimulator__init__ cfg seed w = (Returned sim, w') ->
  config sim = cfg /\ Forall P (meters sim).
Proof.
  intros HP E. unfold MeterSimulator__init__ in E.
  step E x0 s0 E0. step E ms s1 E1. step_eq E tnow s2. got E sim w'.
  split; [reflexivity|]. eapply init_meters_forall; eassumption.
Qed.



Lemma sag_invariant_new (mid pid : string) (mf pf : Q) :
  sag_invariant (MeterState.new mid pid mf pf).
Proof.
  unfold sag_invariant. cbn. split; [split; [lia|discriminate]|split; reflexivity].
Qed.

(** *** Ticks of one meter *)

Lemma sim_run_no_calls (meter : nat) (s s' : Process G MeterSimulator)
  (evs : list sim_event) :
  sim_run s evs s' -> calls_of meter evs = O ->
  meters (self s') !! meter = meters (self s) !! meter.
Proof.
  induction 1 as [s | s i ts r s1 evs s' Hg Hrun IH | s i ts e s1 evs s' Hg Hrun IH
                  | s g c evs s' Hrun IH]; intros Hk.
  - reflexivity.
  - cbn [calls_of] in Hk. destruct (Nat.eqb_spec i meter) as [->|Hne]; [discriminate|].
    rewrite (IH Hk).
    apply generate_reading_spec in Hg as (_ & _ & adj & F & -> & _).
    apply list_lookup_alter_ne. exact Hne.
  - cbn [calls_of] in Hk. destruct (Nat.eqb_spec i meter) as [->|Hne]; [discriminate|].
    rewrite (IH Hk).
    apply generate_reading_failed in Hg as (_ & F & -> & _).
    apply list_lookup_alter_ne. exact Hne.
  - apply IH. exact Hk.
Qed.

(** One call of [generate_reading] for a meter that is sagging with [d]
    ticks remaining, whether the call returns or raises: the meter stays
    flagged with one tick less, or is cleared when [d] is 1 (or less). *)
Lemma sagging_call (meter : nat) (timestamp : datetime)
  (s s1 : Process G MeterSimulator) (o : outcome Reading.t) (m : MeterState.t) :
  generate_reading meter timestamp s = (o, s1) ->
  meters (self s) !! meter = Some m ->
  MeterState.in_sag m = true ->
  exists m1,
    meters (self s1) !! meter = Some m1
    /\ ((1 < MeterState.sag_remaining_seconds m)%Z ->
        MeterState.in_sag m1 = true
        /\ MeterState.sag_remaining_seconds m1 = (MeterState.sag_remaining_seconds m - 1)%Z
        /\ MeterState.sag_depth m1 = MeterState.sag_depth m)
    /\ ((MeterState.sag_remaining_seconds m <= 1)%Z ->
        MeterState.in_sag m1 = false /\ MeterState.sag_depth m1 = 0).
Proof.
  intros Hg Hm Hin.
  assert (Hcase : exists F adj,
            meters (self s1) = alter F meter (meters (self s))
            /\ exists m1, sag_transition (config (self s)) m adj m1
                          /\ (F m = m1 \/ F m = MeterState.set_seq (MeterState.seq m + 1) m1)).
  { destruct o as [r|e].
    - apply generate_reading_spec in Hg as (_ & _ & adj & F & HF & HFm).
      destruct (HFm m Hm) as (m1 & Ht & HFeq & _).
      exists F, adj. split; [exact HF|]. exists m1. split; [exact Ht|right; exact HFeq].
    - apply generate_reading_failed in Hg as (_ & F & HF & HFm).
      destruct (HFm m Hm) as [(_ & _ & Hint)|(adj & Ht & _)].
      + destruct Hint as [u Hno _ _ _]. congruence.
      + exists F, adj. split; [exact HF|]. exists (F m). split; [exact Ht|left; reflexivity]. }
  destruct Hcase as (F & adj & HF & m1 & Ht & HFeq).
  exists (F m). split; [rewrite HF, list_lookup_alter_eq, Hm; reflexivity|].
  destruct Ht as [_ Hpos | _ Hle | Hno | u d0 Hno _ _ _]; try congruence;
    destruct HFeq as [-> | ->]; cbn; split; intros Hk; try lia; repeat split; assumption.
Qed.

(** The same for a call of another meter: nothing changes. *)
Lemma other_call (meter i : nat) (timestamp : datetime)
  (s s1 : Process G MeterSimulator) (o : outcome Reading.t) :
  generate_reading i timestamp s = (o, s1) -> i <> meter ->
  meters (self s1) !! meter = meters (self s) !! meter.
Proof.
  intros Hg Hne. destruct o as [r|e].
  - apply generate_reading_spec in Hg as (_ & _ & adj & F & -> & _).
    apply list_lookup_alter_ne. exact Hne.
  - apply generate_reading_failed in Hg as (_ & F & -> & _).
    apply list_lookup_alter_ne. exact Hne.
Qed.

(** While a meter is sagging with [d] ticks remaining, it stays flagged
    through its next [d - 1] calls and is cleared by the [d]-th. *)
Lemma sagging_ticks (meter : nat) (s s' : Process G MeterSimulator)
  (evs : list sim_event) :
  sim_run s evs s' ->
  forall m, meters (self s) !! meter = Some m ->
    MeterState.in_sag m = true ->
    (1 <= MeterState.sag_remaining_seconds m)%Z ->
    let k := Z.of_nat (calls_of meter evs) in
    let d := MeterState.sag_remaining_seconds m in
    ((k < d)%Z ->
       exists m', meters (self s') !! meter = Some m'
         /\ MeterState.in_sag m' = true
         /\ MeterState.sag_remaining_seconds m' = (d - k)%Z
         /\ MeterState.sag_depth m' = MeterState.sag_depth m)
    /\ (k = d ->
       exists m', meters (self s') !! meter = Some m'
         /\ MeterState.in_sag m' = false
         /\ MeterState.sag_depth m' = 0).
Proof.
  assert (Hcall : forall (s s1 s' : Process G MeterSimulator) i ts (o : outcome Reading.t) evs,
            generate_reading i ts s = (o, s1) ->
            sim_run s1 evs s' ->
            (forall m, meters (self s1) !! meter = Some m ->
               MeterState.in_sag m = true ->
               (1 <= MeterState.sag_remaining_seconds m)%Z ->
               let k := Z.of_nat (calls_of meter evs) in
               let d := MeterState.sag_remaining_seconds m in
               ((k < d)%Z ->
                  exists m', meters (self s') !! meter = Some m'
                    /\ MeterState.in_sag m' = true
                    /\ MeterState.sag_remaining_seconds m' = (d - k)%Z
                    /\ MeterState.sag_depth m' = MeterState.sag_depth m)
               /\ (k = d ->
                  exists m', meters (self s') !! meter = Some m'
                    /\ MeterState.in_sag m' = false
                    /\ MeterState.sag_depth m' = 0)) ->
            forall m, meters (self s) !! meter = Some m ->
              MeterState.in_sag m = true ->
              (1 <= MeterState.sag_remaining_seconds m)%Z ->
              let k := Z.of_nat (if Nat.eqb i meter then S (calls_of meter evs)
                                 else calls_of meter evs) in
              let d := MeterState.sag_remaining_seconds m in
              ((k < d)%Z ->
                 exists m', meters (self s') !! meter = Some m'
                   /\ MeterState.in_sag m' = true
                   /\ MeterState.sag_remaining_seconds m' = (d - k)%Z
                   /\ MeterState.sag_depth m' = MeterState.sag_depth m)
              /\ (k = d ->
                 exists m', meters (self s') !! meter = Some m'
                   /\ MeterState.in_sag m' = false
                   /\ MeterState.sag_depth m' = 0)).
  { clear. intros s s1 s' i ts o evs Hg Hrun IH m Hm Hin Hrem k d. subst k d.
    destruct (Nat.eqb_spec i meter) as [->|Hne].
    - destruct (sagging_call _ _ _ _ _ _ Hg Hm Hin) as (m1 & Hm1 & Hgt & Hle).
      destruct (Z_lt_le_dec 1 (MeterState.sag_remaining_seconds m)) as [H1|H1].
      + destruct (Hgt H1) as (Hin1 & Hrem1 & Hdepth1).
        destruct (IH _ Hm1 Hin1 ltac:(lia)) as [IHlt IHeq]. cbn in IHlt, IHeq.
        split; intros Hk.
        * destruct (IHlt ltac:(lia)) as (m' & ? & ? & ? & ?).
          exists m'. repeat split; try assumption; [lia|congruence].
        * apply IHeq. lia.
      + destruct (Hle H1) as (Hin1 & Hdepth1).
        split; intros Hk; [lia|].
        assert (Hz : calls_of meter evs = O) by lia.
        rewrite (sim_run_no_calls _ _ _ _ Hrun Hz), Hm1.
        eexists. split; [reflexivity|]. split; assumption.
    - rewrite <- (other_call _ _ _ _ _ _ Hg Hne) in Hm.
      apply (IH _ Hm Hin Hrem). }
  induction 1 as [s | s i ts r s1 evs s' Hg Hrun IH | s i ts e s1 evs s' Hg Hrun IH
                  | s g c evs s' Hrun IH];
    intros m Hm Hin Hrem k d.
  - subst k d. cbn. split.
    + intros _. exists m. rewrite Z.sub_0_r. repeat split; assumption.
    + intros Hk. lia.
  - subst k d. cbn [calls_of]. exact (Hcall _ _ _ _ _ _ _ Hg Hrun IH m Hm Hin Hrem).
  - subst k d. cbn [calls_of]. exact (Hcall _ _ _ _ _ _ _ Hg Hrun IH m Hm Hin Hrem).
  - apply (IH m Hm Hin Hrem).
Qed.
End SimulatorFacts.


(** *** Independence of the clock *)

Section ClockBlind.
Context {G : Type} `{PyLib G}.

Lemma clock_blind_bind {A B} (m : M (Process G MeterSimulator) A)
  (k : A -> M (Process G MeterSimulator) B) (s : Process G MeterSimulator) :
  clock_blind m s ->
  (forall a s1, m s = (Returned a, s1) -> config (self s1) = config (self s) ->
                clock_blind (k a) s1) ->
  clock_blind (bind m k) s.
Proof.
  intros [Hm Hc] Hk. unfold clock_blind, bind. split.
  - intros c t. rewrite Hm. unfold reclocked.
    destruct (m s) as [[a|e] s1] eqn:E; cbn [fst snd].
    + destruct (Hk a s1 eq_refl Hc) as [Hka _]. apply Hka.
    + reflexivity.
  - destruct (m s) as [[a|e] s1] eqn:E; cbn [snd] in Hc |- *.
    + destruct (Hk a s1 eq_refl Hc) as [_ Hkc]. congruence.
    + exact Hc.
Qed.

(** A step that touches the random state and the meters only. *)
Lemma clock_blind_step {A} (m : M (Process G MeterSimulator) A)
  (s : Process G MeterSimulator) (f : Process G MeterSimulator -> outcome A)
  (g : G -> G) (h : list MeterState.t -> list MeterState.t) :
  (forall s0, m s0 = (f s0, set_rng (g (rng s0))
                              (set_self (set_meters (h (meters (self s0))) (self s0)) s0))) ->
  (forall c t, f (reclock c t s) = f s) ->
  clock_blind m s.
Proof.
  intros Hm Hf. unfold clock_blind. split.
  - intros c t. rewrite !Hm, Hf. reflexivity.
  - rewrite Hm. reflexivity.
Qed.

Ltac blind_step f g h :=
  apply (clock_blind_step _ _ f g h);
  [intros s0; destruct s0 as [g0 c0 [cfg0 ms0 t0 r0]]
  |intros c t; try reflexivity].

Lemma clock_blind_ret {A} (a : A) (s : Process G MeterSimulator) :
  clock_blind (ret a) s.
Proof. blind_step (fun _ : Process G MeterSimulator => Returned a) (fun g : G => g)
         (fun ms : list MeterState.t => ms). reflexivity. Qed.

Lemma clock_blind_raise {A} (e : exn) (s : Process G MeterSimulator) :
  clock_blind (raise (A := A) e) s.
Proof. blind_step (fun _ : Process G MeterSimulator => @Raised A e) (fun g : G => g)
         (fun ms : list MeterState.t => ms). reflexivity. Qed.

Lemma clock_blind_read_meter (meter : nat) (s : Process G MeterSimulator) :
  clock_blind (read_meter meter) s.
Proof.
  blind_step (fun s0 : Process G MeterSimulator => Returned (meters (self s0) !!! meter))
    (fun g : G => g) (fun ms : list MeterState.t => ms). reflexivity.
Qed.

Lemma clock_blind_config (s : Process G MeterSimulator) :
  clock_blind (gets (fun s => config (self s))) s.
Proof.
  blind_step (fun s0 : Process G MeterSimulator => Returned (config (self s0)))
    (fun g : G => g) (fun ms : list MeterState.t => ms). reflexivity.
Qed.

Lemma clock_blind_meters (s : Process G MeterSimulator) :
  clock_blind (gets (fun s => meters (self s))) s.
Proof.
  blind_step (fun s0 : Process G MeterSimulator => Returned (meters (self s0)))
    (fun g : G => g) (fun ms : list MeterState.t => ms). reflexivity.
Qed.

Lemma clock_blind_update_meter (meter : nat) (f : MeterState.t -> MeterState.t)
  (s : Process G MeterSimulator) :
  clock_blind (update_meter meter f) s.
Proof.
  blind_step (fun _ : Process G MeterSimulator => Returned tt) (fun g : G => g)
    (fun ms : list MeterState.t => alter f meter ms). reflexivity.
Qed.

Lemma clock_blind_random (s : Process G MeterSimulator) : clock_blind py_random s.
Proof.
  blind_step (fun s0 : Process G MeterSimulator => Returned (random_random (rng s0)).1)
    (fun g : G => (random_random g).2) (fun ms : list MeterState.t => ms).
  unfold py_random. cbn. destruct (random_random g0). reflexivity.
Qed.

Lemma clock_blind_gauss (mu sigma : Q) (s : Process G MeterSimulator) :
  clock_blind (py_gauss mu sigma) s.
Proof.
  blind_step (fun s0 : Process G MeterSimulator =>
                Returned (mu + (random_normal (rng s0)).1 * sigma))
    (fun g : G => (random_normal g).2) (fun ms : list MeterState.t => ms).
  unfold py_gauss. cbn. destruct (random_normal g0). reflexivity.
Qed.

Lemma clock_blind_uniform (a b : Q) (s : Process G MeterSimulator) :
  clock_blind (py_uniform a b) s.
Proof.
  unfold py_uniform. apply clock_blind_bind; [apply clock_blind_random|].
  intros u s1 _ _. apply clock_blind_ret.
Qed.

Lemma clock_blind_randint (a b : Z) (s : Process G MeterSimulator) :
  clock_blind (py_randint a b) s.
Proof.
  unfold py_randint. destruct (Z_le_gt_dec a b); [|apply clock_blind_raise].
  blind_step (fun s0 : Process G MeterSimulator =>
                Returned (random_randrange a b (rng s0)).1)
    (fun g : G => (random_randrange a b g).2) (fun ms : list MeterState.t => ms).
  cbn. destruct (random_randrange a b g0). reflexivity.
Qed.

Lemma clock_blind_should_start_sag (meter : nat) (s : Process G MeterSimulator) :
  (force_sag_interval (config (self s)) <= 0)%Z ->
  clock_blind (_should_start_sag meter) s.
Proof.
  intros Hforce. unfold _should_start_sag.
  apply clock_blind_bind; [apply clock_blind_read_meter|].
  intros m s1 E1 Hc1.
  destruct (MeterState.in_sag m); [apply clock_blind_ret|].
  apply clock_blind_bind; [apply clock_blind_config|].
  intros cfg s2 E2 Hc2. got E2 cfg s2.
  destruct (Z_lt_le_dec 0 _) as [Hpos|_]; [rewrite Hc1 in Hpos; lia|].
  apply clock_blind_bind; [apply clock_blind_ret|].
  intros forced s3 E3 Hc3. got E3 forced s3.
  apply clock_blind_bind; [apply clock_blind_random|].
  intros u s4 _ _. apply clock_blind_ret.
Qed.

Lemma clock_blind_update_sag_state (meter : nat) (s : Process G MeterSimulator) :
  (force_sag_interval (config (self s)) <= 0)%Z ->
  clock_blind (_update_sag_state meter) s.
Proof.
  intros Hforce. unfold _update_sag_state.
  apply clock_blind_bind; [apply clock_blind_read_meter|].
  intros m s1 E1 Hc1.
  destruct (MeterState.in_sag m).
  - apply clock_blind_bind; [apply clock_blind_update_meter|].
    intros x2 s2 _ _.
    apply clock_blind_bind; [apply clock_blind_read_meter|].
    intros m3 s3 _ _.
    destruct (Z_le_gt_dec _ _); [|apply clock_blind_ret].
    apply clock_blind_bind; [apply clock_blind_update_meter|].
    intros x4 s4 _ _.
    apply clock_blind_bind; [apply clock_blind_update_meter|].
    intros x5 s5 _ _. apply clock_blind_ret.
  - apply clock_blind_bind;
      [apply clock_blind_should_start_sag; rewrite Hc1; exact Hforce|].
    intros start s2 _ _.
    destruct start; [|apply clock_blind_ret].
    apply clock_blind_bind; [apply clock_blind_config|].
    intros cfg s3 _ _.
    apply clock_blind_bind; [apply clock_blind_update_meter|].
    intros x4 s4 _ _.
    apply clock_blind_bind; [apply clock_blind_uniform|].
    intros depth s5 _ _.
    apply clock_blind_bind; [apply clock_blind_update_meter|].
    intros x6 s6 _ _.
    apply clock_blind_bind; [apply clock_blind_randint|].
    intros dur s7 _ _.
    apply clock_blind_bind; [apply clock_blind_update_meter|].
    intros x8 s8 _ _.
    apply clock_blind_bind; [apply clock_blind_read_meter|].
    intros m9 s9 _ _. apply clock_blind_ret.
Qed.

Lemma clock_blind_generate_reading (meter : nat) (timestamp : datetime)
  (s : Process G MeterSimulator) :
  (force_sag_interval (config (self s)) <= 0)%Z ->
  clock_blind (generate_reading meter timestamp) s.
Proof.
  intros Hforce. unfold generate_reading.
  apply clock_blind_bind; [apply clock_blind_config|].
  intros cfg s1 E1 Hc1.
  apply clock_blind_bind; [apply clock_blind_gauss|].
  intros noise s2 E2 Hc2.
  apply clock_blind_bind; [apply clock_blind_read_meter|].
  intros m s3 E3 Hc3.
  apply clock_blind_bind; [apply clock_blind_gauss|].
  intros vnoise s4 E4 Hc4.
  apply clock_blind_bind;
    [apply clock_blind_update_sag_state; rewrite Hc4, Hc3, Hc2, Hc1; exact Hforce|].
  intros adj s5 _ _.
  apply clock_blind_bind; [apply clock_blind_read_meter|].
  intros m6 s6 _ _.
  apply clock_blind_bind.
  { destruct (Qltb 0 _ && Qltb 0 _); [|apply clock_blind_ret].
    unfold float_div. destruct (Qeq_dec _ _); [apply clock_blind_raise|apply clock_blind_ret]. }
  intros cur s7 _ _.
  apply clock_blind_bind.
  { unfold py_acos. destruct (math_acos _); [apply clock_blind_ret|apply clock_blind_raise]. }
  intros ang s8 _ _.
  apply clock_blind_bind; [apply clock_blind_gauss|].
  intros fnoise s9 _ _.
  apply clock_blind_bind; [apply clock_blind_update_meter|].
  intros x10 s10 _ _.
  apply clock_blind_bind; [apply clock_blind_read_meter|].
  intros m11 s11 _ _. apply clock_blind_ret.
Qed.

Lemma clock_blind_batch_loop (indices : list nat) (timestamp : datetime)
  (s : Process G MeterSimulator) :
  (force_sag_interval (config (self s)) <= 0)%Z ->
  clock_blind (batch_loop indices timestamp) s.
Proof.
  revert s. induction indices as [|i rest IH]; intros s Hforce.
  - apply clock_blind_ret.
  - cbn [batch_loop].
    apply clock_blind_bind; [apply clock_blind_generate_reading; exact Hforce|].
    intros r s1 _ Hc1.
    apply clock_blind_bind; [apply IH; rewrite Hc1; exact Hforce|].
    intros rs s2 _ _. apply clock_blind_ret.
Qed.

(** With forced sags off, a batch generated at a given timestamp depends
    neither on the clock nor on the time of the last forced sag. *)
Lemma clock_blind_generate_batch (timestamp : datetime) (s : Process G MeterSimulator) :
  (force_sag_interval (config (self s)) <= 0)%Z ->
  clock_blind (generate_batch (Some timestamp)) s.
Proof.
  intros Hforce. unfold generate_batch.
  apply clock_blind_bind; [apply clock_blind_ret|].
  intros ts s1 E1 Hc1. got E1 ts s1.
  apply clock_blind_bind; [apply clock_blind_meters|].
  intros ms s2 E2 Hc2. got E2 ms s2.
  apply clock_blind_batch_loop. exact Hforce.
Qed.

End ClockBlind.

(** ** Rounding, continued *)

Lemma round_half_even_proper (x y : Q) : x == y -> round_half_even x = round_half_even y.
Proof.
  intros E. unfold round_half_even. rewrite (Qfloor_comp _ _ E).
  destruct (Qlt_le_dec (x - inject_Z (Qfloor y)) (1 # 2)),
           (Qlt_le_dec (y - inject_Z (Qfloor y)) (1 # 2)); try lra; try reflexivity.
  destruct (Qlt_le_dec (1 # 2) (x - inject_Z (Qfloor y))),
           (Qlt_le_dec (1 # 2) (y - inject_Z (Qfloor y))); try lra; reflexivity.
Qed.

Lemma py_round_proper (x y : Q) (n : nat) : x == y -> py_round x n = py_round y n.
Proof.
  intros E. unfold py_round.
  rewrite (round_half_even_proper (x * _) (y * inject_Z (10 ^ Z.of_nat n)));
    [reflexivity | rewrite E; reflexivity].
Qed.

Lemma round_half_even_int (k : Z) : round_half_even (inject_Z k) = k.
Proof.
  apply Z.le_antisymm.
  - apply round_half_even_le. lra.
  - apply round_half_even_ge. lra.
Qed.

Lemma py_round_int (k : Z) (n : nat) : py_round (inject_Z k) n == inject_Z k.
Proof.
  unfold py_round. pose proof (pow10_pos n) as Hp.
  rewrite (round_half_even_proper _ (inject_Z (k * 10 ^ Z.of_nat n)))
    by (rewrite inject_Z_mult; reflexivity).
  rewrite round_half_even_int, inject_Z_mult. field. lra.
Qed.

Lemma round_half_even_mono (x y : Q) : x <= y -> (round_half_even x <= round_half_even y)%Z.
Proof.
  intros Hxy.
  destruct (Z_lt_le_dec (Qfloor x) (Qfloor y)) as [Hf|Hf].
  - transitivity (Qfloor y).
    + apply round_half_even_le.
      pose proof (Qlt_floor x) as Hx.
      assert (inject_Z (Qfloor x + 1) <= inject_Z (Qfloor y)) by (rewrite <- Zle_Qle; lia).
      lra.
    + apply round_half_even_ge. apply Qfloor_le.
  - assert (Qfloor x = Qfloor y) as Ef.
    { apply Z.le_antisymm; [apply Qfloor_resp_le; exact Hxy|exact Hf]. }
    unfold round_half_even. rewrite Ef.
    destruct (Qlt_le_dec (x - inject_Z (Qfloor y)) (1 # 2)),
             (Qlt_le_dec (y - inject_Z (Qfloor y)) (1 # 2)); try lra; try lia.
    + destruct (Qlt_le_dec (1 # 2) (y - inject_Z (Qfloor y))); [lia|].
      destruct (Z.even (Qfloor y)); lia.
    + destruct (Qlt_le_dec (1 # 2) (x - inject_Z (Qfloor y))),
               (Qlt_le_dec (1 # 2) (y - inject_Z (Qfloor y))); try lra; try lia.
      destruct (Z.even (Qfloor y)); lia.
Qed.

Lemma py_round_mono (x y : Q) (n : nat) : x <= y -> py_round x n <= py_round y n.
Proof.
  intros Hxy. unfold py_round. pose proof (pow10_pos n) as Hp.
  apply Qmult_le_compat_r; [|apply Qlt_le_weak, Qinv_lt_0_compat; exact Hp].
  rewrite <- Zle_Qle. apply round_half_even_mono.
  apply Qmult_le_compat_r; [exact Hxy|lra].
Qed.

(** ** The gateway relay, continued *)

Section GatewayEffects.
Context {G : Type} `{PyLib G}.

Lemma py_max_int_mono (a b c : Z) : (b <= c)%Z -> (py_max_int a b <= py_max_int a c)%Z.
Proof. intros Hbc. unfold py_max_int. repeat destruct (Z_lt_le_dec _ _); lia. Qed.

Lemma get_latency_ms_inv {T} (np : NetworkProfile) (s s' : Process G T) (n : Z) :
  get_latency_ms np s = (Returned n, s') ->
  valid_profile np
  /\ (py_max_int 1 (latency_ms_min np - jitter_ms np) <= n
      <= py_max_int 1 (latency_ms_max np + jitter_ms np))%Z
  /\ (1 <= n)%Z
  /\ clock s' = clock s /\ self s' = self s.
Proof.
  intros E. unfold get_latency_ms in E.
  step E base s1 E1. step E jitter s2 E2. got E n s'.
  apply py_randint_inv in E1 as [Hb ->]. apply py_randint_inv in E2 as [Hj ->].
  split; [unfold valid_profile; lia|].
  split; [split; apply py_max_int_mono; lia|].
  split; [unfold py_max_int; destruct (Z_lt_le_dec _ _); lia|].
  split; reflexivity.
Qed.

Lemma get_latency_ms_raises {T} (np : NetworkProfile) (s : Process G T) :
  ~ valid_profile np ->
  exists s', get_latency_ms np s = (Raised ValueError, s')
             /\ clock s' = clock s /\ self s' = self s.
Proof.
  intros Hv. unfold get_latency_ms.
  destruct (Z_le_gt_dec (latency_ms_min np) (latency_ms_max np)) as [Hl|Hl].
  - rewrite (bind_step _ _ _ _ _ (py_randint_eq _ _ _ Hl)).
    erewrite bind_raised by (apply py_randint_empty; unfold valid_profile in Hv; lia).
    eexists. repeat split.
  - erewrite bind_raised by (apply py_randint_empty; lia).
    eexists. repeat split.
Qed.

Lemma process_reorder_buffer_clock (s : Process G GatewayRelay) :
  let tnow := time_script (clock s) (time_reads (clock s)) in
  exists s',
    _process_reorder_buffer s = (Returned tt, s')
    /\ rng s' = rng s /\ clock s' = clock_after_read (clock s)
    /\ stats (self s') = stats (self s)
    /\ _shutdown (self s') = _shutdown (self s)
    /\ same_setup (self s) (self s')
    /\ _reorder_buffer (self s')
       = drop_due (_reorder_delay_seconds (self s)) tnow (_reorder_buffer (self s))
    /\ publisher (self s')
       = publisher (self s)
         ++ map (call_of (self s))
              (map snd (take_due (_reorder_delay_seconds (self s)) tnow
                          (_reorder_buffer (self s)))).
Proof.
  intros tnow. unfold _process_reorder_buffer, time_time. run1. run1.
  match goal with |- context [drain_loop ?n ?t ?sd] =>
    destruct (drain_loop_spec n t sd (le_n _))
      as (sf & Ef & Hg & Hc & Hst & Hsh & Hset & Hbuf & Hpub)
  end.
  exists sf. split; [exact Ef|]. repeat (split; [assumption|]). assumption.
Qed.

(** What a completed [publish] call does to the clock and, in full, to the
    buffer and the sink. *)
Lemma publish_effects (message : Reading.t) (s s' : Process G GatewayRelay) (ok : bool) :
  publish message s = (Returned ok, s') ->
  let np := network_profile (self s) in
  let delay := _reorder_delay_seconds (self s) in
  let c := clock s in
  time_script (clock s') = time_script c
  /\ now_script (clock s') = now_script c
  /\ now_reads (clock s') = now_reads c
  /\ start_time (stats (self s')) = start_time (stats (self s))
  /\ if Qltb (random_random (rng s)).1 (drop_prob np)
     then ok = false /\ clock s' = c
     else ok = true /\ valid_profile np
          /\ exists (latency : Z) (u : Q),
               (py_max_int 1 (latency_ms_min np - jitter_ms np) <= latency
                <= py_max_int 1 (latency_ms_max np + jitter_ms np))%Z
               /\ (1 <= latency)%Z
               /\ 0 <= u /\ u < 1
               /\ slept (clock s') = slept c + inject_Z latency / 1000
               /\ if Qltb u (reorder_prob np)
                  then let t := time_script c (time_reads c) in
                       let tnow := time_script c (S (time_reads c)) in
                       time_reads (clock s') = S (S (time_reads c))
                       /\ messages_reordered (stats (self s'))
                          = (messages_reordered (stats (self s)) + 1)%Z
                       /\ _reorder_buffer (self s')
                          = drop_due delay tnow (_reorder_buffer (self s) ++ [(t, message)])
                       /\ publisher (self s')
                          = publisher (self s)
                            ++ map (call_of (self s))
                                 (map snd (take_due delay tnow
                                             (_reorder_buffer (self s) ++ [(t, message)])))
                  else let tnow := time_script c (time_reads c) in
                       time_reads (clock s') = S (time_reads c)
                       /\ messages_reordered (stats (self s'))
                          = messages_reordered (stats (self s))
                       /\ _reorder_buffer (self s')
                          = drop_due delay tnow (_reorder_buffer (self s))
                       /\ publisher (self s')
                          = publisher (self s)
                            ++ call_of (self s) message
                               :: map (call_of (self s))
                                    (map snd (take_due delay tnow (_reorder_buffer (self s)))).
Proof.
  intros E. cbv zeta. unfold publish in E.
  step E x0 s0 E0. unfold update_stats in E0. cbn in E0. inv_ret E0.
  step E np' s1 E1. cbn in E1. inv_ret E1.
  step E dr s2 E2. rewrite should_drop_eq in E2.
  cbn [rng set_self self set_stats network_profile] in E2. inv_ret E2.
  destruct (Qltb (random_random (rng s)).1 (drop_prob (network_profile (self s)))) eqn:Ed.
  - step E x3 s3 E3. cbn in E3. inv_ret E3.
    cbn in E. inv_ret E. cbn. repeat split; reflexivity.
  - step E latency s3 E3. step E x4 s4 E4. step E reorder s5 E5.
    step E x6 s6 E6. step E x7 s7 E7. cbn in E. inv_ret E.
    apply get_latency_ms_inv in E3 as (Hv & Hlat & Hlat1 & Hc3 & Hs3).
    cbn [clock self set_rng set_self] in Hc3, Hs3.
    cbn in E4. inv_ret E4.
    rewrite should_reorder_eq in E5. inv_ret E5.
    destruct (random_random_range (rng s3)) as [Hu0 Hu1].
    destruct (process_reorder_buffer_clock s6)
      as (sf & Ef & Hg & Hcf & Hst & Hsh & Hset & Hbuf & Hpub).
    rewrite Ef in E7. inv_ret E7.
    destruct (Qltb (random_random (rng s3)).1 (reorder_prob (network_profile (self s))))
      eqn:Er.
    + step E6 x9 s9 E9. cbn in E9. inv_ret E9.
      step E6 t s10 E10. cbn in E10. inv_ret E10.
      cbn in E6. inv_ret E6.
      cbn [self set_clock set_self set_rng clock] in *. rewrite Hs3, Hc3 in *.
      cbn in Hst, Hbuf, Hpub, Hcf.
      rewrite Hcf, Hst, Hbuf, Hpub. cbn.
      repeat (split; [reflexivity || assumption|]).
      exists latency, (random_random (rng s3)).1. rewrite Er.
      repeat (split; [reflexivity || assumption|]). reflexivity.
    + cbn in E6. inv_ret E6.
      cbn [self set_clock set_self set_rng clock] in *. rewrite Hs3, Hc3 in *.
      cbn in Hst, Hbuf, Hpub, Hcf.
      rewrite Hcf, Hst, Hbuf, Hpub. cbn.
      repeat (split; [reflexivity || assumption|]).
      exists latency, (random_random (rng s3)).1. rewrite Er.
      repeat (split; [reflexivity || assumption|]).
      rewrite <- app_assoc. reflexivity.
Qed.

End GatewayEffects.

(** *** The reorder buffer in arrival order *)

Section ArrivalOrder.
Context {G : Type} `{PyLib G}.

Lemma due_earlier (delay tnow : Q) (e e' : Q * Reading.t) :
  e.1 <= e'.1 -> due delay tnow e' = true -> due delay tnow e = true.
Proof.
  unfold due. intros He Hd. apply Qle_bool_iff in Hd. apply Qle_bool_iff. lra.
Qed.

Lemma not_due_later (delay tnow : Q) (e e' : Q * Reading.t) :
  e.1 <= e'.1 -> due delay tnow e = false -> due delay tnow e' = false.
Proof.
  intros He Hd. destruct (due delay tnow e') eqn:Hd'; [|reflexivity].
  rewrite (due_earlier _ _ _ _ He Hd') in Hd. discriminate.
Qed.

Lemma filter_none_due (delay tnow : Q) (buf : list (Q * Reading.t)) :
  Forall (fun e => due delay tnow e = false) buf ->
  List.filter (due delay tnow) buf = []
  /\ List.filter (fun e => negb (due delay tnow e)) buf = buf.
Proof.
  induction 1 as [|e rest He _ [IH1 IH2]]; [split; reflexivity|].
  cbn. rewrite He. cbn. rewrite IH1, IH2. split; reflexivity.
Qed.

(** In arrival order the due entries are a prefix of the buffer. *)
Lemma take_due_filter (delay tnow : Q) (buf : list (Q * Reading.t)) :
  arrival_ordered buf ->
  take_due delay tnow buf = List.filter (due delay tnow) buf
  /\ drop_due delay tnow buf = List.filter (fun e => negb (due delay tnow e)) buf.
Proof.
  induction buf as [|e rest IH]; [split; reflexivity|].
  intros [Hle Hrest]. cbn [take_due drop_due List.filter].
  destruct (due delay tnow e) eqn:Hd; cbn [negb].
  - destruct (IH Hrest) as [-> ->]. split; reflexivity.
  - assert (Hnone : Forall (fun e' => due delay tnow e' = false) rest).
    { eapply Forall_impl; [exact Hle|]. intros e' He'. cbn in He'.
      eapply not_due_later; eassumption. }
    destruct (filter_none_due _ _ _ Hnone) as [-> ->]. split; reflexivity.
Qed.

Lemma drop_due_none_left (delay tnow : Q) (buf : list (Q * Reading.t)) :
  arrival_ordered buf ->
  Forall (fun e => due delay tnow e = false) (drop_due delay tnow buf).
Proof.
  induction buf as [|e rest IH]; [constructor|].
  intros [Hle Hrest]. cbn [drop_due].
  destruct (due delay tnow e) eqn:Hd; [apply IH; exact Hrest|].
  constructor; [exact Hd|].
  eapply Forall_impl; [exact Hle|]. intros e' He'. cbn in He'.
  eapply not_due_later; eassumption.
Qed.

Lemma drop_due_suffix (delay tnow : Q) (buf : list (Q * Reading.t)) :
  exists front, buf = front ++ drop_due delay tnow buf.
Proof. exists (take_due delay tnow buf). symmetry. apply take_drop_due. Qed.

Lemma arrival_ordered_app (front back : list (Q * Reading.t)) :
  arrival_ordered (front ++ back) <->
  arrival_ordered front /\ arrival_ordered back
  /\ Forall (fun e => Forall (fun e' => e.1 <= e'.1) back) front.
Proof.
  induction front as [|e rest IH]; cbn [app arrival_ordered].
  - split; [intros Hb; repeat split; [exact Hb|constructor]|intros (_ & Hb & _); exact Hb].
  - rewrite IH, Forall_app, Forall_cons. tauto.
Qed.

Lemma arrival_ordered_drop_due (delay tnow : Q) (buf : list (Q * Reading.t)) :
  arrival_ordered buf -> arrival_ordered (drop_due delay tnow buf).
Proof.
  intros Hb. destruct (drop_due_suffix delay tnow buf) as [front Hf].
  rewrite Hf in Hb. apply arrival_ordered_app in Hb as (_ & Hb & _). exact Hb.
Qed.

Lemma Forall_drop_due (P : Q * Reading.t -> Prop) (delay tnow : Q)
  (buf : list (Q * Reading.t)) :
  Forall P buf -> Forall P (drop_due delay tnow buf).
Proof.
  intros Hb. destruct (drop_due_suffix delay tnow buf) as [front Hf].
  rewrite Hf in Hb. apply Forall_app in Hb as [_ Hb]. exact Hb.
Qed.

Lemma length_drop_due (delay tnow : Q) (buf : list (Q * Reading.t)) :
  (length (drop_due delay tnow buf) <= length buf)%nat.
Proof.
  destruct (drop_due_suffix delay tnow buf) as [front Hf].
  rewrite Hf at 2. rewrite length_app. lia.
Qed.

End ArrivalOrder.

(** *** Runs of the relay, continued *)

Section RelayRunFacts.
Context {G : Type} `{PyLib G}.

Lemma count_refused_le (evs : list relay_event) :
  (0 <= count_refused evs <= count_publish evs)%Z.
Proof.
  induction evs as [|[m [|]| |] evs IH]; cbn [count_refused count_publish]; lia.
Qed.

Lemma publish_callback_spec (ok : bool) (s s1 : Process G GatewayRelay) :
  _publish_callback ok s = (Returned tt, s1) ->
  same_setup (self s) (self s1)
  /\ publisher (self s1) = publisher (self s)
  /\ _reorder_buffer (self s1) = _reorder_buffer (self s)
  /\ messages_received (stats (self s1)) = messages_received (stats (self s))
  /\ messages_dropped (stats (self s1)) = messages_dropped (stats (self s))
  /\ messages_reordered (stats (self s1)) = messages_reordered (stats (self s))
  /\ start_time (stats (self s1)) = start_time (stats (self s))
  /\ messages_published (stats (self s1))
     = (messages_published (stats (self s)) + if ok then 1 else 0)%Z
  /\ publish_errors (stats (self s1))
     = (publish_errors (stats (self s)) + if ok then 0 else 1)%Z.
Proof.
  intros E. destruct ok; cbn in E; inv_ret E; cbn; repeat split; lia.
Qed.

(** The counters along a run. *)
Lemma relay_run_counters (s s' : Process G GatewayRelay) (evs : list relay_event) :
  relay_run s evs s' ->
  (messages_reordered (stats (self s)) <= messages_reordered (stats (self s')))%Z
  /\ (messages_reordered (stats (self s')) - messages_reordered (stats (self s))
      <= count_publish evs - count_refused evs)%Z
  /\ (Z.of_nat (length (_reorder_buffer (self s'))) - messages_reordered (stats (self s'))
      <= Z.of_nat (length (_reorder_buffer (self s))) - messages_reordered (stats (self s)))%Z
  /\ messages_published (stats (self s'))
     = (messages_published (stats (self s)) + count_callbacks true evs)%Z
  /\ publish_errors (stats (self s'))
     = (publish_errors (stats (self s)) + count_callbacks false evs)%Z
  /\ start_time (stats (self s')) = start_time (stats (self s)).
Proof.
  induction 1 as [s | s message ok s1 evs s' Hp Hrun IH
                    | s ok s1 evs s' Hc Hrun IH | s g c evs s' Hrun IH].
  - cbn. repeat split; lia.
  - destruct IH as (Hr0 & Hr1 & Hb & Hpub & Herr & Hstart).
    pose proof (count_refused_le evs) as Hcount.
    pose proof Hp as Hp'. apply publish_spec in Hp' as (_ & _ & _ & Hpub1 & Herr1 & Hcase).
    apply publish_effects in Hp as (_ & _ & _ & Hstart1 & Hcase').
    destruct (Qltb _ _).
    + destruct Hcase as (-> & _ & Hre & _ & Hbuf & _).
      cbn [count_publish count_refused count_callbacks].
      rewrite Hre, Hbuf in *. repeat split; try lia; congruence.
    + destruct Hcase' as (-> & _ & latency & u & _ & _ & _ & _ & _ & Hcase').
      cbn [count_publish count_refused count_callbacks].
      destruct (Qltb u _).
      * destruct Hcase' as (_ & Hre & Hbuf & _).
        pose proof (length_drop_due (_reorder_delay_seconds (self s))
                      (time_script (clock s) (S (time_reads (clock s))))
                      (_reorder_buffer (self s)
                       ++ [(time_script (clock s) (time_reads (clock s)), message)])) as Hlen.
        rewrite <- Hbuf, length_app in Hlen. cbn [length] in Hlen.
        repeat split; try lia; congruence.
      * destruct Hcase' as (_ & Hre & Hbuf & _).
        pose proof (length_drop_due (_reorder_delay_seconds (self s))
                      (time_script (clock s) (time_reads (clock s)))
                      (_reorder_buffer (self s))) as Hlen.
        rewrite <- Hbuf in Hlen.
        repeat split; try lia; congruence.
  - destruct IH as (Hr0 & Hr1 & Hb & Hpub & Herr & Hstart).
    apply publish_callback_spec in Hc
      as (_ & _ & Hbuf & _ & _ & Hre & Hstart1 & Hpub1 & Herr1).
    cbn [count_publish count_refused count_callbacks].
    rewrite Hre, Hbuf in *.
    destruct ok; cbn [Bool.eqb]; repeat split; try lia; congruence.
  - exact IH.
Qed.

(** Every call to the sink is the call of a message under the set-up of
    the relay. *)
Lemma relay_run_sink (s s' : Process G GatewayRelay) (evs : list relay_event) :
  relay_run s evs s' ->
  exists msgs, publisher (self s') = publisher (self s) ++ map (call_of (self s)) msgs.
Proof.
  induction 1 as [s | s message ok s1 evs s' Hp Hrun IH
                    | s ok s1 evs s' Hc Hrun IH | s g c evs s' Hrun IH].
  - exists []. cbn. rewrite app_nil_r. reflexivity.
  - destruct IH as (msgs & IH).
    apply publish_spec in Hp as (Hset & _ & _ & _ & _ & Hcase).
    rewrite (map_ext _ _ (fun m => call_of_setup _ _ m Hset)) in IH.
    destruct (Qltb _ _).
    + destruct Hcase as (_ & _ & _ & Hpub & _). exists msgs. rewrite IH, Hpub. reflexivity.
    + destruct Hcase as (_ & _ & tnow & pending & direct & _ & _ & _ & Hpub).
      eexists. rewrite IH, Hpub, <- app_assoc, <- map_app. reflexivity.
  - destruct IH as (msgs & IH).
    apply publish_callback_spec in Hc as (Hset & Hpub & _).
    rewrite (map_ext _ _ (fun m => call_of_setup _ _ m Hset)) in IH.
    exists msgs. rewrite IH, Hpub. reflexivity.
  - exact IH.
Qed.

Lemma init_relay_spec {T} (project topic : string) (np : NetworkProfile)
  (w w' : Process G T) (r : GatewayRelay) :
  GatewayRelay__init__ project topic np w = (Returned r, w') ->
  r = {| project_id := project; topic_name := topic;
         topic_path := ("projects/" ++ project ++ "/topics/" ++ topic)%string;
         network_profile := np;
         stats := {| messages_received := 0; messages_published := 0;
                     messages_dropped := 0; messages_reordered := 0;
                     publish_errors := 0;
                     start_time := time_script (clock w) (time_reads (clock w)) |};
         publisher := []; _reorder_buffer := []; _reorder_delay_seconds := 2;
         _shutdown := false |}
  /\ w' = set_clock (clock_after_read (clock w)) w.
Proof.
  intros Einit. unfold GatewayRelay__init__, GatewayStats__init__ in Einit.
  step Einit st s0 E0. step_eq E0 tnow s1. got E0 st s0. got Einit r w'.
  split; reflexivity.
Qed.


End RelayRunFacts.

(** ** Meter identifiers *)

Lemma append_inv_head (p x y : string) : (p ++ x)%string = (p ++ y)%string -> x = y.
Proof.
  induction p as [|a p IH]; cbn; [trivial|].
  intros E. injection E as E. apply IH. exact E.
Qed.

Lemma to_uint_nonnil (n : nat) : Nat.to_uint n <> Decimal.Nil.
Proof.
  rewrite <- (Unsigned.of_to n) at 1. rewrite Unsigned.to_of. apply unorm_nonnil.
Qed.

Lemma str_of_nat_decodes (n : nat) :
  NilEmpty.uint_of_string (str_of_nat n) = Some (Nat.to_uint n).
Proof.
  unfold str_of_nat. pose proof (to_uint_nonnil n) as Hn.
  destruct (Nat.to_uint n) eqn:E; [contradiction| ..];
    rewrite <- E; (etransitivity; [|apply NilEmpty.usu]); rewrite E; reflexivity.
Qed.

Lemma zeros_decode (k : nat) (s : string) (d : Decimal.uint) :
  NilEmpty.uint_of_string s = Some d ->
  NilEmpty.uint_of_string (zeros k ++ s) = Some (Nat.iter k Decimal.D0 d).
Proof.
  intros E. induction k as [|k IH]; [exact E|].
  cbn [zeros String.append NilEmpty.uint_of_string]. rewrite IH. reflexivity.
Qed.

Lemma of_uint_iter_D0 (k : nat) (d : Decimal.uint) :
  Nat.of_uint (Nat.iter k Decimal.D0 d) = Nat.of_uint d.
Proof.
  rewrite <- Unsigned.of_uint_norm, unorm_iter_D0, Unsigned.of_uint_norm. reflexivity.
Qed.

(** Reading a zero-padded number back gives the number. *)
Lemma zfill_decodes (w : nat) (n : Z) :
  option_map Nat.of_uint (NilEmpty.uint_of_string (zfill w n)) = Some (Z.to_nat n).
Proof.
  unfold zfill. cbv zeta.
  rewrite (zeros_decode _ _ _ (str_of_nat_decodes (Z.to_nat n))). cbn [option_map].
  rewrite of_uint_iter_D0, Unsigned.of_to. reflexivity.
Qed.

Lemma zfill_inj (w : nat) (a b : Z) :
  (0 <= a)%Z -> (0 <= b)%Z -> zfill w a = zfill w b -> a = b.
Proof.
  intros Ha Hb E. pose proof (zfill_decodes w a) as Da. rewrite E, zfill_decodes in Da.
  injection Da as Da. lia.
Qed.

Lemma py_range_spec (n : Z) :
  length (py_range n) = Z.to_nat n
  /\ NoDup (py_range n)
  /\ Forall (fun i => (0 <= i)%Z) (py_range n)
  /\ forall k : nat, (k < Z.to_nat n)%nat -> py_range n !! k = Some (Z.of_nat k).
Proof.
  unfold py_range. split; [rewrite length_map, length_seq; reflexivity|].
  split.
  { apply NoDup_fmap_2; [intros x y; lia|]. apply NoDup_seq. }
  split.
  { apply Forall_map, Forall_forall. intros x _. cbn. lia. }
  intros k Hk. rewrite list_lookup_fmap.
  rewrite (lookup_seq_lt 0 (Z.to_nat n) k Hk). reflexivity.
Qed.

(** ** The simulator, continued *)

Section SimulatorEffects.
Context {G : Type} `{PyLib G}.

Lemma meter_name_inj (cfg : SimulatorConfig) (a b : Z) :
  (0 <= a)%Z -> (0 <= b)%Z -> meter_name cfg a = meter_name cfg b -> a = b.
Proof.
  intros Ha Hb E. unfold meter_name in E.
  do 4 apply append_inv_head in E. eapply zfill_inj; eassumption.
Qed.

Lemma init_meters_spec {T} (cfg : SimulatorConfig) (indices : list Z)
  (s s' : Process G T) (ms : list MeterState.t) :
  init_meters cfg indices s = (Returned ms, s') ->
  map MeterState.meter_id ms = map (meter_name cfg) indices
  /\ Forall (fresh_meter cfg) ms
  /\ clock s' = clock s /\ self s' = self s.
Proof.
  revert s ms. induction indices as [|i rest IH]; intros s ms E.
  - got E ms s'. repeat split. constructor.
  - cbn [init_meters] in E.
    rewrite (bind_step _ _ _ _ _ (py_uniform_eq _ _ s)) in E.
    erewrite bind_step in E by (apply py_uniform_eq).
    step E ms0 s1 E1. got E ms s'.
    apply IH in E1 as (Hids & Hfresh & Hc & Hs).
    pose proof (random_random_range (rng s)) as [Hu0 Hu1].
    pose proof (random_random_range (random_random (rng s)).2) as [Hv0 Hv1].
    cbn [rng set_rng] in *.
    split; [cbn; rewrite Hids; reflexivity|].
    split; [|split; assumption].
    constructor; [|exact Hfresh].
    unfold fresh_meter. cbn. repeat (split; [reflexivity|]).
    split; intros Hle; apply uniform_between; assumption.
Qed.

Lemma MeterSimulator_init_full {T} (cfg : SimulatorConfig) (seed : option Z)
  (w w' : Process G T) (sim : MeterSimulator) :
  MeterSimulator__init__ cfg seed w = (Returned sim, w') ->
  valid_seed seed
  /\ config sim = cfg
  /\ map MeterState.meter_id (meters sim) = map (meter_name cfg) (py_range (num_meters cfg))
  /\ Forall (fresh_meter cfg) (meters sim)
  /\ _last_force_sag_time sim = time_script (clock w) (time_reads (clock w))
  /\ clock w' = clock_after_read (clock w) /\ self w' = self w.
Proof.
  intros E. unfold MeterSimulator__init__ in E.
  step E x0 s0 E0. step E ms s1 E1. step_eq E tnow s2. got E sim w'.
  apply init_meters_spec in E1 as (Hids & Hfresh & Hc & Hs).
  assert (Hseed : valid_seed seed /\ clock s0 = clock w /\ self s0 = self w).
  { destruct seed as [n|]; [|got E0 x0 s0; repeat split].
    step_eq E0 x1 s3. unfold np_random_seed in E0. cbn [valid_seed].
    destruct ((0 <=? n)%Z && (n <? 2 ^ 32)%Z) eqn:En; [|discriminate].
    got E0 x0 s0. split; [lia|split; reflexivity]. }
  destruct Hseed as (Hseed & Hc0 & Hs0).
  cbn [config meters _last_force_sag_time clock self set_clock].
  rewrite Hc, Hc0, Hs, Hs0.
  repeat split; assumption.
Qed.

End SimulatorEffects.

(** *** Ticks and batches *)

Section SimulatorTicks.
Context {G : Type} `{PyLib G}.

Lemma same_meter_refl (m : MeterState.t) : same_meter m m.
Proof. repeat split. Qed.

Lemma same_meter_trans (m1 m2 m3 : MeterState.t) :
  same_meter m1 m2 -> same_meter m2 m3 -> same_meter m1 m3.
Proof. unfold same_meter. intuition congruence. Qed.

(** One tick of a meter: its sequence number goes up by one, its identity
    stays, the reading carries both, and no other meter changes. *)
Lemma generate_reading_tick (meter : nat) (timestamp : datetime)
  (s s' : Process G MeterSimulator) (r : Reading.t) :
  generate_reading meter timestamp s = (Returned r, s') ->
  config (self s') = config (self s)
  /\ length (meters (self s')) = length (meters (self s))
  /\ (forall j, j <> meter -> meters (self s') !! j = meters (self s) !! j)
  /\ Reading.event_ts r = isoformat timestamp
  /\ forall m, meters (self s) !! meter = Some m ->
       exists m', meters (self s') !! meter = Some m'
         /\ same_meter m m'
         /\ MeterState.seq m' = (MeterState.seq m + 1)%Z
         /\ Reading.seq r = (MeterState.seq m + 1)%Z
         /\ Reading.meter_id r = MeterState.meter_id m
         /\ Reading.pole_id r = MeterState.pole_id m.
Proof.
  intros E. apply generate_reading_spec in E as (Hcfg & Hts & adj & F & HF & Hm).
  split; [exact Hcfg|]. split; [rewrite HF, length_alter; reflexivity|].
  split; [intros j Hj; rewrite HF; apply list_lookup_alter_ne; congruence|].
  split; [exact Hts|].
  intros m Hlook. destruct (Hm m Hlook) as (m1 & Ht & HFm & _ & _ & _ & Hseq & _ & Hid & Hpole & _).
  exists (F m). split; [rewrite HF, list_lookup_alter_eq, Hlook; reflexivity|].
  destruct (sag_transition_identity _ _ _ _ Ht) as (H1 & H2 & H3 & H4 & H5).
  rewrite HFm. unfold same_meter. cbn. repeat split; assumption.
Qed.

(** The loop of [generate_batch] over the meters at positions
    [k, ..., k + n - 1]. *)
Lemma batch_loop_spec (n : nat) :
  forall (k : nat) (timestamp : datetime) (s s' : Process G MeterSimulator)
         (rs : list Reading.t),
    batch_loop (seq k n) timestamp s = (Returned rs, s') ->
    config (self s') = config (self s)
    /\ length (meters (self s')) = length (meters (self s))
    /\ (forall j, (j < k \/ k + n <= j)%nat -> meters (self s') !! j = meters (self s) !! j)
    /\ length rs = n
    /\ Forall (fun r => Reading.event_ts r = isoformat timestamp) rs
    /\ forall i m, (i < n)%nat -> meters (self s) !! (k + i)%nat = Some m ->
         exists m' r,
           meters (self s') !! (k + i)%nat = Some m' /\ rs !! i = Some r
           /\ same_meter m m'
           /\ MeterState.seq m' = (MeterState.seq m + 1)%Z
           /\ Reading.seq r = (MeterState.seq m + 1)%Z
           /\ Reading.meter_id r = MeterState.meter_id m
           /\ Reading.pole_id r = MeterState.pole_id m.
Proof.
  induction n as [|n IH]; intros k timestamp s s' rs E.
  - got E rs s'. repeat split; try constructor. intros i m Hi. lia.
  - cbn [seq batch_loop] in E. step E r s1 E1. step E rest s2 E2. got E rs s'.
    apply generate_reading_tick in E1 as (Hc1 & Hl1 & Hf1 & Hts1 & Ht1).
    apply IH in E2 as (Hc2 & Hl2 & Hf2 & Hlen & Hts2 & Ht2).
    split; [congruence|]. split; [congruence|].
    split.
    { intros j Hj. rewrite Hf2 by lia. apply Hf1. lia. }
    split; [cbn; rewrite Hlen; reflexivity|].
    split; [constructor; assumption|].
    intros i m Hi Hm. destruct i as [|i].
    + rewrite Nat.add_0_r in *. destruct (Ht1 m Hm) as (m' & Hm' & Hrest).
      exists m', r. split; [rewrite Hf2 by lia; exact Hm'|].
      split; [reflexivity|exact Hrest].
    + replace (k + S i)%nat with (S k + i)%nat in * by lia.
      rewrite <- Hf1 in Hm by lia.
      destruct (Ht2 i m ltac:(lia) Hm) as (m' & r' & Hm' & Hr' & Hrest).
      exists m', r'. split; [exact Hm'|]. split; [exact Hr'|exact Hrest].
Qed.

(** A call that raises: the identity and the sequence number of the meter
    stay, and no other meter changes. *)
Lemma generate_reading_failed_tick (meter : nat) (timestamp : datetime)
  (s s' : Process G MeterSimulator) (e : exn) :
  generate_reading meter timestamp s = (Raised e, s') ->
  config (self s') = config (self s)
  /\ length (meters (self s')) = length (meters (self s))
  /\ (forall j, j <> meter -> meters (self s') !! j = meters (self s) !! j)
  /\ forall m, meters (self s) !! meter = Some m ->
       exists m', meters (self s') !! meter = Some m'
         /\ same_meter m m'
         /\ MeterState.seq m' = MeterState.seq m.
Proof.
  intros E. apply generate_reading_failed in E as (Hcfg & F & HF & Hm).
  split; [exact Hcfg|]. split; [rewrite HF, length_alter; reflexivity|].
  split; [intros j Hj; rewrite HF; apply list_lookup_alter_ne; congruence|].
  intros m Hlook. exists (F m).
  split; [rewrite HF, list_lookup_alter_eq, Hlook; reflexivity|].
  destruct (Hm m Hlook) as [(_ & _ & Hint)|(adj & Ht & _)].
  - destruct Hint. repeat split.
  - destruct (sag_transition_identity _ _ _ _ Ht) as (H1 & H2 & H3 & H4 & H5).
    unfold same_meter. repeat split; assumption.
Qed.








(** The meters along a run: identities stay, and the sequence number of a
    meter counts its ticks; the readings of the meter carry the consecutive
    numbers. *)
Lemma sim_run_meter (meter : nat) (s s' : Process G MeterSimulator)
  (evs : list sim_event) :
  sim_run s evs s' ->
  config (self s') = config (self s)
  /\ length (meters (self s')) = length (meters (self s))
  /\ forall m, meters (self s) !! meter = Some m ->
       exists m', meters (self s') !! meter = Some m'
         /\ same_meter m m'
         /\ MeterState.seq m' = (MeterState.seq m + Z.of_nat (ticks_of meter evs))%Z
         /\ map Reading.seq (readings_of meter evs)
            = map (fun i => (MeterState.seq m + Z.of_nat i)%Z) (seq 1 (ticks_of meter evs))
         /\ Forall (fun r => Reading.meter_id r = MeterState.meter_id m
                             /\ Reading.pole_id r = MeterState.pole_id m)
                   (readings_of meter evs).
Proof.
  induction 1 as [s | s j timestamp r s1 evs s' Hg Hrun IH
                  | s j timestamp e s1 evs s' Hg Hrun IH | s g c evs s' Hrun IH].
  - repeat split. intros m Hm. exists m. cbn.
    split; [exact Hm|]. split; [apply same_meter_refl|]. split; [lia|].
    split; [reflexivity|constructor].
  - destruct IH as (Hc & Hl & IH).
    apply generate_reading_tick in Hg as (Hc1 & Hl1 & Hf1 & _ & Ht1).
    split; [congruence|]. split; [congruence|].
    intros m Hm. cbn [ticks_of readings_of].
    destruct (Nat.eqb_spec j meter) as [->|Hne].
    + destruct (Ht1 m Hm) as (m1 & Hm1 & Hsame1 & Hseq1 & Hr1 & Hid1 & Hp1).
      destruct (IH m1 Hm1) as (m' & Hm' & Hsame & Hseq & Hseqs & Hids).
      exists m'. split; [exact Hm'|].
      split; [eapply same_meter_trans; eassumption|].
      split; [lia|].
      destruct Hsame1 as (Hi & Hp & _).
      split.
      * cbn [map seq]. rewrite Hseqs, Hr1. apply (f_equal2 cons); [lia|].
        rewrite <- (seq_shift _ 1), map_map. apply map_ext. intros i. lia.
      * constructor; [split; assumption|].
        eapply Forall_impl; [exact Hids|]. cbn. intros r0 [? ?]. split; congruence.
    + apply IH. rewrite Hf1 by congruence. exact Hm.
  - destruct IH as (Hc & Hl & IH).
    apply generate_reading_failed_tick in Hg as (Hc1 & Hl1 & Hf1 & Ht1).
    split; [congruence|]. split; [congruence|].
    intros m Hm. cbn [ticks_of readings_of].
    destruct (Nat.eq_dec j meter) as [->|Hne].
    + destruct (Ht1 m Hm) as (m1 & Hm1 & Hsame1 & Hseq1).
      destruct (IH m1 Hm1) as (m' & Hm' & Hsame & Hseq & Hseqs & Hids).
      exists m'. split; [exact Hm'|].
      split; [eapply same_meter_trans; eassumption|].
      split; [lia|].
      destruct Hsame1 as (Hi & Hp & _).
      split.
      * rewrite Hseqs. apply map_ext. intros i. lia.
      * eapply Forall_impl; [exact Hids|]. cbn. intros r0 [? ?]. split; congruence.
    + apply IH. rewrite Hf1 by congruence. exact Hm.
  - apply IH.
Qed.

(** One batch: a tick of every meter, in the order of the meters. *)
Lemma generate_batch_tick (timestamp : option datetime) (s s' : Process G MeterSimulator)
  (readings : list Reading.t) :
  generate_batch timestamp s = (Returned readings, s') ->
  Forall2 (fun m r => Reading.meter_id r = MeterState.meter_id m
                      /\ Reading.pole_id r = MeterState.pole_id m
                      /\ Reading.seq r = (MeterState.seq m + 1)%Z)
          (meters (self s)) readings
  /\ Forall2 (fun m m' => same_meter m m'
                          /\ MeterState.seq m' = (MeterState.seq m + 1)%Z)
             (meters (self s)) (meters (self s'))
  /\ config (self s') = config (self s).
Proof.
  intros E. unfold generate_batch in E.
  step E ts s0 E0. step_eq E ms s1.
  assert (Hs0 : self s0 = self s) by (destruct timestamp; got E0 ts s0; reflexivity).
  apply batch_loop_spec in E as (Hc & Hl & _ & Hn & _ & Ht).
  rewrite Hs0 in *.
  split; [|split; [|exact Hc]].
  - apply Forall2_same_length_lookup. split; [congruence|].
    intros i m r Hm Hr.
    destruct (Ht i m ltac:(eapply lookup_lt_Some; exact Hm) Hm)
      as (m' & r' & _ & Hr' & _ & _ & Hseq & Hid & Hp).
    rewrite Hr in Hr'. injection Hr' as <-. repeat split; assumption.
  - apply Forall2_same_length_lookup. split; [congruence|].
    intros i m m1 Hm Hm1.
    destruct (Ht i m ltac:(eapply lookup_lt_Some; exact Hm) Hm)
      as (m' & r' & Hm' & _ & Hsame & Hseq & _).
    cbn [Nat.add] in Hm'. rewrite Hm1 in Hm'. injection Hm' as <-. split; assumption.
Qed.

End SimulatorTicks.

(** ** The clock along a computation *)

Section ClockAdvances.
Context {G : Type} `{PyLib G}.

Lemma clock_advanced_refl (c : Clock) : clock_advanced c c.
Proof. unfold clock_advanced. repeat split; try lia. lra. Qed.

Lemma clock_advanced_trans (c1 c2 c3 : Clock) :
  clock_advanced c1 c2 -> clock_advanced c2 c3 -> clock_advanced c1 c3.
Proof.
  unfold clock_advanced. intros (?&?&?&?&?) (?&?&?&?&?).
  repeat split; try congruence; try lia. lra.
Qed.

Lemma clock_advanced_read (c : Clock) : clock_advanced c (clock_after_read c).
Proof. unfold clock_advanced. cbn. repeat split; try lia. lra. Qed.

Lemma clock_advanced_sleep (d : Q) (c : Clock) :
  0 <= d -> clock_advanced c (clock_after_sleep d c).
Proof. intros Hd. unfold clock_advanced. cbn. repeat split; try lia. lra. Qed.

Lemma advancing_bind {T A B} (m : M (Process G T) A) (k : A -> M (Process G T) B)
  (s : Process G T) :
  advancing m s ->
  (forall a s1, m s = (Returned a, s1) -> advancing (k a) s1) ->
  advancing (bind m k) s.
Proof.
  intros Hm Hk b s' E. step E a s1 E1.
  eapply clock_advanced_trans; [apply (Hm _ _ E1)|apply (Hk _ _ E1 _ _ E)].
Qed.

(** A step that leaves the clock alone. *)
Lemma advancing_still {T A} (m : M (Process G T) A) (s : Process G T) :
  (forall a s', m s = (Returned a, s') -> clock s' = clock s) -> advancing m s.
Proof. intros Hm a s' E. rewrite (Hm _ _ E). apply clock_advanced_refl. Qed.

Lemma advancing_ret {T A} (a : A) (s : Process G T) : advancing (ret a) s.
Proof. apply advancing_still. intros a0 s' E. got E a0 s'. reflexivity. Qed.

Lemma advancing_raise {T A} (e : exn) (s : Process G T) : advancing (raise (A := A) e) s.
Proof. intros a s' E. discriminate. Qed.

Lemma advancing_gets {T A} (f : Process G T -> A) (s : Process G T) : advancing (gets f) s.
Proof. apply advancing_still. intros a0 s' E. got E a0 s'. reflexivity. Qed.

Lemma advancing_random {T} (s : Process G T) : advancing py_random s.
Proof. apply advancing_still. intros a s' E. rewrite py_random_eq in E. got E a s'. reflexivity. Qed.

Lemma advancing_gauss {T} (mu sigma : Q) (s : Process G T) : advancing (py_gauss mu sigma) s.
Proof. apply advancing_still. intros a s' E. rewrite py_gauss_eq in E. got E a s'. reflexivity. Qed.

Lemma advancing_uniform {T} (a b : Q) (s : Process G T) : advancing (py_uniform a b) s.
Proof.
  apply advancing_still. intros x s' E. rewrite py_uniform_eq in E. got E x s'. reflexivity.
Qed.

Lemma advancing_randint {T} (a b : Z) (s : Process G T) : advancing (py_randint a b) s.
Proof.
  apply advancing_still. intros x s' E. apply py_randint_inv in E as [_ ->]. reflexivity.
Qed.

Lemma advancing_time {T} (s : Process G T) : advancing time_time s.
Proof. intros a s' E. got E a s'. apply clock_advanced_read. Qed.

Lemma advancing_now {T} (s : Process G T) : advancing datetime_now s.
Proof.
  intros a s' E. got E a s'. unfold clock_advanced. cbn. repeat split; try lia. lra.
Qed.

Lemma advancing_sleep {T} (d : Q) (s : Process G T) : 0 <= d -> advancing (time_sleep d) s.
Proof. intros Hd a s' E. got E a s'. apply (clock_advanced_sleep d _ Hd). Qed.

Lemma advancing_read_meter (meter : nat) (s : Process G MeterSimulator) :
  advancing (read_meter meter) s.
Proof. apply advancing_gets. Qed.

Lemma advancing_update_meter (meter : nat) (f : MeterState.t -> MeterState.t)
  (s : Process G MeterSimulator) : advancing (update_meter meter f) s.
Proof. apply advancing_still. intros a s' E. got E a s'. reflexivity. Qed.

Lemma advancing_should_start_sag (meter : nat) (s : Process G MeterSimulator) :
  advancing (_should_start_sag meter) s.
Proof.
  unfold _should_start_sag.
  apply advancing_bind; [apply advancing_read_meter|]. intros m s1 _.
  destruct (MeterState.in_sag m); [apply advancing_ret|].
  apply advancing_bind; [apply advancing_gets|]. intros cfg s2 _.
  apply advancing_bind.
  - destruct (Z_lt_le_dec 0 _); [|apply advancing_ret].
    apply advancing_bind; [apply advancing_time|]. intros tnow s3 _.
    apply advancing_bind; [apply advancing_gets|]. intros lst s4 _.
    destruct (Qle_bool _ _); [|apply advancing_ret].
    apply advancing_bind; [|intros; apply advancing_ret].
    apply advancing_still. intros a s' E. got E a s'. reflexivity.
  - intros forced s3 _. destruct forced; [apply advancing_ret|].
    apply advancing_bind; [apply advancing_random|]. intros; apply advancing_ret.
Qed.

Lemma advancing_update_sag_state (meter : nat) (s : Process G MeterSimulator) :
  advancing (_update_sag_state meter) s.
Proof.
  unfold _update_sag_state.
  apply advancing_bind; [apply advancing_read_meter|]. intros m s1 _.
  destruct (MeterState.in_sag m).
  - apply advancing_bind; [apply advancing_update_meter|]. intros x2 s2 _.
    apply advancing_bind; [apply advancing_read_meter|]. intros m3 s3 _.
    destruct (Z_le_gt_dec _ _); [|apply advancing_ret].
    apply advancing_bind; [apply advancing_update_meter|]. intros x4 s4 _.
    apply advancing_bind; [apply advancing_update_meter|]. intros; apply advancing_ret.
  - apply advancing_bind; [apply advancing_should_start_sag|]. intros start s2 _.
    destruct start; [|apply advancing_ret].
    apply advancing_bind; [apply advancing_gets|]. intros cfg s3 _.
    apply advancing_bind; [apply advancing_update_meter|]. intros x4 s4 _.
    apply advancing_bind; [apply advancing_uniform|]. intros depth s5 _.
    apply advancing_bind; [apply advancing_update_meter|]. intros x6 s6 _.
    apply advancing_bind; [apply advancing_randint|]. intros dur s7 _.
    apply advancing_bind; [apply advancing_update_meter|]. intros x8 s8 _.
    apply advancing_bind; [apply advancing_read_meter|]. intros; apply advancing_ret.
Qed.

Lemma advancing_generate_reading (meter : nat) (timestamp : datetime)
  (s : Process G MeterSimulator) : advancing (generate_reading meter timestamp) s.
Proof.
  unfold generate_reading.
  apply advancing_bind; [apply advancing_gets|]. intros cfg s1 _.
  apply advancing_bind; [apply advancing_gauss|]. intros noise s2 _.
  apply advancing_bind; [apply advancing_read_meter|]. intros m s3 _.
  apply advancing_bind; [apply advancing_gauss|]. intros vnoise s4 _.
  apply advancing_bind; [apply advancing_update_sag_state|]. intros adj s5 _.
  apply advancing_bind; [apply advancing_read_meter|]. intros m6 s6 _.
  apply advancing_bind.
  { destruct (Qltb 0 _ && Qltb 0 _); [|apply advancing_ret].
    unfold float_div. destruct (Qeq_dec _ _); [apply advancing_raise|apply advancing_ret]. }
  intros cur s7 _.
  apply advancing_bind.
  { unfold py_acos. destruct (math_acos _); [apply advancing_ret|apply advancing_raise]. }
  intros ang s8 _.
  apply advancing_bind; [apply advancing_gauss|]. intros fnoise s9 _.
  apply advancing_bind; [apply advancing_update_meter|]. intros x10 s10 _.
  apply advancing_bind; [apply advancing_read_meter|]. intros; apply advancing_ret.
Qed.

Lemma advancing_batch_loop (indices : list nat) (timestamp : datetime)
  (s : Process G MeterSimulator) : advancing (batch_loop indices timestamp) s.
Proof.
  revert s. induction indices as [|i rest IH]; intros s; [apply advancing_ret|].
  cbn [batch_loop].
  apply advancing_bind; [apply advancing_generate_reading|]. intros r s1 _.
  apply advancing_bind; [apply IH|]. intros; apply advancing_ret.
Qed.

Lemma advancing_generate_batch (timestamp : option datetime)
  (s : Process G MeterSimulator) : advancing (generate_batch timestamp) s.
Proof.
  unfold generate_batch.
  apply advancing_bind; [destruct timestamp; [apply advancing_ret|apply advancing_now]|].
  intros ts s1 _.
  apply advancing_bind; [apply advancing_gets|]. intros ms s2 _.
  apply advancing_batch_loop.
Qed.

Lemma advancing_publish (message : Reading.t) (s : Process G GatewayRelay) :
  advancing (publish message) s.
Proof.
  intros ok s' E. apply publish_effects in E as (Hts & Hns & Hnr & _ & Hcase).
  unfold clock_advanced. split; [exact Hts|]. split; [exact Hns|].
  destruct (Qltb _ _).
  - destruct Hcase as (_ & ->). repeat split; try lia. lra.
  - destruct Hcase as (_ & _ & latency & u & _ & Hlat & _ & _ & Hslept & Hcase).
    assert (0 <= inject_Z latency / 1000).
    { apply Qle_shift_div_l; [reflexivity|]. rewrite Qmult_0_l.
      change 0 with (inject_Z 0). rewrite <- Zle_Qle. lia. }
    rewrite Hslept, Hnr.
    destruct (Qltb u _); destruct Hcase as (-> & _); repeat split; try lia; lra.
Qed.

Lemma advancing_get_summary (s : Process G GatewayRelay) : advancing get_summary s.
Proof.
  unfold get_summary.
  apply advancing_bind; [apply advancing_time|]. intros tnow s1 _.
  apply advancing_bind; [apply advancing_gets|]. intros st s2 _.
  apply advancing_bind; [|intros; apply advancing_ret].
  unfold float_div. destruct (Qeq_dec _ _); [apply advancing_raise|apply advancing_ret].
Qed.

Lemma advancing_shutdown (s : Process G GatewayRelay) : advancing shutdown s.
Proof.
  unfold shutdown.
  apply advancing_bind.
  { apply advancing_still. intros a s' E. got E a s'. reflexivity. }
  intros x1 s1 _.
  apply advancing_bind.
  { apply advancing_still. intros a s' E.
    destruct (flush_spec s1) as (s2 & E2 & _ & Hc & _). congruence. }
  intros x2 s2 _.
  apply advancing_bind; [apply advancing_get_summary|]. intros; apply advancing_ret.
Qed.

End ClockAdvances.

(** *** Simulators that are ready *)

Section SimulatorReady.
Context {G : Type} `{PyLib G}.





Lemma init_creates_the_meter_names {T} (cfg : SimulatorConfig) (seed : option Z)
  (w w' : Process G T) (sim : MeterSimulator) (meter : nat) (m : MeterState.t) :
  MeterSimulator__init__ cfg seed w = (Returned sim, w') ->
  meters sim !! meter = Some m ->
  MeterState.meter_id m = meter_name cfg (Z.of_nat meter)
  /\ MeterState.pole_id m = pole_id cfg
  /\ MeterState.seq m = 0%Z.
Proof.
  intros E Hm. apply MeterSimulator_init_full in E as (_ & _ & Hids & Hfresh & _).
  destruct (py_range_spec (num_meters cfg)) as (Hlen & _ & _ & Hlook).
  assert (Hi : (meter < Z.to_nat (num_meters cfg))%nat).
  { rewrite <- Hlen, <- (length_map (meter_name cfg)), <- Hids, length_map.
    eapply lookup_lt_Some. exact Hm. }
  assert (Hmap : map MeterState.meter_id (meters sim) !! meter
                 = Some (MeterState.meter_id m))
    by (rewrite list_lookup_fmap, Hm; reflexivity).
  rewrite Hids, list_lookup_fmap, (Hlook meter Hi) in Hmap. cbn in Hmap.
  destruct (Forall_lookup_1 _ _ _ _ Hfresh Hm) as (Hp & Hs & _).
  split; [congruence|]. split; assumption.
Qed.

End SimulatorReady.

(** ** The relay driven by the simulator *)

Section DriverFacts.
Context {G : Type} `{PyLib G}.

Lemma on_relay_inv {A} (m : M (Process G GatewayRelay) A) (s s' : Process G Driver)
  (o : outcome A) :
  on_relay m s = (o, s') ->
  exists s1, m (relay_view s) = (o, s1)
             /\ s' = set_self {| simulator := simulator (self s); relay := self s1 |} s1.
Proof.
  unfold on_relay, relay_view. destruct (m _) as [o1 s1]. intros E.
  injection E as <- <-. exists s1. split; reflexivity.
Qed.

Lemma on_relay_step {A} (m : M (Process G GatewayRelay) A) (s : Process G Driver)
  (o : outcome A) (s1 : Process G GatewayRelay) :
  m (relay_view s) = (o, s1) ->
  on_relay m s = (o, set_self {| simulator := simulator (self s); relay := self s1 |} s1).
Proof. unfold on_relay, relay_view. intros ->. reflexivity. Qed.

Lemma on_simulator_inv {A} (m : M (Process G MeterSimulator) A) (s s' : Process G Driver)
  (o : outcome A) :
  on_simulator m s = (o, s') ->
  exists s1, m (sim_view s) = (o, s1)
             /\ s' = set_self {| simulator := self s1; relay := relay (self s) |} s1.
Proof.
  unfold on_simulator, sim_view. destruct (m _) as [o1 s1]. intros E.
  injection E as <- <-. exists s1. split; reflexivity.
Qed.


Lemma relay_view_eta (x : MeterSimulator) (s1 : Process G GatewayRelay) :
  relay_view (set_self {| simulator := x; relay := self s1 |} s1) = s1.
Proof. destruct s1. reflexivity. Qed.

Lemma sim_view_eta (x : GatewayRelay) (s1 : Process G MeterSimulator) :
  sim_view (set_self {| simulator := self s1; relay := x |} s1) = s1.
Proof. destruct s1. reflexivity. Qed.

Lemma on_error_returned {St A} (body : M St A) (handler : M St unit) (s s' : St) (a : A) :
  on_error body handler s = (Returned a, s') -> body s = (Returned a, s').
Proof.
  unfold on_error. destruct (body s) as [[a0|e] s1]; [trivial|].
  destruct (handler s1) as [[x|e'] s2]; discriminate.
Qed.


(** The [finally] clause of the stream reads the clock and nothing else. *)
Lemma stream_finally_spec (start_time : Q) (reading_count : Z)
  (s : Process G MeterSimulator) :
  exists o, stream_finally start_time reading_count s
            = (o, set_clock (clock_after_read (clock s)) s)
    /\ (o = Returned tt
        \/ (o = Raised ZeroDivisionError
            /\ time_script (clock s) (time_reads (clock s)) - start_time == 0)).
Proof.
  unfold stream_finally, time_time. run1. unfold float_div.
  destruct (Qeq_dec _ _) as [Hz|Hz].
  - eexists. split; [reflexivity|]. right. split; [reflexivity|exact Hz].
  - eexists. split; [reflexivity|]. left. reflexivity.
Qed.


End DriverFacts.

Section DriverRuns.
Context {G : Type} `{PyLib G}.

Lemma relay_run_app (s1 s2 s3 : Process G GatewayRelay) (evs1 evs2 : list relay_event) :
  relay_run s1 evs1 s2 -> relay_run s2 evs2 s3 -> relay_run s1 (evs1 ++ evs2) s3.
Proof.
  induction 1; intros Hrest; cbn [app]; [exact Hrest|..]; econstructor; eauto.
Qed.

Lemma sim_run_app (s1 s2 s3 : Process G MeterSimulator) (evs1 evs2 : list sim_event) :
  sim_run s1 evs1 s2 -> sim_run s2 evs2 s3 -> sim_run s1 (evs1 ++ evs2) s3.
Proof.
  induction 1; intros Hrest; cbn [app]; [exact Hrest|..]; econstructor; eauto.
Qed.

Lemma published_of_app (evs1 evs2 : list relay_event) :
  published_of (evs1 ++ evs2) = published_of evs1 ++ published_of evs2.
Proof.
  induction evs1 as [|[m ok|ok|] evs IH]; cbn [app published_of]; congruence.
Qed.

Lemma accepted_app (evs1 evs2 : list relay_event) :
  accepted (evs1 ++ evs2) = accepted evs1 ++ accepted evs2.
Proof.
  induction evs1 as [|[m [|]|ok|] evs IH]; cbn [app accepted]; congruence.
Qed.

Lemma generated_of_app (evs1 evs2 : list sim_event) :
  generated_of (evs1 ++ evs2) = generated_of evs1 ++ generated_of evs2.
Proof.
  induction evs1 as [|[j r|j e|] evs IH]; cbn [app generated_of]; congruence.
Qed.

Lemma calls_of_any_app (evs1 evs2 : list sim_event) :
  calls_of_any (evs1 ++ evs2) = (calls_of_any evs1 + calls_of_any evs2)%nat.
Proof.
  induction evs1 as [|[j r|j e|] evs IH]; cbn [app calls_of_any]; lia.
Qed.

(** The calls that returned True are among the calls, in their order. *)
Lemma accepted_sublist (evs : list relay_event) :
  sublist (accepted evs) (published_of evs).
Proof.
  induction evs as [|[m [|]|ok|] evs IH]; cbn [accepted published_of];
    [constructor|apply sublist_skip|apply sublist_cons|..]; assumption.
Qed.

Lemma count_publish_length (evs : list relay_event) :
  count_publish evs = Z.of_nat (length (published_of evs)).
Proof.
  induction evs as [|[m ok|ok|] evs IH]; cbn [count_publish published_of length]; lia.
Qed.

Lemma count_refused_length (evs : list relay_event) :
  count_refused evs
  = (Z.of_nat (length (published_of evs)) - Z.of_nat (length (accepted evs)))%Z.
Proof.
  induction evs as [|[m [|]|ok|] evs IH];
    cbn [count_refused published_of accepted length]; lia.
Qed.

Lemma relayed_world (s s' : Process G Driver) :
  relay (self s') = relay (self s) -> relayed [] [] s s'.
Proof.
  intros Hr. exists [EvWorld]. split; [|split; reflexivity].
  apply (relay_run_world _ (rng s') (clock s')).
  replace (set_clock (clock s') (set_rng (rng s') (relay_view s))) with (relay_view s').
  - constructor.
  - unfold relay_view, set_clock, set_rng, set_self. cbn. rewrite Hr. reflexivity.
Qed.

Lemma relayed_trans (p1 p2 a1 a2 : list Reading.t) (s1 s2 s3 : Process G Driver) :
  relayed p1 a1 s1 s2 -> relayed p2 a2 s2 s3 -> relayed (p1 ++ p2) (a1 ++ a2) s1 s3.
Proof.
  intros (evs1 & H1 & <- & <-) (evs2 & H2 & <- & <-). exists (evs1 ++ evs2).
  split; [eapply relay_run_app; eassumption|].
  split; [apply published_of_app|apply accepted_app].
Qed.

Lemma relayed_refl (s : Process G Driver) : relayed [] [] s s.
Proof. exists []. split; [constructor|split; reflexivity]. Qed.

Lemma simulated_world (s s' : Process G Driver) :
  simulator (self s') = simulator (self s) -> simulated [] s s'.
Proof.
  intros Hr. exists [EvSimWorld]. split; [|split; reflexivity].
  apply (sim_run_world _ (rng s') (clock s')).
  replace (set_clock (clock s') (set_rng (rng s') (sim_view s))) with (sim_view s').
  - constructor.
  - unfold sim_view, set_clock, set_rng, set_self. cbn. rewrite Hr. reflexivity.
Qed.

Lemma simulated_trans (g1 g2 : list Reading.t) (s1 s2 s3 : Process G Driver) :
  simulated g1 s1 s2 -> simulated g2 s2 s3 -> simulated (g1 ++ g2) s1 s3.
Proof.
  intros (evs1 & H1 & <- & Hc1) (evs2 & H2 & <- & Hc2). exists (evs1 ++ evs2).
  split; [eapply sim_run_app; eassumption|].
  split; [apply generated_of_app|].
  rewrite calls_of_any_app, length_app. lia.
Qed.

Lemma simulated_refl (s : Process G Driver) : simulated [] s s.
Proof. exists []. split; [constructor|split; reflexivity]. Qed.

(** The calls of one batch are a run of the simulator that returns the
    readings of the batch. *)
Lemma batch_loop_generated (indices : list nat) (timestamp : datetime)
  (s s' : Process G MeterSimulator) (rs : list Reading.t) :
  batch_loop indices timestamp s = (Returned rs, s') ->
  exists evs, sim_run s evs s' /\ generated_of evs = rs
              /\ calls_of_any evs = length rs.
Proof.
  revert s rs. induction indices as [|k rest IH]; intros s rs E.
  - got E rs s'. exists []. split; [apply sim_run_nil|split; reflexivity].
  - cbn [batch_loop] in E. step E r s1 E1. step E rs0 s2 E2. got E rs s'.
    destruct (IH _ _ E2) as (evs & Hrun & Hgen & Hcalls).
    exists (EvReading k r :: evs).
    split; [eapply sim_run_reading; eassumption|].
    cbn [generated_of calls_of_any length]. split; congruence.
Qed.

Lemma generate_batch_simulated (timestamp : datetime) (s : Process G Driver)
  (t : Process G MeterSimulator) (rs : list Reading.t) :
  generate_batch (Some timestamp) (sim_view s) = (Returned rs, t) ->
  simulated rs s (set_self {| simulator := self t; relay := relay (self s) |} t).
Proof.
  intros E. unfold generate_batch in E. step_eq E ts s0. step_eq E ms s1.
  apply batch_loop_generated in E as (evs & Hrun & Hgen & Hcalls).
  exists evs. rewrite sim_view_eta. split; [exact Hrun|]. split; assumption.
Qed.

Lemma get_summary_eq (s : Process G GatewayRelay) :
  exists sm, get_summary s = (Returned sm, set_clock (clock_after_read (clock s)) s).
Proof.
  unfold get_summary, time_time. run1. run1.
  erewrite bind_step.
  2:{ apply float_div_eq. pose proof (py_max_ge 1
        (time_script (clock s) (time_reads (clock s)) - start_time (stats (self s)))).
      cbn [self set_clock]. lra. }
  eexists. reflexivity.
Qed.

(** The body of the loop for one reading. *)
Lemma relay_reading_spec (reading : Reading.t) (last_log : Q) (log_interval_seconds : Z)
  (s s' : Process G Driver) (r : option Q) :
  relay_reading reading last_log log_interval_seconds s = (Returned r, s') ->
  simulator (self s') = simulator (self s)
  /\ _shutdown (relay (self s')) = _shutdown (relay (self s))
  /\ if _shutdown (relay (self s)) then r = None /\ s' = s
     else (exists last, r = Some last) /\ exists sent, relayed [reading] sent s s'.
Proof.
  intros E. unfold relay_reading in E. step_eq E stop s0.
  destruct (_shutdown (relay (self s))) eqn:Eflag.
  { got E r s'. repeat split. exact Eflag. }
  step E x1 s1 E1. apply on_relay_inv in E1 as (t1 & E1 & ->).
  step_eq E tnow s2.
  pose proof (publish_spec _ _ _ _ E1) as (_ & Hflag & _).
  assert (Hpub : relayed [reading] (accepted [EvPublish reading x1]) s
                   (set_self {| simulator := simulator (self s); relay := self t1 |} t1)).
  { exists [EvPublish reading x1]. split; [|split; reflexivity].
    econstructor; [exact E1|]. rewrite relay_view_eta. constructor. }
  cbn [relay_view self set_self] in Hflag.
  destruct (Qle_bool _ _).
  - step E x3 s3 E3. apply on_relay_inv in E3 as (t3 & E3 & ->). got E r s'.
    match type of E3 with get_summary ?s0 = _ =>
      destruct (get_summary_eq s0) as (sm & E3')
    end.
    rewrite E3' in E3. injection E3 as _ <-.
    unfold relay_view. cbn [self set_self set_clock simulator relay].
    split; [reflexivity|]. split; [congruence|].
    split; [eexists; reflexivity|]. exists (accepted [EvPublish reading x1] ++ []).
    change [reading] with ([reading] ++ []).
    eapply relayed_trans; [exact Hpub|].
    apply relayed_world. reflexivity.
  - got E r s'. cbn [self set_self set_clock simulator relay].
    split; [reflexivity|]. split; [congruence|].
    split; [eexists; reflexivity|]. exists (accepted [EvPublish reading x1] ++ []).
    change [reading] with ([reading] ++ []).
    eapply relayed_trans; [exact Hpub|].
    apply relayed_world. reflexivity.
Qed.

(** The readings of one batch. *)
Lemma relay_batch_spec (readings : list Reading.t) (last_log : Q)
  (log_interval_seconds : Z) (s s' : Process G Driver) (r : option Q) :
  relay_batch readings last_log log_interval_seconds s = (Returned r, s') ->
  simulator (self s') = simulator (self s)
  /\ _shutdown (relay (self s')) = _shutdown (relay (self s))
  /\ if _shutdown (relay (self s))
     then s' = s /\ (readings <> [] -> r = None)
     else (exists last, r = Some last) /\ exists sent, relayed readings sent s s'.
Proof.
  revert last_log s. induction readings as [|reading rest IH]; intros last_log s E.
  - got E r s'. split; [reflexivity|]. split; [reflexivity|].
    destruct (_shutdown (relay (self s))).
    + split; [reflexivity|congruence].
    + split; [eexists; reflexivity|exists []; apply relayed_refl].
  - cbn [relay_batch] in E. step E r1 s1 E1.
    apply relay_reading_spec in E1 as (Hsim1 & Hflag1 & Hcase1).
    destruct (_shutdown (relay (self s))) eqn:Eflag.
    + destruct Hcase1 as (-> & ->). got E r s'. rewrite Eflag.
      repeat split; reflexivity.
    + destruct Hcase1 as ((last & ->) & sent1 & Hrel1).
      apply IH in E as (Hsim & Hflag & Hcase). rewrite Hflag1 in Hcase.
      split; [congruence|]. split; [congruence|].
      destruct Hcase as (Hlast & sent & Hrel). split; [exact Hlast|].
      exists (sent1 ++ sent).
      change (reading :: rest) with ([reading] ++ rest).
      eapply relayed_trans; eassumption.
Qed.

End DriverRuns.

Section DriverStream.
Context {G : Type} `{PyLib G}.

Lemma close_stream_spec (start_time : Q) (reading_count : Z) (s : Process G Driver) :
  close_stream start_time reading_count s
  = (Returned tt, set_clock (clock_after_read (clock s)) s).
Proof.
  unfold close_stream, on_simulator, ignoring_errors.
  destruct (stream_finally_spec start_time reading_count
              (set_self (simulator (self s)) s)) as (o & -> & _).
  destruct s as [g c [sim r]]. reflexivity.
Qed.

Lemma on_simulator_finally (start_time : Q) (reading_count : Z) (s s' : Process G Driver)
  (o : outcome unit) :
  on_simulator (stream_finally start_time reading_count) s = (o, s') ->
  s' = set_clock (clock_after_read (clock s)) s.
Proof.
  intros E. apply on_simulator_inv in E as (s1 & E1 & ->).
  destruct (stream_finally_spec start_time reading_count (sim_view s)) as (o' & E' & _).
  rewrite E' in E1. injection E1 as _ <-. destruct s as [g c [sim r]]. reflexivity.
Qed.

(** What the first cycles of the stream do to the simulator and the relay:
    the simulator makes a run that returns the readings [gen], the relay a
    run in which the messages [passed] are passed to [publish]; every
    reading is passed on unless the relay was shut down before. *)
Lemma relay_stream_spec (cycles : nat) (duration_seconds : Z) (interval start_time : Q)
  (log_interval_seconds : Z) :
  forall (reading_count : Z) (last_log : Q) (s s' : Process G Driver) (p : loop_state),
    relay_stream cycles duration_seconds interval start_time reading_count last_log
      log_interval_seconds s = (Returned p, s') ->
    config (simulator (self s')) = config (simulator (self s))
    /\ length (meters (simulator (self s'))) = length (meters (simulator (self s)))
    /\ _shutdown (relay (self s')) = _shutdown (relay (self s))
    /\ exists gen passed sent : list Reading.t,
         simulated gen s s'
         /\ relayed passed sent s s'
         /\ (_shutdown (relay (self s)) = false -> passed = gen)
         /\ (_shutdown (relay (self s)) = true -> passed = []).
Proof.
  induction cycles as [|k IH]; intros reading_count last_log s s' p E.
  - got E p s'. repeat (split; [reflexivity|]). exists [], [], [].
    split; [apply simulated_refl|]. split; [apply relayed_refl|]. split; reflexivity.
  - cbn [relay_stream] in E. step_eq E cycle_start s1.
    destruct ((0 <? duration_seconds)%Z && Qle_bool _ _) in E.
    + step E x2 s2 E2. apply on_simulator_finally in E2 as ->. got E p s'.
      repeat (split; [reflexivity|]). exists [], [], [].
      split; [apply simulated_world; reflexivity|].
      split; [apply relayed_world; reflexivity|]. split; reflexivity.
    + step_eq E timestamp s2. step E readings s3 E3.
      apply on_error_returned, on_simulator_inv in E3 as (t3 & E3 & ->).
      pose proof (generate_batch_simulated _ _ _ _ E3) as Hsim3.
      apply generate_batch_tick in E3 as (Hrs & Hms & Hcfg).
      unfold sim_view in Hrs, Hms, Hcfg.
      cbn [self set_self set_clock simulator relay] in Hrs, Hms, Hcfg, Hsim3.
      pose proof (Forall2_length _ _ _ Hms) as Hlen.
      step E r s4 E4. apply on_error_returned, relay_batch_spec in E4 as (Hsim4 & Hflag4 & Hcase).
      cbn [self set_self set_clock simulator relay] in Hsim4, Hflag4, Hcase.
      match type of Hsim3 with
      | simulated _ ?a0 ?a =>
          assert (Hw : relayed [] [] s a) by (apply relayed_world; reflexivity);
          assert (Hv : simulated readings s a)
            by (change readings with ([] ++ readings);
                eapply simulated_trans; [|exact Hsim3];
                apply simulated_world; reflexivity);
          assert (Hv4 : simulated [] a s4) by (apply simulated_world; exact Hsim4)
      end.
      destruct r as [last|].
      * step_eq E t s5.
        step E x6 s6 E6.
        assert (Hs6 : self s6 = self s4).
        { destruct (Qltb 0 _) in E6; got E6 x6 s6; reflexivity. }
        apply IH in E as (Hc & Hl & Hf & gen & passed & sent & Hsim & Hrel & Hfalse & Htrue).
        rewrite Hs6 in Hc, Hl, Hf, Hfalse, Htrue.
        cbn [self set_clock] in Hc, Hl, Hf, Hfalse, Htrue.
        rewrite Hsim4 in Hc, Hl. rewrite Hflag4 in Hf, Hfalse, Htrue.
        split; [congruence|]. split; [congruence|]. split; [exact Hf|].
        assert (Hw6 : relayed [] [] s4 s6).
        { apply relayed_world. rewrite Hs6. reflexivity. }
        assert (Hv6 : simulated [] s4 s6).
        { apply simulated_world. rewrite Hs6. reflexivity. }
        assert (Hgen : simulated (readings ++ gen) s s').
        { replace (readings ++ gen) with (readings ++ [] ++ [] ++ gen) by reflexivity.
          eapply simulated_trans; [exact Hv|].
          eapply simulated_trans; [exact Hv4|].
          eapply simulated_trans; [exact Hv6|exact Hsim]. }
        destruct (_shutdown (relay (self s))) eqn:Eflag.
        -- destruct Hcase as (Hs4 & Hnone).
           assert (readings = []) as ->.
           { destruct readings; [reflexivity|]. discriminate Hnone. congruence. }
           exists gen, passed, sent. split; [exact Hgen|]. split.
           { change passed with ([] ++ [] ++ [] ++ passed).
             change sent with ([] ++ [] ++ [] ++ sent).
             eapply relayed_trans; [exact Hw|]. rewrite <- Hs4.
             eapply relayed_trans; [apply relayed_refl|].
             eapply relayed_trans; [exact Hw6|exact Hrel]. }
           split; [discriminate|exact Htrue].
        -- destruct Hcase as (_ & sent4 & Hrel4).
           exists (readings ++ gen), (readings ++ passed), (sent4 ++ sent).
           split; [exact Hgen|]. split.
           { change (readings ++ passed) with ([] ++ readings ++ [] ++ passed).
             change (sent4 ++ sent) with ([] ++ sent4 ++ [] ++ sent).
             eapply relayed_trans; [exact Hw|].
             eapply relayed_trans; [exact Hrel4|].
             eapply relayed_trans; [exact Hw6|exact Hrel]. }
           split; [intros _; rewrite (Hfalse eq_refl); reflexivity|discriminate].
      * step E x5 s5 E5. rewrite close_stream_spec in E5. got E5 x5 s5. got E p s'.
        cbn [self set_clock]. rewrite Hsim4. cbn [simulator].
        split; [exact Hcfg|]. split; [congruence|]. split; [exact Hflag4|].
        destruct (_shutdown (relay (self s))) eqn:Eflag.
        -- destruct Hcase as (Hs4 & _).
           exists readings, [], []. split.
           { rewrite <- (app_nil_r readings).
             eapply simulated_trans; [exact Hv|].
             apply simulated_world. cbn [self set_clock]. rewrite Hs4. reflexivity. }
           split.
           { apply relayed_world. cbn [self set_clock]. rewrite Hs4. reflexivity. }
           split; [discriminate|reflexivity].
        -- destruct Hcase as ((last & Hlast) & _). discriminate.
Qed.

End DriverStream.

Section DriverClock.
Context {G : Type} `{PyLib G}.

Lemma advancing_on_simulator {A} (m : M (Process G MeterSimulator) A)
  (s : Process G Driver) :
  advancing m (sim_view s) -> advancing (on_simulator m) s.
Proof.
  intros Hm a s' E. apply on_simulator_inv in E as (s1 & E1 & ->). exact (Hm _ _ E1).
Qed.

Lemma advancing_on_relay {A} (m : M (Process G GatewayRelay) A) (s : Process G Driver) :
  advancing m (relay_view s) -> advancing (on_relay m) s.
Proof.
  intros Hm a s' E. apply on_relay_inv in E as (s1 & E1 & ->). exact (Hm _ _ E1).
Qed.

Lemma advancing_on_error {St A} (body : M (Process G St) A) (handler : M (Process G St) unit)
  (s : Process G St) :
  advancing body s -> advancing (on_error body handler) s.
Proof. intros Hm a s' E. apply on_error_returned in E. exact (Hm _ _ E). Qed.

Lemma advancing_relay_reading (reading : Reading.t) (last_log : Q)
  (log_interval_seconds : Z) (s : Process G Driver) :
  advancing (relay_reading reading last_log log_interval_seconds) s.
Proof.
  unfold relay_reading.
  apply advancing_bind; [apply advancing_gets|]. intros stop s1 _.
  destruct stop; [apply advancing_ret|].
  apply advancing_bind; [apply advancing_on_relay, advancing_publish|]. intros x2 s2 _.
  apply advancing_bind; [apply advancing_time|]. intros tnow s3 _.
  destruct (Qle_bool _ _); [|apply advancing_ret].
  apply advancing_bind; [apply advancing_on_relay, advancing_get_summary|].
  intros; apply advancing_ret.
Qed.

Lemma advancing_relay_batch (readings : list Reading.t) (last_log : Q)
  (log_interval_seconds : Z) (s : Process G Driver) :
  advancing (relay_batch readings last_log log_interval_seconds) s.
Proof.
  revert last_log s. induction readings as [|reading rest IH]; intros last_log s;
    [apply advancing_ret|].
  cbn [relay_batch].
  apply advancing_bind; [apply advancing_relay_reading|]. intros r s1 _.
  destruct r; [apply IH|apply advancing_ret].
Qed.

(** Once the clock has passed the deadline of the stream, the loop ends:
    [N] is a number of clock readings after which the deadline has
    passed. *)
Lemma relay_stream_ends (duration_seconds : Z) (interval start_time : Q)
  (log_interval_seconds : Z) (N : nat) :
  (0 < duration_seconds)%Z ->
  forall (cycles : nat) (reading_count : Z) (last_log : Q) (s s' : Process G Driver)
         (p : loop_state),
    (forall k, (N <= k)%nat ->
               inject_Z duration_seconds <= time_script (clock s) k - start_time) ->
    (N - time_reads (clock s) < cycles)%nat ->
    relay_stream cycles duration_seconds interval start_time reading_count last_log
      log_interval_seconds s = (Returned p, s') ->
    p = Finished.
Proof.
  intros Hd. induction cycles as [|k IH]; intros reading_count last_log s s' p Hdead Hfuel E;
    [lia|].
  cbn [relay_stream] in E. step_eq E cycle_start s1.
  destruct (Nat.le_gt_cases N (time_reads (clock s))) as [Hpast|Hnot].
  - rewrite (proj2 (Z.ltb_lt _ _) Hd), (Qle_bool_true _ _ (Hdead _ Hpast)) in E.
    cbn [andb] in E. step E x2 s2 E2. got E p s'. reflexivity.
  - destruct ((0 <? duration_seconds)%Z && Qle_bool _ _) in E.
    { step E x2 s2 E2. got E p s'. reflexivity. }
    step_eq E timestamp s2. step E readings s3 E3.
    pose proof (advancing_on_error _ _ _
                  (advancing_on_simulator _ _ (advancing_generate_batch _ _)) _ _ E3) as Hc3.
    step E r s4 E4.
    pose proof (advancing_on_error _ _ _ (advancing_relay_batch _ _ _ _) _ _ E4) as Hc4.
    destruct r as [last|]; [|step E x5 s5 E5; got E p s'; reflexivity].
    step_eq E t s5. step E x6 s6 E6.
    assert (Hc6 : clock_advanced (clock s) (clock s6)).
    { assert (Hc5 : clock_advanced (clock s) (clock s4)).
      { eapply clock_advanced_trans; [|exact Hc4].
        eapply clock_advanced_trans; [|exact Hc3].
        unfold clock_advanced. cbn. repeat split; try lia. lra. }
      eapply clock_advanced_trans; [exact Hc5|].
      eapply clock_advanced_trans; [apply clock_advanced_read|].
      destruct (Qltb 0 _) in E6.
      - exact (advancing_sleep _ _ (py_max_nonneg _) _ _ E6).
      - got E6 x6 s6. apply clock_advanced_refl. }
    assert (Hreads : (S (time_reads (clock s)) <= time_reads (clock s6))%nat).
    { assert (Hc5 : clock_advanced (clock (set_clock (clock_after_read (clock s)) s))
                                   (clock s4)).
      { eapply clock_advanced_trans; [|exact Hc4].
        eapply clock_advanced_trans; [|exact Hc3].
        unfold clock_advanced. cbn. repeat split; try lia. lra. }
      destruct Hc5 as (_ & _ & Hr & _). cbn in Hr.
      assert (Hr6 : (S (time_reads (clock s4)) <= time_reads (clock s6))%nat).
      { destruct (Qltb 0 _) in E6; got E6 x6 s6; cbn; lia. }
      lia. }
    destruct Hc6 as (Hscript & _).
    eapply (IH _ _ s6 s' p); [|lia|exact E].
    intros j Hj. rewrite Hscript. apply Hdead. exact Hj.
Qed.

End DriverClock.

Section DriverProgress.
Context {G : Type} `{PyLib G}.

Lemma relayed_spec (passed sent : list Reading.t) (s s' : Process G Driver) :
  relayed passed sent s s' ->
  same_setup (relay (self s)) (relay (self s'))
  /\ sublist sent passed
  /\ messages_received (stats (relay (self s')))
     = (messages_received (stats (relay (self s))) + Z.of_nat (length passed))%Z
  /\ messages_dropped (stats (relay (self s')))
     = (messages_dropped (stats (relay (self s)))
        + (Z.of_nat (length passed) - Z.of_nat (length sent)))%Z
  /\ held (relay (self s')) ≡ₚ held (relay (self s)) ++ sent.
Proof.
  intros (evs & Hrun & <- & <-).
  apply relay_run_spec in Hrun as (Hset & Hrec & Hdrop & Hheld & _).
  unfold relay_view in *. cbn [self set_self] in *.
  split; [exact Hset|]. split; [apply accepted_sublist|].
  split; [rewrite Hrec, count_publish_length; reflexivity|].
  split; [rewrite Hdrop, count_refused_length; reflexivity|exact Hheld].
Qed.





End DriverProgress.

(** * The claims

    ** The load curve *)

(** C5.  For an hour in [0, 24) the load curve is the piecewise linear
    curve of the specification: the night value on [0, 5), the ramp to the
    morning peak on [5, 6), the morning peak on [6, 9), the ramp to midday on
    [9, 10), the midday value on [10, 16), the ramp to the evening peak on
    [16, 17), the evening peak on [17, 21), the ramp to night on [21, 22) and
    the night value on [22, 24), each ramp being the linear interpolation of
    its two plateau values at the fractional progress through the ramp; and
    equal hours give equal values. *)
Theorem load_curve_is_piecewise_linear (cfg : SimulatorConfig) (h : Q) :
  0 <= h -> h < 24 ->
  _get_load_curve_factor cfg h == load_curve_spec cfg h
  /\ forall h', h' == h -> _get_load_curve_factor cfg h' == _get_load_curve_factor cfg h.
Proof.
  intros H0 H24. split.
  - apply load_curve_at; [apply float_mod_small; assumption | assumption | assumption].
  - intros h' Heq.
    rewrite (load_curve_at cfg h' h), (load_curve_at cfg h h);
      try assumption; try reflexivity.
    + apply float_mod_small; assumption.
    + rewrite Heq. apply float_mod_small; assumption.
Qed.

(** C10.  The load curve is defined for every hour, also outside [0, 24):
    its value at [h] is the specified curve at [h mod 24], which is the
    value the function returns for [h mod 24], and the curve has period 24. *)
Theorem load_curve_is_periodic (cfg : SimulatorConfig) (h : Q) :
  _get_load_curve_factor cfg h == load_curve_spec cfg (float_mod h 24)
  /\ _get_load_curve_factor cfg h == _get_load_curve_factor cfg (float_mod h 24)
  /\ _get_load_curve_factor cfg (h + 24) == _get_load_curve_factor cfg h
  /\ _get_load_curve_factor cfg (h - 24) == _get_load_curve_factor cfg h.
Proof.
  destruct (float_mod_range h) as [H0 H24].
  assert (Hh : _get_load_curve_factor cfg h == load_curve_spec cfg (float_mod h 24))
    by (apply load_curve_at; [reflexivity | assumption | assumption]).
  split; [exact Hh|]. split; [|split].
  - rewrite Hh. symmetry.
    apply load_curve_at; [apply float_mod_idem | assumption | assumption].
  - rewrite Hh. apply load_curve_at; [apply float_mod_period | assumption | assumption].
  - rewrite Hh. apply load_curve_at; [|assumption|assumption].
    rewrite <- (float_mod_period (h - 24)).
    apply float_mod_proper; [ring | reflexivity].
Qed.

(** The curve at half past five, half way up the morning ramp. *)
Lemma load_curve_is_piecewise_linear_witness :
  _get_load_curve_factor (from_yaml default_doc) (11 # 2)
  == load_curve_spec (from_yaml default_doc) (11 # 2)
  /\ forall h', h' == 11 # 2 ->
       _get_load_curve_factor (from_yaml default_doc) h'
       == _get_load_curve_factor (from_yaml default_doc) (11 # 2).
Proof.
  apply (load_curve_is_piecewise_linear (from_yaml default_doc) (11 # 2)); lra.
Defined.

(** ** The gateway relay *)

Section RelayClaims.
Context {G : Type} `{PyLib G}.

(** C1 (as the code has it).  A [publish] call that is not dropped runs the
    drain pass before it returns: the message is forwarded or queued, then
    every due entry at the head of the reorder buffer is popped and handed
    to the sink, and the entry left at the head, if any, is not due.  A
    dropped call returns [False] at once: it is counted and neither the
    buffer nor the sink changes. *)
Theorem publish_drains_unless_dropped
  (message : Reading.t) (s s' : Process G GatewayRelay) (ok : bool) :
  publish message s = (Returned ok, s') ->
  (Qltb (random_random (rng s)).1 (drop_prob (network_profile (self s))) = false ->
   ok = true /\ drained_after message s s')
  /\ (Qltb (random_random (rng s)).1 (drop_prob (network_profile (self s))) = true ->
      ok = false /\ dropped_by s s').
Proof.
  intros E. apply publish_spec in E as (_ & _ & Hrec & _ & _ & Hcase).
  split; intros Hd; rewrite Hd in Hcase.
  - destruct Hcase as (-> & _ & tnow & pending & direct & Hpend & Hnow & Hbuf & Hpub).
    split; [reflexivity|].
    exists tnow, pending, direct.
    split.
    { destruct Hpend as [(-> & -> & _) | (t & -> & -> & _)];
        [left; split; reflexivity | right; exists t; split; reflexivity]. }
    split; [exact Hnow|]. split; [exact Hbuf|]. split; [exact Hpub|].
    split; [apply take_due_all|].
    intros e rest Hhead. rewrite Hbuf in Hhead.
    eapply drop_due_head. exact Hhead.
  - destruct Hcase as (-> & Hdrop & _ & Hpub & Hbuf & _).
    split; [reflexivity|]. repeat split; assumption.
Qed.


(** Runs of a relay whose drop probability is one: every call is refused
    and nothing reaches the sink or the buffer. *)
Lemma relay_run_all_dropped (s s' : Process G GatewayRelay) (evs : list relay_event) :
  1 <= drop_prob (network_profile (self s)) ->
  relay_run s evs s' ->
  accepted evs = []
  /\ count_refused evs = count_publish evs
  /\ publisher (self s') = publisher (self s)
  /\ _reorder_buffer (self s') = _reorder_buffer (self s).
Proof.
  intros Hp Hrun.
  induction Hrun as [s | s message ok s1 evs s' Hpub Hrun IH
                       | s ok s1 evs s' Hc Hrun IH | s g c evs s' Hrun IH].
  - repeat split.
  - apply publish_spec in Hpub as (Hset & _ & _ & _ & _ & Hcase).
    destruct (random_random_range (rng s)) as [_ Hu].
    destruct (Qltb_reflect (random_random (rng s)).1 (drop_prob (network_profile (self s))))
      as [_|Hn]; [|lra].
    destruct Hcase as (-> & _ & _ & Hp1 & Hb1 & _).
    destruct IH as (Ha & Hc & Hp2 & Hb2).
    { destruct Hset as (_ & _ & _ & -> & _). exact Hp. }
    cbn [accepted count_refused count_publish].
    split; [exact Ha|]. split; [lia|]. split; congruence.
  - assert (Hs1 : network_profile (self s1) = network_profile (self s)
                  /\ publisher (self s1) = publisher (self s)
                  /\ _reorder_buffer (self s1) = _reorder_buffer (self s)).
    { destruct ok; got Hc tt s1; repeat split. }
    destruct Hs1 as (Hn1 & Hp1 & Hb1).
    destruct IH as (Ha & Hc' & Hp2 & Hb2); [rewrite Hn1; exact Hp|].
    cbn [accepted count_refused count_publish].
    split; [exact Ha|]. split; [exact Hc'|]. split; congruence.
  - apply IH. exact Hp.
Qed.

(** C3.  When the drop draw of a [publish] call is below the drop
    probability, the call returns [False], counts one received and one
    dropped message and leaves the sink and the buffer as they were; after
    any later run and the final flush the sink holds what the relay held
    before the call and the messages accepted later, so the dropped reading
    is never handed over.  With drop probability 1.0 every draw is below
    it, and along any run of a fresh relay every call is refused, the
    dropped counter is the number of calls, and the sink receives no call,
    also not at shutdown. *)
Theorem dropped_reading_is_never_forwarded :
  (forall (message : Reading.t) (s : Process G GatewayRelay),
     Qltb (random_random (rng s)).1 (drop_prob (network_profile (self s))) = true ->
     exists s',
       publish message s = (Returned false, s')
       /\ dropped_by s s'
       /\ forall evs s2, relay_run s' evs s2 ->
            exists s3, shutdown s2 = (Returned tt, s3)
              /\ _reorder_buffer (self s3) = []
              /\ map call_data (publisher (self s3)) ≡ₚ held (self s) ++ accepted evs)
  /\ (forall (s : Process G GatewayRelay),
        1 <= drop_prob (network_profile (self s)) ->
        Qltb (random_random (rng s)).1 (drop_prob (network_profile (self s))) = true)
  /\ (forall T (project topic : string) (np : NetworkProfile) (w w' : Process G T)
        (r : GatewayRelay) (evs : list relay_event) (s : Process G GatewayRelay),
        1 <= drop_prob np ->
        GatewayRelay__init__ project topic np w = (Returned r, w') ->
        relay_run (set_self r w') evs s ->
        accepted evs = []
        /\ messages_dropped (stats (self s)) = count_publish evs
        /\ publisher (self s) = []
        /\ exists s', shutdown s = (Returned tt, s') /\ publisher (self s') = []).
Proof.
  split; [|split].
  - intros message s Hd.
    destruct (publish_dropped message s Hd) as [s' E].
    exists s'. split; [exact E|].
    apply publish_spec in E as (_ & _ & Hrec & _ & _ & Hcase).
    rewrite Hd in Hcase. destruct Hcase as (_ & Hdrop & _ & Hpub & Hbuf & _).
    split; [repeat split; assumption|].
    intros evs s2 Hrun.
    apply relay_run_spec in Hrun as (_ & _ & _ & Hheld & _).
    destruct (shutdown_spec s2) as (s3 & E3 & _ & _ & _ & Hb3 & Hp3).
    exists s3. split; [exact E3|]. split; [exact Hb3|].
    rewrite Hp3, map_app, call_data_call_of.
    fold (held (self s2)). rewrite Hheld. unfold held. rewrite Hpub, Hbuf. reflexivity.
  - intros s Hp.
    destruct (random_random_range (rng s)) as [_ Hu].
    destruct (Qltb_reflect (random_random (rng s)).1 (drop_prob (network_profile (self s))))
      as [_|Hn]; [reflexivity|lra].
  - intros T project topic np w w' r evs s Hp Einit Hrun.
    unfold GatewayRelay__init__, GatewayStats__init__ in Einit.
    step Einit st s0 E0. step_eq E0 tnow s1. got E0 st s0. got Einit r w'.
    pose proof Hrun as Hrun'.
    apply relay_run_all_dropped in Hrun' as (Ha & Hc & Hpub & Hbuf); [|exact Hp].
    apply relay_run_spec in Hrun as (_ & _ & Hdrop & _ & _).
    cbn in Hpub, Hbuf, Hdrop.
    split; [exact Ha|]. split; [lia|]. split; [exact Hpub|].
    destruct (shutdown_spec s) as (s' & E & _ & _ & _ & _ & Hp').
    exists s'. split; [exact E|]. rewrite Hp', Hpub, Hbuf. reflexivity.
Qed.

End RelayClaims.

(** The second call on [relay_2] is dropped while the entry queued at time 1
    has been due since before the call (the clock read 50): the call
    returns with the entry still at the head of the buffer and nothing
    forwarded. *)
Lemma publish_dropped_skips_drain :
  (time_time relay_1).1 = Returned 50
  /\ publish (example_reading 2) relay_2 = (Returned false, relay_3)
  /\ _reorder_buffer (self relay_2) = [(1, example_reading 1)]
  /\ due (_reorder_delay_seconds (self relay_2)) 50 (1, example_reading 1) = true
  /\ _reorder_buffer (self relay_3) = [(1, example_reading 1)]
  /\ publisher (self relay_3) = [].
Proof. vm_compute. repeat split. Qed.

(** The first call on [relay_0] is not dropped: its drain pass ran. *)
Lemma publish_drains_unless_dropped_witness :
  drained_after (example_reading 1) relay_0 relay_1.
Proof.
  refine (proj2 (proj1 (publish_drains_unless_dropped
                          (example_reading 1) relay_0 relay_1 true _) _)).
  - vm_compute. reflexivity.
  - vm_compute. reflexivity.
Defined.



(** A relay with drop probability 1.0: the call is refused, and after two
    calls the sink has received nothing. *)
Lemma dropped_reading_is_never_forwarded_witness :
  (exists s', publish (example_reading 1) lossy_0 = (Returned false, s')
              /\ dropped_by lossy_0 s')
  /\ Qltb (random_random (rng lossy_1)).1 (drop_prob (network_profile (self lossy_1))) = true
  /\ publisher (self lossy_2) = [].
Proof.
  destruct (@dropped_reading_is_never_forwarded ScriptedRng _) as (Hdrop & Hone & Hrun).
  split; [|split].
  - destruct (Hdrop (example_reading 1) lossy_0) as (s' & E & Hd & _).
    + vm_compute. reflexivity.
    + exists s'. split; assumption.
  - apply Hone. vm_compute. discriminate.
  - refine (proj1 (proj2 (proj2 (Hrun unit "demo"%string "ami-meter-data"%string (example_profile 1 (1 # 2))
              (example_world [3 # 4; 1 # 4] [] [] [0; 1; 2; 3] [])
              (set_self tt lossy_0) (self lossy_0)
              [EvPublish (example_reading 1) false; EvPublish (example_reading 2) false]
              lossy_2 _ _ _)))).
    + vm_compute. discriminate.
    + vm_compute. reflexivity.
    + refine (relay_run_publish _ (example_reading 1) false lossy_1 _ _ _ _).
      * vm_compute. reflexivity.
      * refine (relay_run_publish _ (example_reading 2) false lossy_2 _ _ _ _).
        -- vm_compute. reflexivity.
        -- apply relay_run_nil.
Defined.

(** ** The simulator *)

Section SimulatorClaims.
Context {G : Type} `{PyLib G}.

(** C4 (as the code has it).  For a configuration whose range of sag
    durations is not empty and starts at one tick or more, and whose sag
    depth bounds are positive, in every state that a simulator reaches from
    its construction by calls of [generate_reading], returning or raising:
    every meter satisfies the sag invariant ([sag_remaining_seconds > 0]
    iff [in_sag], [sag_depth == 0] iff not [in_sag]); and when a call for a
    meter starts a sag, the sampled duration [d] lies in the configured
    range, the meter is flagged after that call and after each of its next
    [d - 1] calls, and the flag is cleared by its [d]-th call after the
    start. *)
Theorem sag_lasts_its_duration {T}
  (cfg : SimulatorConfig) (seed : option Z) (w w' : Process G T)
  (sim : MeterSimulator) (evs0 : list sim_event) (s0 : Process G MeterSimulator) :
  (1 <= sag_duration_min cfg <= sag_duration_max cfg)%Z ->
  0 < sag_depth_min cfg -> 0 < sag_depth_max cfg ->
  MeterSimulator__init__ cfg seed w = (Returned sim, w') ->
  sim_run (set_self sim w') evs0 s0 ->
  Forall sag_invariant (meters (self s0))
  /\ forall meter timestamp o s1 m0 m1,
       meters (self s0) !! meter = Some m0 ->
       MeterState.in_sag m0 = false ->
       generate_reading meter timestamp s0 = (o, s1) ->
       meters (self s1) !! meter = Some m1 ->
       MeterState.in_sag m1 = true ->
       let d := MeterState.sag_remaining_seconds m1 in
       (sag_duration_min cfg <= d <= sag_duration_max cfg)%Z
       /\ forall evs s m,
            sim_run s1 evs s ->
            meters (self s) !! meter = Some m ->
            let k := Z.of_nat (calls_of meter evs) in
            ((k < d)%Z -> MeterState.in_sag m = true)
            /\ (k = d -> MeterState.in_sag m = false).
Proof.
  intros [Hdur Hrange] Hmin Hmax Einit Hrun.
  destruct (MeterSimulator_init_spec sag_invariant cfg seed w w' sim
              sag_invariant_new Einit) as [Hcfg Hall].
  destruct (sim_run_forall sag_invariant cfg _ _ _
              (fun m adj m1 Hm Ht =>
                 sag_transition_invariant cfg m m1 adj Hdur Hmin Hmax Hm Ht)
              (fun m m1 Hm Hint =>
                 match Hint with
                 | sag_start_raised _ _ u _ _ _ Hempty =>
                     False_ind _ (Z.lt_irrefl _ (Z.le_lt_trans _ _ _ Hrange Hempty))
                 end)
              (fun m n Hm => sag_invariant_set_seq n m Hm)
              Hrun Hcfg Hall) as [Hcfg0 Hall0].
  split; [exact Hall0|].
  intros meter timestamp o s1 m0 m1 Hm0 Hin0 Hg Hm1 Hin1 d.
  destruct (generate_reading_transition _ _ _ _ _ _ Hg Hm0)
    as [(adj & mt & Ht & Hcase)|(mt & Hint & _)].
  2:{ rewrite Hcfg0 in Hint. destruct Hint as [u _ _ _ Hempty]. lia. }
  rewrite Hcfg0 in Ht.
  assert (Hd : MeterState.in_sag mt = true
               /\ MeterState.sag_remaining_seconds mt = d).
  { destruct Hcase as [Hc|Hc]; rewrite Hc in Hm1; injection Hm1 as <-;
      split; try reflexivity; exact Hin1. }
  destruct Hd as [Hint Hdt].
  destruct Ht as [Hc _ | Hc _ | _ | u d0 _ _ _ Hd0]; cbn in Hint; try congruence.
  cbn in Hdt. subst d0.
  split; [exact Hd0|].
  intros evs s m Hrun1 Hm.
  destruct (sagging_ticks meter s1 s evs Hrun1 _ Hm1 Hin1 ltac:(fold d; lia))
    as [Hlt Heq].
  fold d in Hlt, Heq. cbv zeta in Hlt, Heq. split; intros Hk.
  - destruct (Hlt Hk) as (m' & Hm' & Hin' & _). congruence.
  - destruct (Heq Hk) as (m' & Hm' & Hin' & _). congruence.
Qed.


Lemma batch_loop_event_ts (indices : list nat) (timestamp : datetime)
  (s s' : Process G MeterSimulator) (readings : list Reading.t) :
  batch_loop indices timestamp s = (Returned readings, s') ->
  Forall (fun r => Reading.event_ts r = isoformat timestamp) readings.
Proof.
  revert s s' readings. induction indices as [|i rest IH]; intros s s' readings E.
  - got E readings s'. constructor.
  - cbn [batch_loop] in E. step E r s1 E1. step E rs s2 E2. got E readings s'.
    constructor; [|eapply IH; exact E2].
    apply generate_reading_spec in E1 as (_ & Hts & _). exact Hts.
Qed.

(** C7 (as the code has it).  For a fixed seed, the same configuration and
    the same clock, two runs of the simulator yield the same readings
    whatever the state of the process-wide random source before the
    constructor seeds it; the readings are not a function of the seed and
    the configuration alone, since every reading of a batch carries the
    timestamp of the batch, which [stream_readings] takes from the clock.
    At a given timestamp, and with forced sags off, a batch depends neither
    on the clock nor on the time of the last forced sag. *)
Theorem seeded_run_is_deterministic
  (cfg : SimulatorConfig) (seed : Z) (duration_seconds : Z) (cycles : nat)
  (g1 g2 : G) (c : Clock) :
  simulator_run cfg (Some seed) duration_seconds cycles {| rng := g1; clock := c; self := tt |}
  = simulator_run cfg (Some seed) duration_seconds cycles {| rng := g2; clock := c; self := tt |}
  /\ (forall (timestamp : option datetime) (s s' : Process G MeterSimulator) readings,
       generate_batch timestamp s = (Returned readings, s') ->
       Forall (fun r => Reading.event_ts r
                        = isoformat (match timestamp with
                                     | Some t => t
                                     | None => now_script (clock s) (now_reads (clock s))
                                     end)) readings)
  /\ forall (timestamp : datetime) (s : Process G MeterSimulator) (c' : Clock) (t : Q),
       (force_sag_interval (config (self s)) <= 0)%Z ->
       generate_batch (Some timestamp) (reclock c' t s)
       = reclocked c' t (generate_batch (Some timestamp) s).
Proof.
  split; [reflexivity|]. split.
  - intros timestamp s s' readings E. unfold generate_batch in E.
    step E ts s0 E0. step_eq E ms s1.
    apply batch_loop_event_ts in E.
    destruct timestamp as [t|]; got E0 ts s0; exact E.
  - intros timestamp s c' t Hforce.
    apply (clock_blind_generate_batch timestamp s Hforce).
Qed.

(** C8 (as the code has it).  In a simulator constructed from a
    configuration with [0 <= sag_depth_min <= sag_depth_max], in every state
    that it reaches, the voltage of every reading is
    the nominal voltage plus the noise term plus the sag offset, the offset
    lies in [- sag_depth_max, 0], and for a bound [max_noise] on the
    magnitude of the noise term the voltage lies in
    [nominal - max_noise - sag_depth_max, nominal + max_noise]; the record
    holds the voltage rounded to two decimals, which is within 0.005 of it
    and lies in the same interval when the bounds of the interval have two
    decimals. *)
Theorem voltage_within_bounds {T}
  (cfg : SimulatorConfig) (seed : option Z) (w w' : Process G T)
  (sim : MeterSimulator) (evs : list sim_event) (s s' : Process G MeterSimulator)
  (meter : nat) (m : MeterState.t) (timestamp : datetime) (r : Reading.t)
  (max_noise : Q) :
  0 <= sag_depth_min cfg -> sag_depth_min cfg <= sag_depth_max cfg ->
  MeterSimulator__init__ cfg seed w = (Returned sim, w') ->
  sim_run (set_self sim w') evs s ->
  meters (self s) !! meter = Some m ->
  generate_reading meter timestamp s = (Returned r, s') ->
  let noise := 0 + (random_normal (random_normal (rng s)).2).1 * voltage_noise_std cfg in
  Qabs noise <= max_noise ->
  exists offset,
    let v := voltage_nominal cfg + noise + offset in
    - sag_depth_max cfg <= offset /\ offset <= 0
    /\ Reading.voltage_v r = py_round v 2
    /\ voltage_nominal cfg - max_noise - sag_depth_max cfg <= v
    /\ v <= voltage_nominal cfg + max_noise
    /\ voltage_nominal cfg - max_noise - sag_depth_max cfg - (1 # 200) <= Reading.voltage_v r
    /\ Reading.voltage_v r <= voltage_nominal cfg + max_noise + (1 # 200)
    /\ forall lo hi : Z,
         voltage_nominal cfg - max_noise - sag_depth_max cfg == inject_Z lo / 100 ->
         voltage_nominal cfg + max_noise == inject_Z hi / 100 ->
         voltage_nominal cfg - max_noise - sag_depth_max cfg <= Reading.voltage_v r
         /\ Reading.voltage_v r <= voltage_nominal cfg + max_noise.
Proof.
  intros Hmin Hmax Einit Hrun Hm E noise Hnoise.
  assert (Hnew : forall mid pid mf pf, depth_bounded cfg (MeterState.new mid pid mf pf)).
  { intros. unfold depth_bounded. cbn. lra. }
  destruct (MeterSimulator_init_spec (depth_bounded cfg) cfg seed w w' sim Hnew Einit)
    as [Hcfg Hall].
  destruct (sim_run_forall (depth_bounded cfg) cfg _ _ _
              (fun m0 adj m1 Hm0 Ht =>
                 proj1 (sag_transition_depth cfg m0 m1 adj Hmin Hmax Hm0 Ht))
              (fun m0 m1 _ Hint => sag_interrupted_depth cfg m0 m1 Hmin Hmax Hint)
              (fun m0 n Hm0 => Hm0)
              Hrun Hcfg Hall) as [Hcfg0 Hall0].
  pose proof (Forall_lookup_1 _ _ _ _ Hall0 Hm) as Hdm.
  apply generate_reading_spec in E as (_ & _ & adj & F & _ & HFm).
  destruct (HFm m Hm) as (m1 & Ht & _ & _ & Hv & _).
  rewrite Hcfg0 in Ht, Hv.
  destruct (sag_transition_depth cfg m m1 adj Hmin Hmax Hdm Ht) as (_ & Hlo & Hhi).
  apply Qabs_Qle_condition in Hnoise as [Hn0 Hn1].
  exists adj. cbv zeta. unfold computed_voltage in Hv. fold noise in Hv.
  pose proof (py_round_2_error (voltage_nominal cfg + noise + adj)) as [Hr0 Hr1].
  rewrite Hv. repeat (split; [lra || reflexivity|]).
  intros lo hi Hlo' Hhi'.
  destruct (py_round_keeps_bounds (voltage_nominal cfg + noise + adj) 2 lo) as [Hkeep _].
  destruct (py_round_keeps_bounds (voltage_nominal cfg + noise + adj) 2 hi) as [_ Hkeep'].
  change (inject_Z (10 ^ Z.of_nat 2)) with 100 in Hkeep, Hkeep'.
  rewrite Hlo', Hhi'. split; [apply Hkeep|apply Hkeep']; lra.
Qed.



End SimulatorClaims.

(** With the duration range [0, 0] a tick starts a sag of [d = 0] ticks:
    the meter is flagged after the tick although no tick remains, against
    the invariant, and it is flagged for one tick, not for [d]. *)
Lemma zero_duration_sag_is_flagged :
  sag_duration_min (config (self zero_0)) = 0%Z
  /\ sag_duration_max (config (self zero_0)) = 0%Z
  /\ MeterState.in_sag (meters (self zero_0) !!! 0%nat) = false
  /\ (exists r, generate_reading 0 noon zero_0 = (Returned r, zero_1))
  /\ MeterState.in_sag (meters (self zero_1) !!! 0%nat) = true
  /\ MeterState.sag_remaining_seconds (meters (self zero_1) !!! 0%nat) = 0%Z
  /\ ~ sag_invariant (meters (self zero_1) !!! 0%nat).
Proof.
  split; [reflexivity|]. split; [reflexivity|]. split; [reflexivity|].
  split; [eexists; vm_compute; reflexivity|].
  split; [reflexivity|]. split; [reflexivity|].
  intros [Hrem _].
  assert (Hin : MeterState.in_sag (meters (self zero_1) !!! 0%nat) = true) by reflexivity.
  apply Hrem in Hin. vm_compute in Hin. discriminate.
Qed.

(** A simulator whose sags last three ticks: the first call starts a sag
    of three ticks, the meter is flagged after two more calls and cleared
    by the third. *)
Lemma sag_lasts_its_duration_witness :
  MeterState.in_sag (meters (self sagging_0) !!! 0%nat) = false
  /\ (3 <= MeterState.sag_remaining_seconds (meters (self sagging_1) !!! 0%nat) <= 3)%Z
  /\ MeterState.in_sag (meters (self sagging_3) !!! 0%nat) = true
  /\ MeterState.in_sag (meters (self sagging_4) !!! 0%nat) = false.
Proof.
  destruct (sag_lasts_its_duration (T := unit)
              (from_yaml (one_meter_doc (Some (always_sag 10 30 3 3)) None)) (Some 42%Z)
              (example_world [] [] [] [] []) (set_self tt sagging_0) (self sagging_0)
              [] sagging_0) as [_ Hstart].
  - vm_compute. split; discriminate.
  - vm_compute. reflexivity.
  - vm_compute. reflexivity.
  - vm_compute. reflexivity.
  - apply sim_run_nil.
  - destruct (Hstart 0%nat noon (Returned (reading_at sagging_0)) sagging_1
                (meters (self sagging_0) !!! 0%nat) (meters (self sagging_1) !!! 0%nat))
      as [Hd Hticks].
    + vm_compute. reflexivity.
    + vm_compute. reflexivity.
    + vm_compute. reflexivity.
    + vm_compute. reflexivity.
    + vm_compute. reflexivity.
    + split; [vm_compute; reflexivity|]. split; [exact Hd|]. split.
      * refine (proj1 (Hticks [EvReading 0 (reading_at sagging_1);
                               EvReading 0 (reading_at sagging_2)]
                         sagging_3 (meters (self sagging_3) !!! 0%nat) _ _) _).
        -- refine (sim_run_reading _ 0%nat noon _ sagging_2 _ _ _ _);
             [vm_compute; reflexivity|].
           refine (sim_run_reading _ 0%nat noon _ sagging_3 _ _ _ _);
             [vm_compute; reflexivity|apply sim_run_nil].
        -- vm_compute. reflexivity.
        -- vm_compute. reflexivity.
      * refine (proj2 (Hticks [EvReading 0 (reading_at sagging_1);
                               EvReading 0 (reading_at sagging_2);
                               EvReading 0 (reading_at sagging_3)]
                         sagging_4 (meters (self sagging_4) !!! 0%nat) _ _) _).
        -- refine (sim_run_reading _ 0%nat noon _ sagging_2 _ _ _ _);
             [vm_compute; reflexivity|].
           refine (sim_run_reading _ 0%nat noon _ sagging_3 _ _ _ _);
             [vm_compute; reflexivity|].
           refine (sim_run_reading _ 0%nat noon _ sagging_4 _ _ _ _);
             [vm_compute; reflexivity|apply sim_run_nil].
        -- vm_compute. reflexivity.
        -- vm_compute. reflexivity.
Defined.

(** With an empty range of sag durations the call that starts a sag
    raises: the meter is left flagged with no tick remaining. *)
Lemma empty_duration_range_interrupts_the_start :
  (sag_duration_max (config (self empty_duration_sim))
   < sag_duration_min (config (self empty_duration_sim)))%Z
  /\ (generate_reading 0 noon empty_duration_sim).1 = Raised ValueError
  /\ MeterState.in_sag
       (meters (self (after (generate_reading 0 noon) empty_duration_sim)) !!! 0%nat) = true
  /\ MeterState.sag_remaining_seconds
       (meters (self (after (generate_reading 0 noon) empty_duration_sim)) !!! 0%nat) = 0%Z.
Proof. vm_compute. repeat split. Qed.


(** A power factor of 1e-200 at a voltage of 1e-200 volts: both are
    positive, their product underflows, and the first reading divides by
    zero. *)
Lemma small_power_factor_underflows :
  0 < MeterState.power_factor (meters (self underflow_0) !!! 0%nat)
  /\ 0 < voltage_nominal (config (self underflow_0))
  /\ (generate_reading 0 noon underflow_0).1 = Raised ZeroDivisionError.
Proof. vm_compute. repeat split. Qed.


(** Two runs with the same seed and the same configuration, started at
    noon and at one o'clock: the readings differ. *)
Lemma seeded_runs_differ_with_the_clock :
  exists r1 r2,
    simulator_run (from_yaml (one_meter_doc None None)) (Some 42%Z) 0 1
      (example_world [] [] [] [] [noon]) = Returned [r1]
    /\ simulator_run (from_yaml (one_meter_doc None None)) (Some 42%Z) 0 1
         (example_world [] [] [] [] [one_pm]) = Returned [r2]
    /\ Reading.event_ts r1 = "2025-12-26T12:00:00+00:00"%string
    /\ Reading.event_ts r2 = "2025-12-26T13:00:00+00:00"%string
    /\ r1 <> r2.
Proof.
  eexists _, _. split; [vm_compute; reflexivity|]. split; [vm_compute; reflexivity|].
  split; [reflexivity|]. split; [reflexivity|]. discriminate.
Qed.

(** A sag depth range of 30 to 10 volts: the first reading, whose noise
    term is 0.6 volts, sags by 17 volts, more than [sag_depth_max], and its
    voltage of 223.6 volts is below [nominal - 1 - sag_depth_max]. *)
Lemma inverted_depth_range_leaves_the_interval :
  sag_depth_max (config (self inverted_sim)) < sag_depth_min (config (self inverted_sim))
  /\ Qabs (0 + (random_normal (random_normal (rng inverted_sim)).2).1
               * voltage_noise_std (config (self inverted_sim))) <= 1
  /\ Reading.voltage_v (reading_at inverted_sim) == 2236 # 10
  /\ (generate_reading 0 noon inverted_sim).1 = Returned (reading_at inverted_sim)
  /\ Reading.voltage_v (reading_at inverted_sim)
     < voltage_nominal (config (self inverted_sim)) - 1
       - sag_depth_max (config (self inverted_sim)).
Proof.
  split; [vm_compute; reflexivity|]. split; [vm_compute; discriminate|].
  split; [vm_compute; reflexivity|]. split; [vm_compute; reflexivity|].
  vm_compute. reflexivity.
Qed.

(** The first reading of the default configuration, with the noise bounded
    by four standard deviations. *)
Lemma voltage_within_bounds_witness :
  exists offset,
    let cfg := from_yaml (one_meter_doc None None) in
    let noise := 0 + (random_normal (random_normal (rng plain_0)).2).1
                     * voltage_noise_std cfg in
    let v := voltage_nominal cfg + noise + offset in
    - sag_depth_max cfg <= offset /\ offset <= 0
    /\ Reading.voltage_v (example_first_reading) = py_round v 2
    /\ voltage_nominal cfg - 12 - sag_depth_max cfg <= v
    /\ v <= voltage_nominal cfg + 12
    /\ voltage_nominal cfg - 12 - sag_depth_max cfg - (1 # 200)
       <= Reading.voltage_v (example_first_reading)
    /\ Reading.voltage_v (example_first_reading) <= voltage_nominal cfg + 12 + (1 # 200)
    /\ forall lo hi : Z,
         voltage_nominal cfg - 12 - sag_depth_max cfg == inject_Z lo / 100 ->
         voltage_nominal cfg + 12 == inject_Z hi / 100 ->
         voltage_nominal cfg - 12 - sag_depth_max cfg
         <= Reading.voltage_v (example_first_reading)
         /\ Reading.voltage_v (example_first_reading) <= voltage_nominal cfg + 12.
Proof.
  refine (voltage_within_bounds (T := unit)
            (from_yaml (one_meter_doc None None)) (Some 42%Z)
            (example_world [] [] [] [] []) (set_self tt plain_0) (self plain_0)
            [] plain_0 (after (generate_reading 0 noon) plain_0)
            0 (meters (self plain_0) !!! 0%nat) noon example_first_reading 12
            _ _ _ _ _ _ _).
  - vm_compute. discriminate.
  - vm_compute. discriminate.
  - vm_compute. reflexivity.
  - apply sim_run_nil.
  - vm_compute. reflexivity.
  - vm_compute. reflexivity.
  - vm_compute. discriminate.
Defined.



(** The batch generated at noon carries the timestamp of noon. *)
Lemma seeded_run_is_deterministic_witness :
  Forall (fun r => Reading.event_ts r = isoformat noon) [example_first_reading]
  /\ generate_batch (Some noon) (reclock (clock_of [5] [one_pm]) 7 plain_0)
     = reclocked (clock_of [5] [one_pm]) 7 (generate_batch (Some noon) plain_0).
Proof.
  pose proof (seeded_run_is_deterministic (from_yaml default_doc) 42 0 1
                (scripted [] [] []) (scripted [1 # 2] [] []) (clock_of [] [])) as [_ [Hts Hclock]].
  split.
  - refine (Hts (Some noon) plain_0 (after (generate_batch (Some noon)) plain_0)
              [example_first_reading] _).
    vm_compute. reflexivity.
  - refine (Hclock noon plain_0 (clock_of [5] [one_pm]) 7 _).
    vm_compute. discriminate.
Defined.

(** ** Further properties of the gateway relay *)

Section RelayProperties.
Context {G : Type} `{PyLib G}.

(** X1.  [get_latency_ms] returns for a profile whose latency range is not
    empty and whose jitter is not negative: the result is at least 1 and
    lies between [max(1, latency_ms_min - jitter_ms)] and
    [max(1, latency_ms_max + jitter_ms)]; only the random state changes.
    For any other profile it raises ValueError. *)
Theorem latency_is_clamped_to_one_millisecond {T} (np : NetworkProfile) (s : Process G T) :
  (valid_profile np ->
   exists n s',
     get_latency_ms np s = (Returned n, s')
     /\ (1 <= n)%Z
     /\ (py_max_int 1 (latency_ms_min np - jitter_ms np) <= n
         <= py_max_int 1 (latency_ms_max np + jitter_ms np))%Z
     /\ clock s' = clock s /\ self s' = self s)
  /\ (~ valid_profile np ->
      exists s',
        get_latency_ms np s = (Raised ValueError, s')
        /\ clock s' = clock s /\ self s' = self s).
Proof.
  split.
  - intros Hv. destruct (get_latency_ms_returns np s Hv) as (n & g & E & _).
    exists n, (set_rng g s). split; [exact E|].
    apply get_latency_ms_inv in E as (_ & Hr & H1 & Hc & Hs).
    split; [exact H1|]. split; [exact Hr|]. split; assumption.
  - apply get_latency_ms_raises.
Qed.

(** X2.  [get_summary] always returns: the rate divides by
    [max(1, elapsed)], which is never zero.  It reads the clock once and
    changes nothing else, reports the five counters as they are, the elapsed
    time rounded to one decimal and the rate rounded to two.  During the
    first second (and when the clock went back) the rate is the number of
    published messages; it is never above that number. *)
Theorem summary_never_divides_by_zero (s : Process G GatewayRelay) :
  let st := stats (self s) in
  let elapsed := time_script (clock s) (time_reads (clock s)) - start_time st in
  exists sm,
    get_summary s = (Returned sm, set_clock (clock_after_read (clock s)) s)
    /\ sum_messages_received sm = messages_received st
    /\ sum_messages_published sm = messages_published st
    /\ sum_messages_dropped sm = messages_dropped st
    /\ sum_messages_reordered sm = messages_reordered st
    /\ sum_publish_errors sm = publish_errors st
    /\ elapsed_seconds sm = py_round elapsed 1
    /\ publish_rate_per_sec sm
       = py_round (inject_Z (messages_published st) / py_max 1 elapsed) 2
    /\ (elapsed <= 1 -> publish_rate_per_sec sm == inject_Z (messages_published st))
    /\ ((0 <= messages_published st)%Z ->
        0 <= publish_rate_per_sec sm
        /\ publish_rate_per_sec sm <= inject_Z (messages_published st)).
Proof.
  intros st elapsed.
  pose proof (py_max_ge 1 elapsed) as [Hmax1 Hmax2].
  unfold get_summary, time_time. run1. run1.
  erewrite bind_step by (apply float_div_eq; cbn [self set_clock]; fold st elapsed; lra).
  eexists. split; [reflexivity|]. cbn [self set_clock]. fold st elapsed.
  cbn [sum_messages_received sum_messages_published sum_messages_dropped
       sum_messages_reordered sum_publish_errors elapsed_seconds publish_rate_per_sec].
  repeat (split; [reflexivity|]).
  split.
  - intros He. unfold py_max. destruct (Qlt_le_dec 1 elapsed); [lra|].
    rewrite (py_round_proper _ (inject_Z (messages_published st)))
      by (field).
    apply py_round_int.
  - intros Hp. assert (0 <= inject_Z (messages_published st)) as Hp'
      by (change 0 with (inject_Z 0); rewrite <- Zle_Qle; exact Hp).
    assert (Hq : 0 <= inject_Z (messages_published st) / py_max 1 elapsed
                 /\ inject_Z (messages_published st) / py_max 1 elapsed
                    <= inject_Z (messages_published st)).
    { split.
      - apply Qle_shift_div_l; lra.
      - apply Qle_shift_div_r; [lra|]. nra. }
    destruct Hq as [Hq0 Hq1]. split.
    + apply py_round_nonneg. exact Hq0.
    + apply Qle_trans with (py_round (inject_Z (messages_published st)) 2);
        [apply py_round_mono; exact Hq1|].
      apply Qle_lteq. right. apply py_round_int.
Qed.

(** X3.  When the reorder buffer is in arrival order,
    [_process_reorder_buffer] forwards every entry that is due at its
    reading of the clock, in buffer order, and keeps the others: no due
    entry is left behind, and the counters are untouched. *)
Theorem drain_forwards_every_due_entry (s : Process G GatewayRelay) :
  arrival_ordered (_reorder_buffer (self s)) ->
  let tnow := time_script (clock s) (time_reads (clock s)) in
  let delay := _reorder_delay_seconds (self s) in
  exists s',
    _process_reorder_buffer s = (Returned tt, s')
    /\ publisher (self s')
       = publisher (self s)
         ++ map (call_of (self s))
              (map snd (List.filter (due delay tnow) (_reorder_buffer (self s))))
    /\ _reorder_buffer (self s')
       = List.filter (fun e => negb (due delay tnow e)) (_reorder_buffer (self s))
    /\ Forall (fun e => due delay tnow e = false) (_reorder_buffer (self s'))
    /\ arrival_ordered (_reorder_buffer (self s'))
    /\ stats (self s') = stats (self s).
Proof.
  intros Hord tnow delay.
  destruct (process_reorder_buffer_clock s)
    as (s' & E & _ & _ & Hst & _ & _ & Hbuf & Hpub).
  fold tnow delay in Hbuf, Hpub.
  destruct (take_due_filter delay tnow _ Hord) as [Htake Hdrop].
  exists s'. split; [exact E|].
  split; [rewrite Hpub, Htake; reflexivity|].
  split; [rewrite Hbuf, Hdrop; reflexivity|].
  split; [rewrite Hbuf; apply drop_due_none_left; exact Hord|].
  split; [rewrite Hbuf; apply arrival_ordered_drop_due; exact Hord|exact Hst].
Qed.

(** X4.  With a clock that never goes back, [publish] keeps the reorder
    buffer in arrival order (and no entry is queued after the next reading
    of the clock); after a call that is not dropped, no entry that was due
    at the last reading of the clock, the one of the drain pass, is still
    buffered. *)
Theorem publish_keeps_arrival_order
  (message : Reading.t) (s s' : Process G GatewayRelay) (ok : bool) :
  monotone_clock (clock s) ->
  buffer_behind_clock s ->
  publish message s = (Returned ok, s') ->
  monotone_clock (clock s')
  /\ buffer_behind_clock s'
  /\ (ok = true ->
      Forall (fun e => due (_reorder_delay_seconds (self s))
                           (time_script (clock s') (Nat.pred (time_reads (clock s')))) e
                       = false)
             (_reorder_buffer (self s'))).
Proof.
  intros Hmono [Hord Hbehind] E.
  pose proof E as E'. apply publish_spec in E' as (_ & _ & _ & _ & _ & Hdrop).
  apply publish_effects in E as (Hscript & _ & _ & _ & Hcase).
  assert (Hmono' : monotone_clock (clock s')).
  { unfold monotone_clock. rewrite Hscript. exact Hmono. }
  split; [exact Hmono'|].
  destruct (Qltb _ _).
  - destruct Hcase as (-> & Hc). destruct Hdrop as (_ & _ & _ & _ & Hbuf & _).
    split; [|discriminate]. unfold buffer_behind_clock. rewrite Hbuf, Hc.
    split; assumption.
  - destruct Hcase as (-> & _ & latency & u & _ & _ & _ & _ & _ & Hcase).
    destruct (Qltb u _).
    + destruct Hcase as (Hreads & _ & Hbuf & _).
      set (t := time_script (clock s) (time_reads (clock s))) in *.
      assert (Hord1 : arrival_ordered (_reorder_buffer (self s) ++ [(t, message)])).
      { apply arrival_ordered_app. split; [exact Hord|].
        split; [cbn; split; [constructor|exact I]|].
        eapply Forall_impl; [exact Hbehind|]. intros e He.
        constructor; [exact He|constructor]. }
      unfold buffer_behind_clock. rewrite Hbuf, Hscript, Hreads. cbn [Nat.pred].
      split; [split|].
      * apply arrival_ordered_drop_due. exact Hord1.
      * apply Forall_drop_due. apply Forall_app. split.
        -- eapply Forall_impl; [exact Hbehind|]. intros e He. cbn in He.
           pose proof (Hmono (time_reads (clock s)) (S (S (time_reads (clock s))))
                         ltac:(lia)). fold t in H0. lra.
        -- constructor; [|constructor]. cbn.
           apply (Hmono (time_reads (clock s)) (S (S (time_reads (clock s))))). lia.
      * intros _. apply drop_due_none_left. exact Hord1.
    + destruct Hcase as (Hreads & _ & Hbuf & _).
      unfold buffer_behind_clock. rewrite Hbuf, Hscript, Hreads. cbn [Nat.pred].
      split; [split|].
      * apply arrival_ordered_drop_due. exact Hord.
      * apply Forall_drop_due.
        eapply Forall_impl; [exact Hbehind|]. intros e He. cbn in He.
        pose proof (Hmono (time_reads (clock s)) (S (time_reads (clock s)))
                      ltac:(lia)). lra.
      * intros _. apply drop_due_none_left. exact Hord.
Qed.

(** X5.  [flush] hands the buffered messages to the sink in buffer order
    and changes neither the counters nor the clock nor the random state;
    [shutdown] does the same and sets the flag.  A second [shutdown] (the
    signal handler and the [finally] clause of [run_with_simulator] both
    call it) forwards nothing more. *)
Theorem shutdown_twice_forwards_once (s : Process G GatewayRelay) :
  exists s0 s1 s2,
    flush s = (Returned tt, s0)
    /\ publisher (self s0)
       = publisher (self s) ++ map (call_of (self s)) (map snd (_reorder_buffer (self s)))
    /\ _reorder_buffer (self s0) = []
    /\ stats (self s0) = stats (self s) /\ clock s0 = clock s /\ rng s0 = rng s
    /\ shutdown s = (Returned tt, s1)
    /\ publisher (self s1) = publisher (self s0)
    /\ _shutdown (self s1) = true
    /\ shutdown s1 = (Returned tt, s2)
    /\ publisher (self s2) = publisher (self s1)
    /\ _reorder_buffer (self s2) = []
    /\ stats (self s2) = stats (self s)
    /\ _shutdown (self s2) = true.
Proof.
  destruct (flush_spec s) as (s0 & E0 & Hg0 & Hc0 & Hst0 & _ & _ & Hb0 & Hp0).
  destruct (shutdown_spec s) as (s1 & E1 & Hst1 & Hsh1 & _ & Hb1 & Hp1).
  destruct (shutdown_spec s1) as (s2 & E2 & Hst2 & Hsh2 & _ & Hb2 & Hp2).
  exists s0, s1, s2.
  rewrite Hb1 in Hp2. cbn in Hp2. rewrite app_nil_r in Hp2.
  repeat (split; [assumption || congruence|]). exact Hsh2.
Qed.


(** X7.  The counters of a relay are consistent in every state that it
    reaches from its construction: dropped messages are among the received
    ones, reordered messages among those that were not dropped, the buffer
    holds no more messages than were reordered, the published and the error
    counter count the delivery confirmations by outcome, and the start time
    is the clock reading of the construction. *)
Theorem relay_counters_are_consistent {T}
  (project topic : string) (np : NetworkProfile) (w w' : Process G T)
  (r : GatewayRelay) (evs : list relay_event) (s : Process G GatewayRelay) :
  GatewayRelay__init__ project topic np w = (Returned r, w') ->
  relay_run (set_self r w') evs s ->
  let st := stats (self s) in
  (0 <= messages_dropped st <= messages_received st)%Z
  /\ (0 <= messages_reordered st <= messages_received st - messages_dropped st)%Z
  /\ (Z.of_nat (length (_reorder_buffer (self s))) <= messages_reordered st)%Z
  /\ messages_published st = count_callbacks true evs
  /\ publish_errors st = count_callbacks false evs
  /\ start_time st = time_script (clock w) (time_reads (clock w)).
Proof.
  intros Einit Hrun st. apply init_relay_spec in Einit as [-> ->].
  pose proof (count_refused_le evs) as Hle.
  pose proof (relay_run_counters _ _ _ Hrun) as (Hr0 & Hr1 & Hb & Hpub & Herr & Hstart).
  apply relay_run_spec in Hrun as (_ & Hrec & Hdrop & _).
  cbn in Hr0, Hr1, Hb, Hpub, Herr, Hstart, Hrec, Hdrop. subst st.
  repeat split; try lia; assumption.
Qed.

(** X8.  Every call that the sink of a constructed relay receives, during a
    run or at shutdown, is addressed to
    [projects/<project_id>/topics/<topic_name>] and carries as attributes
    the meter and the pole of its own message and the name of the network
    profile. *)
Theorem sink_calls_are_well_addressed {T}
  (project topic : string) (np : NetworkProfile) (w w' : Process G T)
  (r : GatewayRelay) (evs : list relay_event) (s : Process G GatewayRelay) :
  GatewayRelay__init__ project topic np w = (Returned r, w') ->
  relay_run (set_self r w') evs s ->
  Forall (well_addressed project topic np) (publisher (self s))
  /\ exists s', shutdown s = (Returned tt, s')
       /\ Forall (well_addressed project topic np) (publisher (self s')).
Proof.
  intros Einit Hrun. apply init_relay_spec in Einit as [-> ->].
  pose proof (relay_run_spec _ _ _ Hrun) as (Hset & _).
  apply relay_run_sink in Hrun as (msgs & Hsink). cbn in Hsink, Hset.
  assert (Hcalls : forall r0 l, same_setup r0 (self s) ->
            topic_path r0 = ("projects/" ++ project ++ "/topics/" ++ topic)%string ->
            network_profile r0 = np ->
            Forall (well_addressed project topic np) (map (call_of r0) l)).
  { intros r0 l _ Hpath Hnp. apply Forall_map, Forall_forall. intros m _.
    unfold well_addressed, call_of. cbn. rewrite Hpath, Hnp. repeat split. }
  assert (Hs : Forall (well_addressed project topic np) (publisher (self s))).
  { rewrite Hsink. apply Hcalls; [exact Hset|reflexivity|reflexivity]. }
  split; [exact Hs|].
  destruct (shutdown_spec s) as (s' & E & _ & _ & _ & _ & Hpub).
  exists s'. split; [exact E|]. rewrite Hpub. apply Forall_app. split; [exact Hs|].
  destruct Hset as (_ & _ & Hpath & Hnp & _).
  apply Hcalls; [apply same_setup_refl|exact Hpath|exact Hnp].
Qed.


(** X10.  A [publish] call that is dropped returns without sleeping and
    without reading the clock.  A call that is not dropped sleeps for the
    sampled latency, at least one millisecond and at most
    [max(1, latency_ms_max + jitter_ms)] milliseconds, and reads the clock
    once, or twice when the message is queued for reordering. *)
Theorem publish_sleeps_for_the_latency
  (message : Reading.t) (s s' : Process G GatewayRelay) (ok : bool) :
  publish message s = (Returned ok, s') ->
  let np := network_profile (self s) in
  (ok = false -> clock s' = clock s)
  /\ (ok = true ->
      exists latency : Z,
        (1 <= latency <= py_max_int 1 (latency_ms_max np + jitter_ms np))%Z
        /\ slept (clock s') = slept (clock s) + inject_Z latency / 1000
        /\ (time_reads (clock s') = S (time_reads (clock s))
            \/ time_reads (clock s') = S (S (time_reads (clock s))))).
Proof.
  intros E np. apply publish_effects in E as (_ & _ & _ & _ & Hcase).
  destruct (Qltb _ _).
  - destruct Hcase as (-> & Hc). split; [intros _; exact Hc|discriminate].
  - destruct Hcase as (-> & _ & latency & u & Hlat & Hlat1 & _ & _ & Hslept & Hcase).
    split; [discriminate|]. intros _. exists latency.
    split; [fold np in Hlat; lia|]. split; [exact Hslept|].
    destruct (Qltb u _); destruct Hcase as (Hreads & _); [right|left]; exact Hreads.
Qed.

End RelayProperties.

(** ** Examples for the further properties of the relay *)

(** The steady clock never goes back. *)
Lemma steady_clock_monotone (c : Clock) :
  time_script c = time_script steady_clock -> monotone_clock c.
Proof.
  intros Hc i j Hij. rewrite Hc. cbn. rewrite <- Zle_Qle. lia.
Qed.

(** The construction of [relay_0], and its run of two calls with a reading
    of the clock in between. *)
Lemma relay_0_constructed :
  GatewayRelay__init__ "demo" "ami-meter-data" (example_profile (1 # 2) (1 # 2))
    (example_world [3 # 4; 0; 0] [] [] [0; 1; 1; 50; 100] [])
  = (Returned (self relay_0), set_self tt relay_0).
Proof. vm_compute. reflexivity. Qed.

Lemma relay_0_runs :
  relay_run (set_self (self relay_0) (set_self tt relay_0))
    [EvPublish (example_reading 1) true; EvWorld; EvPublish (example_reading 2) false]
    relay_3.
Proof.
  refine (relay_run_publish _ (example_reading 1) true relay_1 _ _ _ _).
  - vm_compute. reflexivity.
  - refine (relay_run_world relay_1 (rng relay_1) (clock relay_2) _ _ _).
    refine (relay_run_publish _ (example_reading 2) false relay_3 _ _ _ _).
    + vm_compute. reflexivity.
    + apply relay_run_nil.
Qed.

(** The 5g profile gives a latency of at least one millisecond; the profile
    with the inverted latency range raises. *)
Lemma latency_is_clamped_to_one_millisecond_witness :
  (exists n s',
     get_latency_ms (example_profile 0 0) (example_world [] [5%Z; (-40)%Z] [] [] [])
     = (Returned n, s')
     /\ (1 <= n)%Z)
  /\ exists s',
       get_latency_ms (from_config "5g" inverted_profile_doc)
         (example_world [] [] [] [] [])
       = (Raised ValueError, s').
Proof.
  split.
  - destruct (proj1 (latency_is_clamped_to_one_millisecond
                       (example_profile 0 0) (example_world [] [5%Z; (-40)%Z] [] [] [])))
      as (n & s' & E & Hn & _).
    + vm_compute. split; discriminate.
    + exists n, s'. split; assumption.
  - destruct (proj2 (latency_is_clamped_to_one_millisecond
                       (from_config "5g" inverted_profile_doc)
                       (example_world [] [] [] [] [])))
      as (s' & E & _).
    + intros [Hl _]. vm_compute in Hl. apply Hl. reflexivity.
    + exists s'. exact E.
Defined.

(** The summary of [relay_3], whose clock reads 100: nothing was handed to
    the sink, so the rate is zero. *)
Lemma summary_never_divides_by_zero_witness :
  exists sm,
    get_summary relay_3 = (Returned sm, set_clock (clock_after_read (clock relay_3)) relay_3)
    /\ sum_messages_received sm = 2%Z
    /\ sum_messages_dropped sm = 1%Z.
Proof.
  destruct (summary_never_divides_by_zero relay_3)
    as (sm & E & Hrec & _ & Hdrop & _).
  exists sm. split; [exact E|]. split; [rewrite Hrec|rewrite Hdrop]; vm_compute; reflexivity.
Defined.

(** The buffer of [relay_1] holds one message, queued at time 1. *)
Lemma drain_forwards_every_due_entry_witness :
  exists s',
    _process_reorder_buffer relay_1 = (Returned tt, s')
    /\ Forall (fun e => due (_reorder_delay_seconds (self relay_1))
                            (time_script (clock relay_1) (time_reads (clock relay_1))) e
                        = false)
              (_reorder_buffer (self s')).
Proof.
  destruct (drain_forwards_every_due_entry relay_1) as (s' & E & _ & _ & Hdue & _).
  - vm_compute. split; [constructor|exact I].
  - exists s'. split; assumption.
Defined.

(** A relay that queues every message, on the steady clock. *)
Lemma publish_keeps_arrival_order_witness :
  monotone_clock (clock (after (publish (example_reading 1)) queueing_relay))
  /\ buffer_behind_clock (after (publish (example_reading 1)) queueing_relay).
Proof.
  destruct (publish_keeps_arrival_order (example_reading 1) queueing_relay
              (after (publish (example_reading 1)) queueing_relay) true)
    as (Hm & Hb & _).
  - apply steady_clock_monotone. reflexivity.
  - vm_compute. split; [exact I|constructor].
  - vm_compute. reflexivity.
  - split; assumption.
Defined.


(** The counters of [relay_3]. *)
Lemma relay_counters_are_consistent_witness :
  (0 <= messages_dropped (stats (self relay_3)) <= messages_received (stats (self relay_3)))%Z
  /\ messages_published (stats (self relay_3)) = 0%Z
  /\ start_time (stats (self relay_3)) = 0.
Proof.
  destruct (relay_counters_are_consistent "demo"%string "ami-meter-data"%string
              (example_profile (1 # 2) (1 # 2))
              (example_world [3 # 4; 0; 0] [] [] [0; 1; 1; 50; 100] [])
              (set_self tt relay_0) (self relay_0) _ relay_3
              relay_0_constructed relay_0_runs)
    as (Hd & _ & _ & Hpub & _ & Hstart).
  split; [exact Hd|]. split; [exact Hpub|exact Hstart].
Defined.

(** The sink of [relay_3] after shutdown. *)
Lemma sink_calls_are_well_addressed_witness :
  exists s',
    shutdown relay_3 = (Returned tt, s')
    /\ Forall (well_addressed "demo" "ami-meter-data" (example_profile (1 # 2) (1 # 2)))
              (publisher (self s')).
Proof.
  exact (proj2 (sink_calls_are_well_addressed "demo"%string "ami-meter-data"%string
                  (example_profile (1 # 2) (1 # 2))
                  (example_world [3 # 4; 0; 0] [] [] [0; 1; 1; 50; 100] [])
                  (set_self tt relay_0) (self relay_0) _ relay_3
                  relay_0_constructed relay_0_runs)).
Defined.


(** The first call of [relay_0] is queued: the clock is read twice. *)
Lemma publish_sleeps_for_the_latency_witness :
  exists latency : Z,
    (1 <= latency <= 130)%Z
    /\ slept (clock relay_1) = slept (clock relay_0) + inject_Z latency / 1000.
Proof.
  destruct (publish_sleeps_for_the_latency (example_reading 1) relay_0 relay_1 true)
    as [_ Hok].
  - vm_compute. reflexivity.
  - destruct (Hok eq_refl) as (latency & Hl & Hs & _).
    exists latency. split; [exact Hl|exact Hs].
Defined.

(** ** Further properties of the simulator *)

Section SimulatorProperties.
Context {G : Type} `{PyLib G}.

(** X11.  [MeterSimulator.__init__] creates one meter per configured meter
    (none when [num_meters] is negative).  Meter [i] is named
    [<prefix>_<pole>_<i, zero-padded to four digits>], belongs to the pole
    of the configuration, starts with sequence number 0 and no sag, and has
    its load factor and power factor within the configured ranges (when the
    range is not inverted).  The names of the meters are pairwise distinct.
    The time of the last forced sag is the clock reading of the
    construction. *)
Theorem init_creates_the_configured_meters {T}
  (cfg : SimulatorConfig) (seed : option Z) (w w' : Process G T) (sim : MeterSimulator) :
  MeterSimulator__init__ cfg seed w = (Returned sim, w') ->
  config sim = cfg
  /\ length (meters sim) = Z.to_nat (num_meters cfg)
  /\ (forall (i : nat) (m : MeterState.t),
        meters sim !! i = Some m ->
        MeterState.meter_id m = meter_name cfg (Z.of_nat i) /\ fresh_meter cfg m)
  /\ NoDup (map MeterState.meter_id (meters sim))
  /\ _last_force_sag_time sim = time_script (clock w) (time_reads (clock w)).
Proof.
  intros E. apply MeterSimulator_init_full in E as (_ & Hcfg & Hids & Hfresh & Hlast & _).
  destruct (py_range_spec (num_meters cfg)) as (Hlen & Hnodup & Hnonneg & Hlook).
  assert (Hl : length (meters sim) = Z.to_nat (num_meters cfg)).
  { rewrite <- (length_map MeterState.meter_id), Hids, length_map. exact Hlen. }
  split; [exact Hcfg|]. split; [exact Hl|]. split; [|split; [|exact Hlast]].
  - intros i m Hm. split; [|exact (Forall_lookup_1 _ _ _ _ Hfresh Hm)].
    assert (Hi : (i < Z.to_nat (num_meters cfg))%nat)
      by (rewrite <- Hl; eapply lookup_lt_Some; exact Hm).
    assert (Hmap : map MeterState.meter_id (meters sim) !! i
                   = Some (MeterState.meter_id m))
      by (rewrite list_lookup_fmap, Hm; reflexivity).
    rewrite Hids, list_lookup_fmap, (Hlook i Hi) in Hmap. cbn in Hmap. congruence.
  - rewrite Hids. apply NoDup_fmap_2_strong; [|exact Hnodup].
    intros a b Ha Hb. apply meter_name_inj.
    + rewrite Forall_forall in Hnonneg. apply Hnonneg. exact Ha.
    + rewrite Forall_forall in Hnonneg. apply Hnonneg. exact Hb.
Qed.

(** X12.  A seed outside the range that NumPy accepts, from 0 to
    [2**32 - 1], makes the constructor raise ValueError: Python's generator
    has then been seeded, and neither a meter is created nor the clock
    read. *)
Theorem init_rejects_seeds_outside_numpy_range {T}
  (cfg : SimulatorConfig) (n : Z) (w : Process G T) :
  (n < 0 \/ 2 ^ 32 <= n)%Z ->
  MeterSimulator__init__ cfg (Some n) w = (Raised ValueError, set_rng (random_seed n) w).
Proof.
  intros Hn. unfold MeterSimulator__init__, py_random_seed, np_random_seed.
  destruct ((0 <=? n)%Z && (n <? 2 ^ 32)%Z) eqn:E; [lia|]. reflexivity.
Qed.

(** X13.  [generate_batch] returns one reading per meter, in the order of
    the meters: the reading of a meter carries its identifier, its pole and
    its sequence number after the increment.  The call raises the sequence
    number of every meter by one and changes neither the identity of a
    meter nor the configuration. *)
Theorem generate_batch_reads_every_meter_once
  (timestamp : option datetime) (s s' : Process G MeterSimulator)
  (readings : list Reading.t) :
  generate_batch timestamp s = (Returned readings, s') ->
  Forall2 (fun m r => Reading.meter_id r = MeterState.meter_id m
                      /\ Reading.pole_id r = MeterState.pole_id m
                      /\ Reading.seq r = (MeterState.seq m + 1)%Z)
          (meters (self s)) readings
  /\ Forall2 (fun m m' => same_meter m m'
                          /\ MeterState.seq m' = (MeterState.seq m + 1)%Z)
             (meters (self s)) (meters (self s'))
  /\ config (self s') = config (self s).
Proof.
  apply generate_batch_tick.
Qed.

(** X14.  The sequence numbers of a meter have no gap: along any run of a
    constructed simulator, the readings of a meter carry the numbers
    1, 2, 3, ... in the order of the run, together with the name and the
    pole of the meter, and the sequence number of the meter is the number
    of its readings so far. *)
Theorem sequence_numbers_count_the_readings {T}
  (cfg : SimulatorConfig) (seed : option Z) (w w' : Process G T)
  (sim : MeterSimulator) (evs : list sim_event) (s : Process G MeterSimulator)
  (meter : nat) (m : MeterState.t) :
  MeterSimulator__init__ cfg seed w = (Returned sim, w') ->
  sim_run (set_self sim w') evs s ->
  meters sim !! meter = Some m ->
  map Reading.seq (readings_of meter evs) = map Z.of_nat (seq 1 (ticks_of meter evs))
  /\ Forall (fun r => Reading.meter_id r = meter_name cfg (Z.of_nat meter)
                      /\ Reading.pole_id r = pole_id cfg)
            (readings_of meter evs)
  /\ exists m', meters (self s) !! meter = Some m'
       /\ same_meter m m'
       /\ MeterState.seq m' = Z.of_nat (ticks_of meter evs).
Proof.
  intros Einit Hrun Hm.
  destruct (init_creates_the_meter_names cfg seed w w' sim meter m Einit Hm)
    as (Hid & Hpole & Hseq0).
  destruct (sim_run_meter meter _ _ _ Hrun) as (_ & _ & Hmeter).
  destruct (Hmeter m Hm) as (m' & Hm' & Hsame & Hseq & Hseqs & Hids).
  split; [|split].
  - rewrite Hseqs. apply map_ext. intros i. rewrite Hseq0. lia.
  - eapply Forall_impl; [exact Hids|]. cbn. intros r [? ?]. split; congruence.
  - exists m'. split; [exact Hm'|]. split; [exact Hsame|]. rewrite Hseq, Hseq0. lia.
Qed.

End SimulatorProperties.

Section SimulatorEdges.
Context {G : Type} `{PyLib G}.



(** X17.  The load curve never leaves the range of its four plateau
    values: for every hour, also outside [0, 24), the factor lies between
    any lower and any upper bound of the night, morning, midday and evening
    values. *)
Theorem load_curve_stays_between_the_plateaus (cfg : SimulatorConfig) (h lo hi : Q) :
  lo <= night_kw cfg -> lo <= peak_morning_kw cfg ->
  lo <= midday_kw cfg -> lo <= peak_evening_kw cfg ->
  night_kw cfg <= hi -> peak_morning_kw cfg <= hi ->
  midday_kw cfg <= hi -> peak_evening_kw cfg <= hi ->
  lo <= _get_load_curve_factor cfg h /\ _get_load_curve_factor cfg h <= hi.
Proof.
  intros Ln Lm Ld Le Hn Hm Hd He.
  destruct (float_mod_range h) as [H0 H24].
  rewrite (load_curve_at cfg h (float_mod h 24) ltac:(reflexivity) H0 H24).
  set (x := float_mod h 24) in *.
  unfold load_curve_spec, lerp.
  pose proof (progress_unit 5 6 x eq_refl) as P5.
  pose proof (progress_unit 9 10 x eq_refl) as P9.
  pose proof (progress_unit 16 17 x eq_refl) as P16.
  pose proof (progress_unit 21 22 x eq_refl) as P21.
  repeat match goal with
  | |- context [Qlt_le_dec ?a ?b] => destruct (Qlt_le_dec a b)
  end; rewrite ?P5, ?P9, ?P16, ?P21; split; nra.
Qed.

(** X18.  [from_yaml] never uses the deprecated [sample_hz] key: whatever
    the key holds, the configuration is the same.  An explicit
    [sample_interval_seconds] is taken as it is, also when it is zero or
    negative; without it the interval is the one of the preset, 30, 300 or
    900 seconds (30 for an unknown preset).  The [sample_hz] field is the
    reciprocal of a positive interval and 1.0 otherwise, so loading never
    divides by zero. *)
Theorem from_yaml_ignores_sample_hz (doc : ConfigDoc) :
  let sampling := dict_get (doc_sampling doc) empty_sampling in
  let interval := sample_interval_seconds (from_yaml doc) in
  (forall hz, from_yaml (with_sample_hz hz doc) = from_yaml doc)
  /\ (forall v, doc_sample_interval_seconds sampling = Some v -> interval = v)
  /\ (doc_sample_interval_seconds sampling = None ->
      interval = 30 \/ interval = 300 \/ interval = 900)
  /\ (0 < interval -> sample_hz (from_yaml doc) * interval == 1)
  /\ (interval <= 0 -> sample_hz (from_yaml doc) = 1).
Proof.
  cbv zeta. split; [|split; [|split; [|split]]].
  - intros hz. destruct doc as [pole [[preset interval hz0]|] electrical demo logging];
      reflexivity.
  - intros v Hv. unfold from_yaml. cbn. rewrite Hv. reflexivity.
  - intros Hv. unfold from_yaml. cbn. rewrite Hv. unfold preset_intervals_get.
    repeat destruct (String.eqb _ _); auto.
  - unfold from_yaml. cbn.
    match goal with |- context [Qlt_le_dec 0 ?i] => generalize i end.
    intros i Hi. destruct (Qlt_le_dec 0 i); [field; lra|lra].
  - unfold from_yaml. cbn.
    match goal with |- context [Qlt_le_dec 0 ?i] => generalize i end.
    intros i Hi. destruct (Qlt_le_dec 0 i); [lra|reflexivity].
Qed.


(** X20.  With a sampling interval of zero, which [from_yaml] accepts,
    [stream_readings] raises ZeroDivisionError when it starts (its first
    log line divides by the interval): the clock has been read once, and no
    reading is generated. *)
Theorem stream_fails_on_zero_interval
  (duration_seconds : Z) (cycles : nat) (s : Process G MeterSimulator) :
  sample_interval_seconds (config (self s)) == 0 ->
  stream_readings duration_seconds cycles s
  = (Raised ZeroDivisionError, set_clock (clock_after_read (clock s)) s).
Proof.
  intros Hi. unfold stream_readings, time_time. run1. run1.
  unfold float_div. destruct (Qeq_dec _ _) as [_|Hn]; [reflexivity|contradiction].
Qed.




End SimulatorEdges.

(** ** Examples for the further properties of the simulator *)

(** The construction of [plain_0] and of the simulator with power factor
    zero. *)
Lemma plain_0_constructed :
  MeterSimulator__init__ (from_yaml (one_meter_doc None None)) (Some 42%Z)
    (example_world [] [] [] [] [])
  = (Returned (self plain_0), set_self tt plain_0).
Proof. vm_compute. reflexivity. Qed.





(** The one meter of [plain_0]. *)
Lemma init_creates_the_configured_meters_witness :
  length (meters (self plain_0)) = 1%nat
  /\ NoDup (map MeterState.meter_id (meters (self plain_0))).
Proof.
  destruct (init_creates_the_configured_meters
              (from_yaml (one_meter_doc None None)) (Some 42%Z)
              (example_world [] [] [] [] []) (set_self tt plain_0) (self plain_0)
              plain_0_constructed)
    as (_ & Hlen & _ & Hnodup & _).
  split; [exact Hlen|exact Hnodup].
Defined.

(** The seed -1. *)
Lemma init_rejects_seeds_outside_numpy_range_witness :
  MeterSimulator__init__ (from_yaml default_doc) (Some (-1)%Z) (example_world [] [] [] [] [])
  = (Raised ValueError, set_rng (random_seed (-1)) (example_world [] [] [] [] [])).
Proof.
  apply (init_rejects_seeds_outside_numpy_range (from_yaml default_doc) (-1)
           (example_world [] [] [] [] [])).
  left. lia.
Defined.

(** The first batch of [plain_0]. *)
Lemma generate_batch_reads_every_meter_once_witness :
  Forall2 (fun m r => Reading.meter_id r = MeterState.meter_id m
                      /\ Reading.pole_id r = MeterState.pole_id m
                      /\ Reading.seq r = (MeterState.seq m + 1)%Z)
          (meters (self plain_0)) [example_first_reading].
Proof.
  refine (proj1 (generate_batch_reads_every_meter_once (Some noon) plain_0
                   (after (generate_batch (Some noon)) plain_0)
                   [example_first_reading] _)).
  vm_compute. reflexivity.
Defined.

(** Two readings of the meter of [plain_0]: they carry the numbers 1 and 2. *)
Lemma sequence_numbers_count_the_readings_witness :
  map Reading.seq
    (readings_of 0 [EvReading 0 example_first_reading; EvSimWorld;
                    EvReading 0 (example_second_reading)])
  = [1%Z; 2%Z].
Proof.
  refine (proj1 (sequence_numbers_count_the_readings
                   (from_yaml (one_meter_doc None None)) (Some 42%Z)
                   (example_world [] [] [] [] []) (set_self tt plain_0) (self plain_0)
                   _ (after (generate_reading 0 one_pm) (after time_time plain_1))
                   0%nat (meters (self plain_0) !!! 0%nat)
                   plain_0_constructed _ _)).
  - refine (sim_run_reading _ 0%nat noon example_first_reading plain_1 _ _ _ _).
    + vm_compute. reflexivity.
    + refine (sim_run_world plain_1 (rng plain_1) (clock (after time_time plain_1)) _ _ _).
      refine (sim_run_reading _ 0%nat one_pm example_second_reading
                (after (generate_reading 0 one_pm) (after time_time plain_1)) _ _ _ _).
      * vm_compute. reflexivity.
      * apply sim_run_nil.
  - vm_compute. reflexivity.
Defined.



(** The default curve lies between 0.4 and 4 at every hour; here at -3. *)
Lemma load_curve_stays_between_the_plateaus_witness :
  (2 # 5) <= _get_load_curve_factor (from_yaml default_doc) (-3)
  /\ _get_load_curve_factor (from_yaml default_doc) (-3) <= 4.
Proof.
  refine (load_curve_stays_between_the_plateaus (from_yaml default_doc) (-3) (2 # 5) 4
            _ _ _ _ _ _ _ _); vm_compute; discriminate.
Defined.

(** A document with an interval of zero and [sample_hz] 2. *)
Lemma from_yaml_ignores_sample_hz_witness :
  sample_interval_seconds (from_yaml (interval_doc 0)) = 0
  /\ sample_hz (from_yaml (interval_doc 0)) = 1.
Proof.
  destruct (from_yaml_ignores_sample_hz (interval_doc 0)) as (_ & Hv & _ & _ & Hz).
  split.
  - apply Hv. reflexivity.
  - apply Hz. vm_compute. discriminate.
Defined.


(** A simulator with a sampling interval of zero. *)
Lemma stream_fails_on_zero_interval_witness :
  stream_readings 0 3 zero_interval_sim
  = (Raised ZeroDivisionError, set_clock (clock_after_read (clock zero_interval_sim))
                                 zero_interval_sim).
Proof.
  apply (stream_fails_on_zero_interval 0 3 zero_interval_sim).
  vm_compute. reflexivity.
Defined.


(** ** Properties of [run_with_simulator] *)

Section DriverProperties.
Context {G : Type} `{PyLib G}.

Lemma on_relay_shutdown (s : Process G Driver) :
  exists s',
    on_relay shutdown s = (Returned tt, s')
    /\ simulator (self s') = simulator (self s)
    /\ stats (relay (self s')) = stats (relay (self s))
    /\ _shutdown (relay (self s')) = true
    /\ _reorder_buffer (relay (self s')) = []
    /\ publisher (relay (self s'))
       = publisher (relay (self s))
         ++ map (call_of (relay (self s))) (map snd (_reorder_buffer (relay (self s)))).
Proof.
  destruct (shutdown_spec (relay_view s)) as (s1 & E & Hst & Hsh & _ & Hbuf & Hpub).
  eexists. split; [apply on_relay_step; exact E|].
  cbn [self set_self simulator relay]. repeat split; assumption.
Qed.

(** The [finally] clause: whatever ends the loop, the relay is shut down. *)
Lemma run_with_simulator_inv (duration_seconds log_interval_seconds : Z) (cycles : nat)
  (s s' : Process G Driver) (o : outcome loop_state) :
  run_with_simulator duration_seconds log_interval_seconds cycles s = (o, s') ->
  let s0 := set_clock (clock_after_read (clock s)) s in
  let last_log := time_script (clock s) (time_reads (clock s)) in
  (o = Returned Running
   /\ run_loop duration_seconds log_interval_seconds cycles last_log s0
      = (Returned Running, s'))
  \/ (o <> Returned Running
      /\ exists s1,
           run_loop duration_seconds log_interval_seconds cycles last_log s0 = (o, s1)
           /\ on_relay shutdown s1 = (Returned tt, s')).
Proof.
  intros E s0 last_log. unfold run_with_simulator, time_time in E.
  unfold bind at 1 in E. cbv beta iota in E.
  change (run_loop _ _ _ _ _)
    with (run_loop duration_seconds log_interval_seconds cycles last_log s0) in E.
  destruct (run_loop duration_seconds log_interval_seconds cycles last_log s0)
    as [[[|]|e] s1] eqn:Eloop.
  - destruct (on_relay_shutdown s1) as (s2 & E2 & _). rewrite E2 in E.
    injection E as <- <-. right. split; [discriminate|]. exists s1. split; [reflexivity|exact E2].
  - injection E as <- <-. left. split; reflexivity.
  - destruct (on_relay_shutdown s1) as (s2 & E2 & _). rewrite E2 in E.
    injection E as <- <-. right. split; [discriminate|]. exists s1. split; [reflexivity|exact E2].
Qed.

(** X22.  [run_with_simulator] shuts the relay down whatever ends its loop,
    the duration limit, a [break] or an exception of the simulator or of
    [publish]: when the call is over, with a result or with an exception,
    the shutdown flag is set and the reorder buffer is empty. *)
Theorem run_always_ends_with_shutdown
  (duration_seconds log_interval_seconds : Z) (cycles : nat)
  (s s' : Process G Driver) (o : outcome loop_state) :
  run_with_simulator duration_seconds log_interval_seconds cycles s = (o, s') ->
  o <> Returned Running ->
  _shutdown (relay (self s')) = true /\ _reorder_buffer (relay (self s')) = [].
Proof.
  intros E Ho. apply run_with_simulator_inv in E as [(-> & _)|(_ & s1 & _ & E2)];
    [contradiction|].
  destruct (on_relay_shutdown s1) as (s2 & E2' & _ & _ & Hsh & Hbuf & _).
  rewrite E2' in E2. injection E2 as <-. split; assumption.
Qed.

(** X23.  When [run_with_simulator] returns, no message is lost or
    duplicated between the simulator and the sink.  During the call the
    simulator made a run of [generate_reading] calls that all returned,
    with the readings [generated], and the relay a run in which exactly the
    messages [passed] were passed to [publish], in this order, followed by
    [shutdown]: [passed] is [generated], unless the relay was shut down
    before the call, when nothing is passed.  The calls for the messages
    [sent], which are among [passed] in their order, returned True; the
    received counter grows by the number of [passed], the dropped counter
    by the number of those not [sent]; and the sink holds what the relay
    held before and the messages [sent], each once.  The buffer is empty
    and the flag is set. *)
Theorem run_publishes_every_reading
  (duration_seconds log_interval_seconds : Z) (cycles : nat) (s s' : Process G Driver) :
  run_with_simulator duration_seconds log_interval_seconds cycles s
  = (Returned Finished, s') ->
  let r := relay (self s) in
  let r' := relay (self s') in
  exists (s1 : Process G Driver) (generated passed sent : list Reading.t),
    simulated generated s s1
    /\ relayed passed sent s s1
    /\ on_relay shutdown s1 = (Returned tt, s')
    /\ simulator (self s') = simulator (self s1)
    /\ passed = (if _shutdown r then [] else generated)
    /\ sublist sent passed
    /\ messages_received (stats r')
       = (messages_received (stats r) + Z.of_nat (length passed))%Z
    /\ messages_dropped (stats r')
       = (messages_dropped (stats r)
          + (Z.of_nat (length passed) - Z.of_nat (length sent)))%Z
    /\ map call_data (publisher r') ≡ₚ held r ++ sent
    /\ _reorder_buffer r' = [] /\ _shutdown r' = true.
Proof.
  intros E. cbv zeta.
  apply run_with_simulator_inv in E as [(E & _)|(_ & s1 & Eloop & E2)]; [discriminate|].
  unfold run_loop in Eloop. step_eq Eloop interval sa. step_eq Eloop start sb.
  step Eloop x sc Ec.
  assert (sc = set_clock (clock_after_read (clock (set_clock (clock_after_read (clock s)) s)))
                 (set_clock (clock_after_read (clock s)) s)) as ->.
  { unfold float_div in Ec. destruct (Qeq_dec _ _) in Ec; [discriminate|].
    got Ec x sc. reflexivity. }
  apply relay_stream_spec in Eloop
    as (_ & _ & Hflag & gen & passed & sent & Hsim & Hrel & Hfalse & Htrue).
  cbn [self set_clock] in Hflag, Hfalse, Htrue.
  assert (Hrel0 : relayed passed sent s s1).
  { change passed with ([] ++ passed). change sent with ([] ++ sent).
    eapply relayed_trans; [|exact Hrel]. apply relayed_world. reflexivity. }
  assert (Hsim0 : simulated gen s s1).
  { change gen with ([] ++ gen).
    eapply simulated_trans; [|exact Hsim]. apply simulated_world. reflexivity. }
  pose proof (relayed_spec _ _ _ _ Hrel0) as (_ & Hsub & Hrec & Hdrop & Hheld).
  destruct (on_relay_shutdown s1) as (s2 & E2' & Hsimeq & Hst & Hsh & Hbuf & Hpub).
  rewrite E2' in E2. injection E2 as <-.
  exists s1, gen, passed, sent.
  split; [exact Hsim0|]. split; [exact Hrel0|]. split; [exact E2'|].
  split; [exact Hsimeq|].
  split.
  { destruct (_shutdown (relay (self s))); [apply Htrue|apply Hfalse]; reflexivity. }
  split; [exact Hsub|]. rewrite Hst.
  split; [exact Hrec|]. split; [exact Hdrop|].
  split; [|split; assumption].
  rewrite Hpub, map_app, call_data_call_of. exact Hheld.
Qed.


(** X25.  With a duration limit the run ends: if every reading of the clock
    from the [N]-th on is past the start of the stream by the duration,
    more than [N] cycles are never needed; the call then returns or raises,
    and the relay is shut down. *)
Theorem run_ends_when_the_duration_is_over
  (duration_seconds log_interval_seconds : Z) (N cycles : nat) (s : Process G Driver) :
  (0 < duration_seconds)%Z ->
  (forall k, (N <= k)%nat ->
             inject_Z duration_seconds
             <= time_script (clock s) k - time_script (clock s) (S (time_reads (clock s)))) ->
  (N < cycles)%nat ->
  exists o s',
    run_with_simulator duration_seconds log_interval_seconds cycles s = (o, s')
    /\ o <> Returned Running
    /\ _shutdown (relay (self s')) = true.
Proof.
  intros Hd Hdead Hfuel.
  destruct (run_with_simulator duration_seconds log_interval_seconds cycles s)
    as [o s'] eqn:E.
  exists o, s'. split; [reflexivity|].
  apply run_with_simulator_inv in E as [(-> & Eloop)|(Ho & s1 & _ & E2)].
  - exfalso. unfold run_loop in Eloop. step_eq Eloop interval sa. step_eq Eloop start sb.
    step Eloop x sc Ec.
    assert (sc = set_clock (clock_after_read (clock (set_clock (clock_after_read (clock s)) s)))
                   (set_clock (clock_after_read (clock s)) s)) as ->.
    { unfold float_div in Ec. destruct (Qeq_dec _ _) in Ec; [discriminate|].
      got Ec x sc. reflexivity. }
    apply (relay_stream_ends _ _ _ _ N Hd) in Eloop; [discriminate|exact Hdead|].
    cbn. lia.
  - split; [exact Ho|].
    destruct (on_relay_shutdown s1) as (s2 & E2' & _ & _ & Hsh & _).
    rewrite E2' in E2. injection E2 as <-. exact Hsh.
Qed.


End DriverProperties.

(** ** Examples for the driver loop *)



(** The driver with a sampling interval of zero: the stream raises at its
    start, and the relay is shut down all the same. *)
Lemma run_always_ends_with_shutdown_witness :
  _shutdown (relay (self (after (run_with_simulator 0 10 3) zero_interval_driver))) = true
  /\ _reorder_buffer (relay (self (after (run_with_simulator 0 10 3) zero_interval_driver)))
     = [].
Proof.
  refine (run_always_ends_with_shutdown 0 10 3 zero_interval_driver
            (after (run_with_simulator 0 10 3) zero_interval_driver)
            (Raised ZeroDivisionError) _ _).
  - vm_compute. reflexivity.
  - discriminate.
Defined.

(** A run of three seconds on the steady clock: one cycle of two meters,
    whose two readings are passed on and reach the sink. *)
Lemma run_publishes_every_reading_witness :
  exists (s1 : Process ScriptedRng Driver) (generated passed sent : list Reading.t),
    simulated generated example_driver s1
    /\ relayed passed sent example_driver s1
    /\ passed = generated
    /\ sublist sent passed
    /\ map call_data
         (publisher (relay (self (after (run_with_simulator 3 10 5) example_driver))))
       ≡ₚ sent.
Proof.
  destruct (run_publishes_every_reading 3 10 5 example_driver
              (after (run_with_simulator 3 10 5) example_driver))
    as (s1 & gen & passed & sent & Hsim & Hrel & _ & _ & Hpassed & Hsub & _ & _ & Hsink & _).
  - vm_compute. reflexivity.
  - exists s1, gen, passed, sent. repeat (split; [assumption|]). exact Hsink.
Defined.





(** On the steady clock a run of one second is over after four readings
    of the clock. *)
Lemma run_ends_when_the_duration_is_over_witness :
  exists o s',
    run_with_simulator 1 10 5 example_driver = (o, s')
    /\ o <> Returned Running
    /\ _shutdown (relay (self s')) = true.
Proof.
  refine (run_ends_when_the_duration_is_over 1 10 4 5 example_driver _ _ _).
  - lia.
  - intros k Hk.
    change (inject_Z 1 <= inject_Z (Z.of_nat k) - inject_Z 3).
    assert (inject_Z 4 <= inject_Z (Z.of_nat k)) as Hk' by (rewrite <- Zle_Qle; lia).
    change (inject_Z 4) with 4 in Hk'. change (inject_Z 3) with 3.
    change (inject_Z 1) with 1. lra.
  - lia.
Defined.

